(** * EmuDrop image cache: [utils/image_cache.py]

    A shallow embedding of [ImageCache] (path resolution, download with
    retries and fallback, oldest-first eviction) and the properties of it.

    Modelling conventions.
    - A Python [str] is the Rocq [string] of its UTF-8 bytes; the characters
      the code inspects ('?', '.', '/') are ASCII, so byte positions and
      character positions agree on them. Strings that UTF-8 cannot encode
      (lone surrogates), on which [image_url.encode()] raises, have no
      counterpart here.
    - Python [int] is [Z]; the megabyte quantities of [clear_old_cache]
      (results of true division by [1024 * 1024]) are rationals [Q].
    - [os.path] is [posixpath].
    - The process environment (file system, clock, network, logger) is an
      explicit world threaded through a state-and-exception monad. *)

From Stdlib Require Import ZArith List String Ascii Bool Lia QArith Permutation Sorted.
Import ListNotations.
Local Open Scope string_scope.
Local Open Scope list_scope.
Local Open Scope Z_scope.

(** ** Python string operations used by the module *)

Module PyStr.

(** [s.startswith(prefix)] *)
Fixpoint startswith (pre s : string) : bool :=
  match pre, s with
  | EmptyString, _ => true
  | String a pre', String b s' => Ascii.eqb a b && startswith pre' s'
  | String _ _, EmptyString => false
  end.

(** [s.endswith(c)] for a one-character suffix. *)
Fixpoint endswith_char (c : ascii) (s : string) : bool :=
  match s with
  | EmptyString => false
  | String a EmptyString => Ascii.eqb a c
  | String _ s' => endswith_char c s'
  end.

(** [s[i:]] for [0 <= i]. *)
Fixpoint drop (n : nat) (s : string) : string :=
  match n, s with
  | O, _ => s
  | S k, String _ s' => drop k s'
  | S _, EmptyString => EmptyString
  end.

(** [s[:j]] for [0 <= j]. *)
Fixpoint take (n : nat) (s : string) : string :=
  match n, s with
  | S k, String a s' => String a (take k s')
  | _, _ => EmptyString
  end.

(** [s[i:j]] for [0 <= i]; a negative [j - i] gives the empty string. *)
Definition slice (s : string) (i j : Z) : string :=
  take (Z.to_nat (j - i)) (drop (Z.to_nat i) s).

Definition slice_from (s : string) (i : Z) : string := drop (Z.to_nat i) s.
Definition slice_to (s : string) (j : Z) : string := take (Z.to_nat j) s.

(** [s.rfind(c)]: the highest index of [c] in [s], or [-1]. The scan
    carries the index [i] of the head and the last match seen. *)
Fixpoint rfind_from (c : ascii) (s : string) (i last : Z) : Z :=
  match s with
  | EmptyString => last
  | String a s' => rfind_from c s' (i + 1) (if Ascii.eqb a c then i else last)
  end.

Definition rfind (c : ascii) (s : string) : Z := rfind_from c s 0 (-1).

(** [s.split(c)]: the pieces of [s] between occurrences of [c]; never
    empty. [cur] accumulates the current piece in reverse. *)
Fixpoint split_acc (c : ascii) (s : string) (cur : list ascii) : list string :=
  match s with
  | EmptyString => [string_of_list_ascii (rev cur)]
  | String a s' =>
      if Ascii.eqb a c
      then string_of_list_ascii (rev cur) :: split_acc c s' []
      else split_acc c s' (a :: cur)
  end.

Definition split (c : ascii) (s : string) : list string := split_acc c s [].

(** Truth value of a [str]: non-empty. *)
Definition truthy (s : string) : bool :=
  match s with EmptyString => false | _ => true end.

(** [a or b] on strings. *)
Definition or_else (a b : string) : string := if truthy a then a else b.

(** [s.lower()] on the ASCII letters, as header names compare. *)
Definition lower_char (c : ascii) : ascii :=
  let n := nat_of_ascii c in
  if ((65 <=? n) && (n <=? 90))%nat then ascii_of_nat (n + 32) else c.

Fixpoint lower (s : string) : string :=
  match s with
  | EmptyString => EmptyString
  | String a s' => String (lower_char a) (lower s')
  end.

End PyStr.

(** ** [hashlib.md5(...).hexdigest()] (RFC 1321) *)

Module MD5.

Definition mask32 : Z := 4294967295.
Definition wrap32 (x : Z) : Z := Z.land x mask32.
Definition add32 (x y : Z) : Z := wrap32 (x + y).
Definition not32 (x : Z) : Z := Z.lxor x mask32.
Definition rotl32 (x s : Z) : Z :=
  wrap32 (Z.lor (Z.shiftl x s) (Z.shiftr x (32 - s))).

Definition K : list Z :=
  [3614090360; 3905402710; 606105819; 3250441966; 4118548399; 1200080426;
   2821735955; 4249261313; 1770035416; 2336552879; 4294925233; 2304563134;
   1804603682; 4254626195; 2792965006; 1236535329; 4129170786; 3225465664;
   643717713; 3921069994; 3593408605; 38016083; 3634488961; 3889429448;
   568446438; 3275163606; 4107603335; 1163531501; 2850285829; 4243563512;
   1735328473; 2368359562; 4294588738; 2272392833; 1839030562; 4259657740;
   2763975236; 1272893353; 4139469664; 3200236656; 681279174; 3936430074;
   3572445317; 76029189; 3654602809; 3873151461; 530742520; 3299628645;
   4096336452; 1126891415; 2878612391; 4237533241; 1700485571; 2399980690;
   4293915773; 2240044497; 1873313359; 4264355552; 2734768916; 1309151649;
   4149444226; 3174756917; 718787259; 3951481745].

Definition shifts : list Z :=
  [7; 12; 17; 22; 7; 12; 17; 22; 7; 12; 17; 22; 7; 12; 17; 22;
   5; 9; 14; 20; 5; 9; 14; 20; 5; 9; 14; 20; 5; 9; 14; 20;
   4; 11; 16; 23; 4; 11; 16; 23; 4; 11; 16; 23; 4; 11; 16; 23;
   6; 10; 15; 21; 6; 10; 15; 21; 6; 10; 15; 21; 6; 10; 15; 21].

Record regs := mkRegs { rA : Z; rB : Z; rC : Z; rD : Z }.

Definition init : regs :=
  mkRegs 1732584193 4023233417 2562383102 271733878.

(** One of the 64 operations of a block; [M] are its 16 words. *)
Definition step (M : list Z) (r : regs) (i : nat) : regs :=
  let '(mkRegs a b c d) := r in
  let iz := Z.of_nat i in
  let '(f, g) :=
    if (i <? 16)%nat then
      (Z.lor (Z.land b c) (Z.land (not32 b) d), iz)
    else if (i <? 32)%nat then
      (Z.lor (Z.land d b) (Z.land (not32 d) c), (5 * iz + 1) mod 16)
    else if (i <? 48)%nat then
      (Z.lxor (Z.lxor b c) d, (3 * iz + 5) mod 16)
    else
      (Z.lxor c (Z.lor b (not32 d)), (7 * iz) mod 16) in
  let f' := add32 (add32 (add32 f a) (nth i K 0)) (nth (Z.to_nat g) M 0) in
  mkRegs d (add32 b (rotl32 f' (nth i shifts 0))) b c.

Definition block (r : regs) (M : list Z) : regs :=
  let r' := fold_left (step M) (seq 0 64) r in
  mkRegs (add32 (rA r) (rA r')) (add32 (rB r) (rB r'))
         (add32 (rC r) (rC r')) (add32 (rD r) (rD r')).

(** Little-endian bytes of a [w]-byte number and back. *)
Fixpoint le_bytes (w : nat) (x : Z) : list Z :=
  match w with
  | O => []
  | S k => Z.land x 255 :: le_bytes k (Z.shiftr x 8)
  end.

Fixpoint le_word (bs : list Z) : Z :=
  match bs with
  | [] => 0
  | b :: bs' => b + 256 * le_word bs'
  end.

(** Message padding: a [0x80] byte, zeros up to 56 modulo 64, then the
    bit length on 8 bytes. *)
Definition pad (msg : list Z) : list Z :=
  let n := Z.of_nat (List.length msg) in
  let zeros := Z.to_nat ((55 - n) mod 64) in
  msg ++ 128 :: repeat 0 zeros ++ le_bytes 8 (Z.land (8 * n) 18446744073709551615).

(** Cut a byte list into groups of [k]; [fuel] bounds the number of groups. *)
Fixpoint chunks (fuel k : nat) (l : list Z) : list (list Z) :=
  match fuel, l with
  | O, _ | _, [] => []
  | S f, _ => firstn k l :: chunks f k (skipn k l)
  end.

Definition words_of_block (b : list Z) : list Z :=
  map le_word (chunks 16 4 b).

Definition digest (msg : list Z) : list Z :=
  let p := pad msg in
  let blocks := chunks (List.length p) 64 p in
  let r := fold_left (fun r b => block r (words_of_block b)) blocks init in
  le_bytes 4 (rA r) ++ le_bytes 4 (rB r) ++ le_bytes 4 (rC r) ++ le_bytes 4 (rD r).

Definition hex_digit (n : Z) : ascii :=
  nth (Z.to_nat n) (list_ascii_of_string "0123456789abcdef") "0"%char.

Definition hex_of_bytes (bs : list Z) : string :=
  string_of_list_ascii
    (flat_map (fun b => [hex_digit (Z.shiftr b 4); hex_digit (Z.land b 15)]) bs).

(** [hashlib.md5(s.encode()).hexdigest()] *)
Definition hexdigest (s : string) : string :=
  hex_of_bytes
    (digest (map (fun c => Z.of_N (N_of_ascii c)) (list_ascii_of_string s))).

End MD5.

(** ** [os.path] (posixpath) *)

Module OsPath.

Definition sep : ascii := "/"%char.
Definition extsep : ascii := "."%char.

(** The [while] loop of [genericpath._splitext] that skips the leading
    dots of the last component: [true] when a character other than the
    dot is met before [dotIndex]. The loop runs [dotIndex - filenameIndex]
    times at most, which [n] counts down. *)
Fixpoint skip_leading_dots (n : nat) (p : string) (filenameIndex dotIndex : Z) : bool :=
  match n with
  | O => false
  | S k =>
      if filenameIndex <? dotIndex then
        if negb (String.eqb (PyStr.slice p filenameIndex (filenameIndex + 1))
                            (String extsep EmptyString))
        then true
        else skip_leading_dots k p (filenameIndex + 1) dotIndex
      else false
  end.

(** [os.path.splitext(p)]: [(root, ext)]. *)
Definition splitext (p : string) : string * string :=
  let sepIndex := PyStr.rfind sep p in
  let dotIndex := PyStr.rfind extsep p in
  if (sepIndex <? dotIndex)
     && skip_leading_dots (Z.to_nat (dotIndex - (sepIndex + 1))) p (sepIndex + 1) dotIndex
  then (PyStr.slice_to p dotIndex, PyStr.slice_from p dotIndex)
  else (p, EmptyString).

(** [os.path.join(a, b)] *)
Definition join (a b : string) : string :=
  if PyStr.startswith (String sep EmptyString) b then b
  else if negb (PyStr.truthy a) || PyStr.endswith_char sep a then (a ++ b)%string
  else (a ++ String sep b)%string.

End OsPath.

(** ** The environment: exceptions, log records, file system, network *)

(** The exception classes the module can meet. [RequestException] stands
    for the request-layer errors that are neither of the three named ones
    (a chunked-encoding error while streaming, too many redirects, ...);
    [OtherError] for any other [Exception]. *)
Inductive exn : Type :=
| ConnectionError
| Timeout
| HTTPError
| RequestException
| PermissionError
| FileExistsError
| FileNotFoundError
| IsADirectoryError
| NotADirectoryError
| IndexError
| ValueError
| OtherError (name : string).

(** A Python value as [download_image] may receive for [image_url]. *)
Inductive py_value : Type :=
| PyNone
| PyStr (s : string)
| PyInt (z : Z).

Definition py_truthy (v : py_value) : bool :=
  match v with
  | PyNone => false
  | PyStr s => PyStr.truthy s
  | PyInt z => negb (z =? 0)
  end.

Definition isinstance_str (v : py_value) : bool :=
  match v with PyStr _ => true | _ => false end.

Inductive level : Type := INFO | WARNING | ERROR.

(** The log messages of the module, one constructor per f-string. *)
Inductive log_msg : Type :=
| MsgInvalidUrl (image_url : py_value)
| MsgInvalidContentType (image_url content_type : string)
| MsgSaveFailed (image_url : string)
| MsgCached (image_url cached_path : string)
| MsgConnectionError (attempt_no : Z) (image_url : string) (e : exn)
| MsgTimeoutError (attempt_no : Z) (image_url : string) (e : exn)
| MsgRequestError (attempt_no : Z) (image_url : string) (e : exn)
| MsgPermissionError (e : exn)
| MsgUnexpectedError (image_url : string) (e : exn)
| MsgUsingDefault (image_url : string)
| MsgClearCacheError (e : exn).

(** A file-system node: a regular file with its size in bytes and its
    modification time, or a directory. *)
Inductive node : Type :=
| File (size mtime : Z)
| Dir.

(** An HTTP response: [body] lists the lengths of the chunks that
    [iter_content] yields, and [body_error] is what the stream raises once
    they are consumed, if anything. *)
Record response : Type := mkResponse {
  status_code : Z;
  headers : list (string * string);
  body : list N;
  body_error : option exn
}.

Inductive net_result : Type :=
| NetRaise (e : exn)
| NetResponse (r : response).

(** What a call does to the outside besides the file system and the
    log: the requests it sends and the sleeps it takes. *)
Inductive io_event : Type :=
| Requested (url : string)
| Slept (seconds : Z).

(** The world a call runs in. [fs] maps paths to nodes, in directory
    listing order (the first binding of a path is the one in force);
    [denied] are the paths the process may not create or open for writing;
    [net_calls] counts the calls of [requests.get]; [events] records the
    calls of [requests.get] and of [time.sleep], in order. *)
Record world : Type := mkWorld {
  fs : list (string * node);
  denied : list string;
  clock : Z;
  net_calls : nat;
  events : list io_event;
  logs : list (level * log_msg)
}.

(** Modelled from the spec: [utils/config.py] is not among the sources;
    these are the configuration values section 6 of the specification
    lists, with the types the code uses them at. *)
Record Config : Type := mkConfig {
  IMAGES_CACHE_DIR : string;
  IMAGE_DOWNLOAD_MAX_RETRIES : Z;
  IMAGE_DOWNLOAD_TIMEOUT : Z * Z;
  IMAGE_DOWNLOAD_RETRY_DELAYS : list Z;
  DEFAULT_IMAGE_PATH : string;
  IMAGE_CACHE_MAX_SIZE_MB : Z
}.

(** ** A state-and-exception monad over the world *)

Inductive result (A : Type) : Type :=
| Ok (a : A)
| Raise (e : exn).
Arguments Ok {A} a.
Arguments Raise {A} e.

Definition M (A : Type) : Type := world -> result A * world.

Definition ret {A} (a : A) : M A := fun w => (Ok a, w).

Definition bind {A B} (m : M A) (k : A -> M B) : M B :=
  fun w => match m w with
           | (Ok a, w') => k a w'
           | (Raise e, w') => (Raise e, w')
           end.

Definition raise {A} (e : exn) : M A := fun w => (Raise e, w).

(** [try: m except Exception as e: h e] *)
Definition try_except {A} (m : M A) (h : exn -> M A) : M A :=
  fun w => match m w with
           | (Ok a, w') => (Ok a, w')
           | (Raise e, w') => h e w'
           end.

Declare Scope monad_scope.
Delimit Scope monad_scope with monad.
Notation "x <- m ;; k" := (bind m (fun x => k))
  (at level 61, m at next level, right associativity) : monad_scope.
Notation "m ;; k" := (bind m (fun _ => k))
  (at level 61, right associativity) : monad_scope.
Local Open Scope monad_scope.

Fixpoint mapM {A B} (f : A -> M B) (l : list A) : M (list B) :=
  match l with
  | [] => ret []
  | x :: xs => y <- f x ;; ys <- mapM f xs ;; ret (y :: ys)
  end.

(** World updates. *)
Definition set_fs (f : list (string * node)) (w : world) : world :=
  mkWorld f (denied w) (clock w) (net_calls w) (events w) (logs w).

Definition add_log (lv : level) (m : log_msg) (w : world) : world :=
  mkWorld (fs w) (denied w) (clock w) (net_calls w) (events w) (logs w ++ [(lv, m)]).

Definition count_request (url : string) (w : world) : world :=
  mkWorld (fs w) (denied w) (clock w) (S (net_calls w))
          (events w ++ [Requested url]) (logs w).

Definition add_sleep (d : Z) (w : world) : world :=
  mkWorld (fs w) (denied w) (clock w + d) (net_calls w)
          (events w ++ [Slept d]) (logs w).

(** [logger.info], [logger.warning], [logger.error] *)
Definition logger (lv : level) (m : log_msg) : M unit :=
  fun w => (Ok tt, add_log lv m w).

(** ** [os] and [os.path] on the world's file system *)

Module Os.

Fixpoint lookup (p : string) (f : list (string * node)) : option node :=
  match f with
  | [] => None
  | (q, n) :: f' => if String.eqb q p then Some n else lookup p f'
  end.

(** Drop every binding of [p]. *)
Definition unlink (p : string) (f : list (string * node)) : list (string * node) :=
  filter (fun e => negb (String.eqb (fst e) p)) f.

(** Rebind [p] in place, or add it at the end of the listing. *)
Fixpoint store (p : string) (n : node) (f : list (string * node)) : list (string * node) :=
  match f with
  | [] => [(p, n)]
  | (q, m) :: f' => if String.eqb q p then (q, n) :: f' else (q, m) :: store p n f'
  end.

Definition path_exists (p : string) (w : world) : bool :=
  match lookup p (fs w) with Some _ => true | None => false end.

Definition path_isfile (p : string) (w : world) : bool :=
  match lookup p (fs w) with Some (File _ _) => true | _ => false end.

(** [os.path.exists(p)] *)
Definition exists_ (p : string) : M bool := fun w => (Ok (path_exists p w), w).

(** [os.path.isfile(p)] *)
Definition isfile (p : string) : M bool := fun w => (Ok (path_isfile p w), w).

(** [os.path.getsize(p)]. The module only asks the size of regular
    files; a directory answers 0 here. *)
Definition getsize (p : string) : M Z :=
  fun w => match lookup p (fs w) with
           | Some (File sz _) => (Ok sz, w)
           | Some Dir => (Ok 0, w)
           | None => (Raise FileNotFoundError, w)
           end.

(** [os.path.getmtime(p)] *)
Definition getmtime (p : string) : M Z :=
  fun w => match lookup p (fs w) with
           | Some (File _ mt) => (Ok mt, w)
           | Some Dir => (Ok 0, w)
           | None => (Raise FileNotFoundError, w)
           end.

(** [os.remove(p)] *)
Definition remove (p : string) : M unit :=
  fun w => match lookup p (fs w) with
           | Some (File _ _) => (Ok tt, set_fs (unlink p (fs w)) w)
           | Some Dir => (Raise IsADirectoryError, w)
           | None => (Raise FileNotFoundError, w)
           end.

(** The prefix the entries of directory [d] carry: [os.path.join(d, "")]. *)
Definition dir_prefix (d : string) : string := OsPath.join d "".

(** The name of [p] inside directory prefix [pre], when [p] lies
    directly in it. *)
Fixpoint child_name (pre p : string) : option string :=
  match pre, p with
  | EmptyString, EmptyString => None
  | EmptyString, _ =>
      if PyStr.rfind OsPath.sep p <? 0 then Some p else None
  | String a pre', String b p' =>
      if Ascii.eqb a b then child_name pre' p' else None
  | String _ _, EmptyString => None
  end.

Fixpoint children (pre : string) (f : list (string * node)) : list string :=
  match f with
  | [] => []
  | (q, _) :: f' =>
      match child_name pre q with
      | Some n => n :: children pre f'
      | None => children pre f'
      end
  end.

(** [os.listdir(d)] *)
Definition listdir (d : string) : M (list string) :=
  fun w => match lookup d (fs w) with
           | Some Dir => (Ok (children (dir_prefix d) (fs w)), w)
           | Some (File _ _) => (Raise NotADirectoryError, w)
           | None => (Raise FileNotFoundError, w)
           end.

(** [os.makedirs(d, exist_ok=True)] *)
Definition makedirs (d : string) : M unit :=
  fun w => match lookup d (fs w) with
           | Some Dir => (Ok tt, w)
           | Some (File _ _) => (Raise FileExistsError, w)
           | None =>
               if negb (PyStr.truthy d) then (Raise FileNotFoundError, w)
               else if existsb (String.eqb d) (denied w) then (Raise PermissionError, w)
               else (Ok tt, set_fs (fs w ++ [(d, Dir)]) w)
           end.

(** [open(p, 'wb')]: creates or truncates the file. *)
Definition open_wb (p : string) : M unit :=
  fun w => if existsb (String.eqb p) (denied w) then (Raise PermissionError, w)
           else match lookup p (fs w) with
                | Some Dir => (Raise IsADirectoryError, w)
                | _ => (Ok tt, set_fs (store p (File 0 (clock w)) (fs w)) w)
                end.

(** [f.write(chunk)] on the file opened at [p], for a chunk of [n] bytes. *)
Definition write (p : string) (n : Z) : M unit :=
  fun w => match lookup p (fs w) with
           | Some (File sz _) => (Ok tt, set_fs (store p (File (sz + n) (clock w)) (fs w)) w)
           | _ => (Raise (OtherError "ValueError: I/O operation on closed file"), w)
           end.

End Os.

(** ** [time] and [requests] *)

Module Time.

(** [time.sleep(d)] *)
Definition sleep (d : Z) : M unit :=
  fun w => if d <? 0 then (Raise ValueError, w) else (Ok tt, add_sleep d w).

End Time.

Module Requests.

(** [requests.get(url, ...)]: the network answers the [n]-th request of
    the process for [url] with [network url n]. *)
Definition get (network : string -> nat -> net_result) (url : string) : M response :=
  fun w =>
    match network url (net_calls w) with
    | NetRaise e => (Raise e, count_request url w)
    | NetResponse r => (Ok r, count_request url w)
    end.

(** [response.raise_for_status()] *)
Definition raise_for_status (r : response) : M unit :=
  if (400 <=? status_code r) && (status_code r <? 600) then raise HTTPError else ret tt.

(** [response.headers.get(key, default)], on a case-insensitive dictionary. *)
Fixpoint headers_lookup (key : string) (h : list (string * string)) : option string :=
  match h with
  | [] => None
  | (k, v) :: h' =>
      if String.eqb (PyStr.lower k) (PyStr.lower key) then Some v
      else headers_lookup key h'
  end.

Definition headers_get (r : response) (key default : string) : string :=
  match headers_lookup key (headers r) with
  | Some v => v
  | None => default
  end.

End Requests.

(** ** [class ImageCache] *)

(** How one pass through the body of the retry loop ends: at the [return],
    at a [continue], at a [break], or by falling out of the [try] statement
    through one of the handlers that log a warning. *)
Inductive ctrl : Type :=
| CReturn (path : string)
| CContinue
| CBreak
| CHandled.

Module ImageCache.
Section WithConfig.

Variable cfg : Config.
Variable network : string -> nat -> net_result.

(** The extension of the cached file:
    [os.path.splitext(image_url.split('?')[0])[-1] or '.jpg']. For a
    [str] neither [split] nor [splitext] raises, so the [except] branch
    is never taken. *)
Definition file_extension (image_url : string) : string :=
  PyStr.or_else (snd (OsPath.splitext (hd EmptyString (PyStr.split "?" image_url))))
                ".jpg".

Definition cached_filename (image_url : string) : string :=
  (MD5.hexdigest image_url ++ file_extension image_url)%string.

Definition get_cached_image_path (image_url : string) : M string :=
  let cache_dir := IMAGES_CACHE_DIR cfg in
  Os.makedirs cache_dir ;;
  let url_hash := MD5.hexdigest image_url in
  let file_extension := file_extension image_url in
  let cached_filename := (url_hash ++ file_extension)%string in
  let cached_path := OsPath.join cache_dir cached_filename in
  ret cached_path.

(** [for chunk in response.iter_content(chunk_size=8192): f.write(chunk)] *)
Fixpoint write_chunks (cached_path : string) (chunks : list N) : M unit :=
  match chunks with
  | [] => ret tt
  | c :: cs => Os.write cached_path (Z.of_N c) ;; write_chunks cached_path cs
  end.

(** The [with open(cached_path, 'wb') as f] block. *)
Definition save_image (cached_path : string) (r : response) : M unit :=
  Os.open_wb cached_path ;;
  write_chunks cached_path (body r) ;;
  match body_error r with
  | Some e => raise e
  | None => ret tt
  end.

(** The body of the [try] statement (lines 68-98). *)
Definition attempt_body (image_url cached_path : string) : M ctrl :=
  r <- Requests.get network image_url ;;
  Requests.raise_for_status r ;;
  let content_type := Requests.headers_get r "content-type" "" in
  if negb (PyStr.startswith "image/" content_type) then
    logger WARNING (MsgInvalidContentType image_url content_type) ;;
    ret CContinue
  else
    save_image cached_path r ;;
    ex <- Os.exists_ cached_path ;;
    bad <- (if negb ex then ret true
            else (sz <- Os.getsize cached_path ;; ret (sz =? 0))) ;;
    if (bad : bool) then
      logger WARNING (MsgSaveFailed image_url) ;;
      ret CContinue
    else
      logger INFO (MsgCached image_url cached_path) ;;
      ret (CReturn cached_path).

(** The [except] clauses (lines 100-111), in their order. The request
    exceptions derive from [RequestException]; every other class of the
    model derives from [Exception]. *)
Definition handlers (attempt : Z) (image_url : string) (e : exn) : M ctrl :=
  match e with
  | ConnectionError =>
      logger WARNING (MsgConnectionError (attempt + 1) image_url e) ;; ret CHandled
  | Timeout =>
      logger WARNING (MsgTimeoutError (attempt + 1) image_url e) ;; ret CHandled
  | HTTPError | RequestException =>
      logger WARNING (MsgRequestError (attempt + 1) image_url e) ;; ret CHandled
  | PermissionError =>
      logger ERROR (MsgPermissionError e) ;; ret CBreak
  | _ =>
      logger ERROR (MsgUnexpectedError image_url e) ;; ret CBreak
  end.

Definition attempt_try (attempt : Z) (image_url cached_path : string) : M ctrl :=
  try_except (attempt_body image_url cached_path) (handlers attempt image_url).

(** Lines 113-115: the backoff after a handled request failure. *)
Definition backoff (attempt : Z) : M unit :=
  if attempt <? IMAGE_DOWNLOAD_MAX_RETRIES cfg - 1 then
    match nth_error (IMAGE_DOWNLOAD_RETRY_DELAYS cfg) (Z.to_nat attempt) with
    | Some d => Time.sleep d
    | None => raise IndexError
    end
  else ret tt.

(** The [for attempt in ...] loop over the attempts still to make:
    [Some path] when the loop returned [path], [None] when it ended. *)
Fixpoint attempts_loop (image_url cached_path : string) (todo : list Z)
  : M (option string) :=
  match todo with
  | [] => ret None
  | attempt :: rest =>
      c <- attempt_try attempt image_url cached_path ;;
      match c with
      | CReturn p => ret (Some p)
      | CContinue => attempts_loop image_url cached_path rest
      | CBreak => ret None
      | CHandled => backoff attempt ;; attempts_loop image_url cached_path rest
      end
  end.

(** [range(n)] *)
Definition range (n : Z) : list Z := map Z.of_nat (seq 0 (Z.to_nat n)).

(** Lines 117-122. *)
Definition fallback (image_url : string) : M (option string) :=
  ex <- Os.exists_ (DEFAULT_IMAGE_PATH cfg) ;;
  if (ex : bool) then
    logger WARNING (MsgUsingDefault image_url) ;;
    ret (Some (DEFAULT_IMAGE_PATH cfg))
  else ret None.

Definition download_image (image_url : py_value) (force_download : bool)
  : M (option string) :=
  if negb (py_truthy image_url) || negb (isinstance_str image_url) then
    logger ERROR (MsgInvalidUrl image_url) ;; ret None
  else
    match image_url with
    | PyStr url =>
        cached_path <- get_cached_image_path url ;;
        ex <- Os.exists_ cached_path ;;
        if negb force_download && ex then ret (Some cached_path)
        else
          r <- attempts_loop url cached_path (range (IMAGE_DOWNLOAD_MAX_RETRIES cfg)) ;;
          match r with
          | Some p => ret (Some p)
          | None => fallback url
          end
    | _ => ret None
    end.

(** *** Eviction *)

(** [list.sort(key=...)] on the [(key, item)] pairs: a stable insertion
    sort, ascending. *)
Fixpoint insert_by_key (x : Z * string) (l : list (Z * string)) : list (Z * string) :=
  match l with
  | [] => [x]
  | y :: ys => if fst x <=? fst y then x :: y :: ys else y :: insert_by_key x ys
  end.

Definition sort_by_key (l : list (Z * string)) : list (Z * string) :=
  fold_right insert_by_key [] l.

(** [cached_files.sort(key=os.path.getmtime)]: the keys are computed
    first, one call per item. *)
Definition sort_by_mtime (cached_files : list string) : M (list string) :=
  keys <- mapM Os.getmtime cached_files ;;
  ret (map snd (sort_by_key (combine keys cached_files))).

(** The list comprehension of lines 136-139. *)
Fixpoint regular_files (cache_dir : string) (names : list string) : M (list string) :=
  match names with
  | [] => ret []
  | f :: fs' =>
      b <- Os.isfile (OsPath.join cache_dir f) ;;
      rest <- regular_files cache_dir fs' ;;
      ret (if (b : bool) then OsPath.join cache_dir f :: rest else rest)
  end.

Definition MiB : Z := 1024 * 1024.

(** [bytes / (1024 * 1024)]. Python takes the quotient in binary floating
    point; the divisor being a power of two, the quotient is exact for
    every size below 2^53 bytes, and it is kept as a rational here. *)
Definition to_mb (bytes : Z) : Q := Qmake bytes (Z.to_pos MiB).

(** [max_cache_size_mb or Config.IMAGE_CACHE_MAX_SIZE_MB] *)
Definition effective_max_size (max_cache_size_mb : option Z) : Z :=
  match max_cache_size_mb with
  | Some n => if n =? 0 then IMAGE_CACHE_MAX_SIZE_MB cfg else n
  | None => IMAGE_CACHE_MAX_SIZE_MB cfg
  end.

(** The [while] loop of lines 152-155. *)
Fixpoint evict_loop (cached_files : list string) (total_size_mb : Q) (max_size : Z)
  : M unit :=
  match cached_files with
  | [] => ret tt
  | oldest_file :: rest =>
      if negb (Qle_bool total_size_mb (inject_Z max_size)) then
        Os.remove oldest_file ;;
        sz <- Os.getsize oldest_file ;;
        evict_loop rest (total_size_mb - to_mb sz)%Q max_size
      else ret tt
  end.

Definition clear_old_cache (max_cache_size_mb : option Z) : M unit :=
  try_except
    (let cache_dir := IMAGES_CACHE_DIR cfg in
     names <- Os.listdir cache_dir ;;
     cached_files <- regular_files cache_dir names ;;
     cached_files <- sort_by_mtime cached_files ;;
     sizes <- mapM Os.getsize cached_files ;;
     let total_size := fold_right Z.add 0 sizes in
     let total_size_mb := to_mb total_size in
     let max_size := effective_max_size max_cache_size_mb in
     evict_loop cached_files total_size_mb max_size)
    (fun e => logger ERROR (MsgClearCacheError e)).

End WithConfig.
End ImageCache.

(** ** Vocabulary of the statements *)

(** The path [get_cached_image_path] resolves a URL to. *)
Definition cached_path (cfg : Config) (image_url : string) : string :=
  OsPath.join (IMAGES_CACHE_DIR cfg) (ImageCache.cached_filename image_url).

(** The constraints section 6 of the specification puts on the retry
    configuration: at least one attempt, a delay for every attempt but the
    last, and delays that are durations. *)
Definition config_ok (cfg : Config) : Prop :=
  1 <= IMAGE_DOWNLOAD_MAX_RETRIES cfg /\
  IMAGE_DOWNLOAD_MAX_RETRIES cfg - 1 <= Z.of_nat (List.length (IMAGE_DOWNLOAD_RETRY_DELAYS cfg)) /\
  Forall (fun d => 0 <= d) (IMAGE_DOWNLOAD_RETRY_DELAYS cfg).

(** A response that passes [raise_for_status]. *)
Definition status_ok (r : response) : bool :=
  negb ((400 <=? status_code r) && (status_code r <? 600)).

(** A response that passes [raise_for_status] and declares an image. *)
Definition image_response (r : response) : bool :=
  status_ok r && PyStr.startswith "image/" (Requests.headers_get r "content-type" "").

(** A response that passes [raise_for_status] and does not declare an image. *)
Definition mismatch_response (r : response) : bool :=
  status_ok r && negb (PyStr.startswith "image/" (Requests.headers_get r "content-type" "")).

(** The world once the cache directory has been ensured. *)
Definition ensure_cache_dir (cfg : Config) (w : world) : world :=
  snd (Os.makedirs (IMAGES_CACHE_DIR cfg) w).

(** What the exhaustion fallback returns in world [w]. *)
Definition fallback_value (cfg : Config) (w : world) : option string :=
  if Os.path_exists (DEFAULT_IMAGE_PATH cfg) w then Some (DEFAULT_IMAGE_PATH cfg) else None.

(** The regular files that lie directly in the cache directory, in
    listing order, and their total size in bytes. *)
Definition cache_files (cfg : Config) (w : world) : list string :=
  filter (fun p => Os.path_isfile p w)
         (map (OsPath.join (IMAGES_CACHE_DIR cfg))
              (Os.children (Os.dir_prefix (IMAGES_CACHE_DIR cfg)) (fs w))).

Definition file_size (w : world) (p : string) : Z :=
  match Os.lookup p (fs w) with
  | Some (File sz _) => sz
  | _ => 0
  end.

Definition file_mtime (w : world) (p : string) : Z :=
  match Os.lookup p (fs w) with
  | Some (File _ mt) => mt
  | _ => 0
  end.

Definition cache_size (cfg : Config) (w : world) : Z :=
  fold_right Z.add 0 (map (file_size w) (cache_files cfg w)).

(** A computation that leaves the world as it found it. *)
Definition read_only {A} (m : M A) : Prop := forall w, snd (m w) = w.

(** The order [sort_by_key] sorts into. *)
Definition key_le (x y : Z * string) : Prop := fst x <= fst y.

(** What [k] failed attempts in a row do to the outside when a backoff
    follows each but the last: a request, then for each further attempt the
    next delay of the schedule and a request. *)
Fixpoint failed_attempts_events (url : string) (k : nat) (delays : list Z)
  : list io_event :=
  match k with
  | O => []
  | S k' =>
      Requested url ::
      match k', delays with
      | O, _ => []
      | S _, d :: ds => Slept d :: failed_attempts_events url k' ds
      | S _, [] => failed_attempts_events url k' []
      end
  end.

(** Some character of [s] is not the dot. *)
Fixpoint has_non_dot (s : string) : bool :=
  match s with
  | EmptyString => false
  | String a s' => negb (Ascii.eqb a OsPath.extsep) || has_non_dot s'
  end.

(** The extension as the specification words it: what follows the last
    '.' of the part of the URL before '?' (kept with its dot, as the
    default has one), and '.jpg' when that part has no '.'. *)
Definition spec_file_extension (image_url : string) : string :=
  let path := hd EmptyString (PyStr.split "?" image_url) in
  let dotIndex := PyStr.rfind "." path in
  if dotIndex <? 0 then ".jpg" else PyStr.slice_from path dotIndex.

(** The extension in closed form: the suffix that starts at the last '.'
    of the part of the URL before the first '?', when that dot comes after
    the last '/' and some character between the two is not a dot; '.jpg'
    otherwise. *)
Definition last_component_extension (image_url : string) : string :=
  let path := hd EmptyString (PyStr.split "?" image_url) in
  let sepIndex := PyStr.rfind "/" path in
  let dotIndex := PyStr.rfind "." path in
  if (sepIndex <? dotIndex) && has_non_dot (PyStr.slice path (sepIndex + 1) dotIndex)
  then PyStr.slice_from path dotIndex
  else ".jpg".

(** [c] occurs in [s]. *)
Fixpoint has_char (c : ascii) (s : string) : bool :=
  match s with
  | EmptyString => false
  | String a s' => Ascii.eqb a c || has_char c s'
  end.

(** The bytes a response body carries. *)
Definition body_size (r : response) : Z :=
  fold_right Z.add 0 (map Z.of_N (body r)).

(** An outcome of [requests.get] that the handlers of lines 100-105 take as
    a failed attempt to retry: one of the request exceptions, or a response
    whose status makes [raise_for_status] raise. *)
Definition transient (o : net_result) : bool :=
  match o with
  | NetRaise ConnectionError | NetRaise Timeout
  | NetRaise HTTPError | NetRaise RequestException => true
  | NetRaise _ => false
  | NetResponse r => negb (status_ok r)
  end.

(** An exception that the handlers of lines 106-111 answer with [break]. *)
Definition fatal (e : exn) : bool :=
  match e with
  | ConnectionError | Timeout | HTTPError | RequestException => false
  | _ => true
  end.

(** A complete image: a response that declares an image, streams without
    error and is not empty. *)
Definition complete_image (r : response) : bool :=
  image_response r
  && match body_error r with None => true | Some _ => false end
  && (0 <? body_size r).

(** The cache file of [path] can be opened for writing in [w]. *)
Definition writable (path : string) (w : world) : bool :=
  negb (existsb (String.eqb path) (denied w))
  && match Os.lookup path (fs w) with Some Dir => false | _ => true end.

(** What [k] failed attempts, each followed by its backoff, do to the
    outside. *)
Definition backoff_events (url : string) (delays : list Z) : list io_event :=
  flat_map (fun d => [Requested url; Slept d]) delays.

(** The sleeps among some events. *)
Definition sleep_count (evs : list io_event) : nat :=
  List.length (filter (fun ev => match ev with Slept _ => true | Requested _ => false end) evs).

(** A computation that changes nothing but the log and the file at [path]. *)
Definition local_to {A} (path : string) (m : M A) : Prop :=
  forall w,
    denied (snd (m w)) = denied w /\
    clock (snd (m w)) = clock w /\
    net_calls (snd (m w)) = net_calls w /\
    events (snd (m w)) = events w /\
    forall q, q <> path -> Os.lookup q (fs (snd (m w))) = Os.lookup q (fs w).

(** ** Concrete configurations, worlds and networks *)

Module Fixtures.

Definition cfg : Config :=
  mkConfig "cache" 3 (5, 10) [1; 2; 4] "assets/default.png" 100.

Definition url : string := "http://x/a.png".

Definition url_path : string := "cache/d4eaaf0e8567cb8ffc6ecf52cbf06662.png".

(** An empty cache directory next to the default image. *)
Definition w_empty : world :=
  mkWorld [("cache", Dir); ("assets/default.png", File 10 0)] [] 0 0 [] [].

(** The same without a default image. *)
Definition w_no_default : world :=
  mkWorld [("cache", Dir)] [] 0 0 [] [].

(** [url] is cached already. *)
Definition w_cached : world :=
  mkWorld [("cache", Dir); (url_path, File 120 7); ("cache/other.png", File 5 3)]
          [] 9 4 [Requested "http://x/b.png"; Slept 1] [].

(** The cache file of [url] may not be written. *)
Definition w_denied : world :=
  mkWorld [("cache", Dir); ("assets/default.png", File 10 0)] [url_path] 0 0 [] [].

(** The cache directory path is taken by a regular file. *)
Definition w_cache_is_file : world :=
  mkWorld [("cache", File 1 1)] [] 0 0 [] [].

(** Three cached files of 2 MiB each, listed newest first, and a
    subdirectory. *)
Definition w_three_files : world :=
  mkWorld [("cache", Dir); ("cache/c", File 2097152 3); ("cache/sub", Dir);
           ("cache/sub/x", File 5 0); ("cache/b", File 2097152 2);
           ("cache/a", File 2097152 1)]
          [] 0 0 [] [].

Definition net_down (_ : string) (_ : nat) : net_result := NetRaise ConnectionError.

Definition html : response :=
  mkResponse 200 [("Content-Type", "text/html")] [100%N] None.

Definition png : response :=
  mkResponse 200 [("Content-Type", "image/png")] [100%N; 20%N] None.

Definition empty_png : response :=
  mkResponse 200 [("Content-Type", "image/png")] [] None.

Definition no_content_type : response :=
  mkResponse 200 [("Server", "nginx")] [100%N] None.

Definition net_html (_ : string) (_ : nat) : net_result := NetResponse html.
Definition net_png (_ : string) (_ : nat) : net_result := NetResponse png.
Definition net_empty_png (_ : string) (_ : nat) : net_result := NetResponse empty_png.


(** Four attempts with a schedule of one delay. *)
Definition cfg_short : Config :=
  mkConfig "cache" 4 (5, 10) [1] "assets/default.png" 100.

Definition server_error : response :=
  mkResponse 503 [("Content-Type", "text/html")] [10%N] None.

(** A timeout on the request numbered 4, an error status on the request
    numbered 5, a request exception on every other. *)
Definition net_mixed_failures (_ : string) (n : nat) : net_result :=
  if Nat.eqb n 4 then NetRaise Timeout
  else if Nat.eqb n 5 then NetResponse server_error
  else NetRaise RequestException.

(** Two connection errors, then the image. *)
Definition net_recovers (_ : string) (n : nat) : net_result :=
  if Nat.ltb n 2 then NetRaise ConnectionError else NetResponse png.

(** A timeout, then an exception that is no request exception. *)
Definition net_breaks (_ : string) (n : nat) : net_result :=
  if Nat.eqb n 0 then NetRaise Timeout else NetRaise (OtherError "MemoryError").

End Fixtures.

(** * Properties *)

Local Open Scope monad_scope.

(** ** The model of [hashlib.md5] on known digests *)

Example md5_empty : MD5.hexdigest "" = "d41d8cd98f00b204e9800998ecf8427e".
Proof. vm_compute. reflexivity. Qed.

Example md5_abc : MD5.hexdigest "abc" = "900150983cd24fb0d6963f7d28e17f72".
Proof. vm_compute. reflexivity. Qed.

Example md5_two_blocks :
  MD5.hexdigest "aaaaaaaaaaaaaaaaaaaaaaaaaaaaaaaaaaaaaaaaaaaaaaaaaaaaaaaaaaaaaaaa"
  = "014842d480b571495a4a0363793f7367".
Proof. vm_compute. reflexivity. Qed.

Example md5_url : MD5.hexdigest Fixtures.url = "d4eaaf0e8567cb8ffc6ecf52cbf06662".
Proof. vm_compute. reflexivity. Qed.

Example cached_path_url : cached_path Fixtures.cfg Fixtures.url = Fixtures.url_path.
Proof. vm_compute. reflexivity. Qed.

(** ** [str.split], [posixpath.join] and [posixpath.splitext] on samples *)

Example split_query : PyStr.split "?" "a.png?x=1?y" = ["a.png"; "x=1"; "y"].
Proof. reflexivity. Qed.

Example split_empty : PyStr.split "?" "" = [""].
Proof. reflexivity. Qed.

Example join_plain : OsPath.join "cache" "x.png" = "cache/x.png".
Proof. reflexivity. Qed.

Example join_trailing_sep : OsPath.join "cache/" "x.png" = "cache/x.png".
Proof. reflexivity. Qed.

Example splitext_host_only : OsPath.splitext "http://example.com" = ("http://example", ".com").
Proof. reflexivity. Qed.

Example splitext_png : OsPath.splitext "http://x/a.png" = ("http://x/a", ".png").
Proof. reflexivity. Qed.

Example splitext_host_dot : OsPath.splitext "http://example.com/image" = ("http://example.com/image", "").
Proof. reflexivity. Qed.

Example splitext_leading_dots : OsPath.splitext "/a/...b" = ("/a/...b", "").
Proof. reflexivity. Qed.

Example splitext_inner_dot : OsPath.splitext "/a/..b.c" = ("/a/..b", ".c").
Proof. reflexivity. Qed.

(** ** Strings: slices and [rfind] *)

Section StringFacts.

Lemma drop_cons (k : nat) (s : string) (a : ascii) (t : string) :
  PyStr.drop k s = String a t -> PyStr.drop (S k) s = t.
Proof.
  revert s; induction k as [|k IH]; intros s H.
  - simpl in H. subst s. reflexivity.
  - destruct s as [|b s']; [discriminate H|].
    change (PyStr.drop (S (S k)) (String b s')) with (PyStr.drop (S k) s').
    apply IH. exact H.
Qed.

Lemma drop_within (k : nat) (s : string) :
  (k < String.length s)%nat -> exists a t, PyStr.drop k s = String a t.
Proof.
  revert s; induction k as [|k IH]; intros [|b s'] H; simpl in H; try lia.
  - exists b, s'. reflexivity.
  - apply IH. lia.
Qed.

(** The result of the scan is the carried value, or an index of the
    scanned part at which the character stands. *)
Lemma rfind_from_spec (c : ascii) (s : string) :
  forall i last,
    PyStr.rfind_from c s i last = last \/
    (i <= PyStr.rfind_from c s i last < i + Z.of_nat (String.length s) /\
     exists t, PyStr.drop (Z.to_nat (PyStr.rfind_from c s i last - i)) s = String c t).
Proof.
  induction s as [|a s' IH]; intros i last; simpl.
  - left. reflexivity.
  - destruct (IH (i + 1) (if Ascii.eqb a c then i else last)) as [E | [R [t Ht]]].
    + rewrite E. destruct (Ascii.eqb a c) eqn:Eac.
      * right. split; [lia|]. exists s'.
        apply Ascii.eqb_eq in Eac. subst a.
        replace (i - i) with 0 by lia. reflexivity.
      * left. reflexivity.
    + right. split; [lia|]. exists t.
      set (r := PyStr.rfind_from c s' (i + 1) (if Ascii.eqb a c then i else last)) in *.
      replace (Z.to_nat (r - i)) with (S (Z.to_nat (r - (i + 1)))) by lia.
      exact Ht.
Qed.

(** No occurrence of the character lies beyond the result of the scan. *)
Lemma rfind_from_last (c : ascii) (s : string) :
  forall i last k a t,
    last < i ->
    PyStr.rfind_from c s i last < i + Z.of_nat k ->
    PyStr.drop k s = String a t -> a <> c.
Proof.
  induction s as [|b s' IH]; intros i last k a t Hl Hr Hd.
  - destruct k; discriminate Hd.
  - simpl in Hr. destruct k as [|k].
    + simpl in Hd. injection Hd as Hb Hs.
      intros Hac. rewrite Hb, Hac, Ascii.eqb_refl in Hr.
      destruct (rfind_from_spec c s' (i + 1) i) as [E | [R _]]; lia.
    + change (PyStr.drop (S k) (String b s')) with (PyStr.drop k s') in Hd.
      apply (IH (i + 1) (if Ascii.eqb b c then i else last) k a t); [|lia|exact Hd].
      destruct (Ascii.eqb b c); lia.
Qed.

Lemma rfind_range (c : ascii) (s : string) :
  PyStr.rfind c s = -1 \/
  (0 <= PyStr.rfind c s < Z.of_nat (String.length s) /\
   exists t, PyStr.slice_from s (PyStr.rfind c s) = String c t).
Proof.
  unfold PyStr.rfind, PyStr.slice_from.
  destruct (rfind_from_spec c s 0 (-1)) as [E | [R [t Ht]]].
  - left. exact E.
  - right. split; [lia|]. exists t.
    rewrite Z.sub_0_r in Ht. exact Ht.
Qed.

(** [rfind] answers the last occurrence: the characters after it differ. *)
Lemma rfind_is_last (c : ascii) (s : string) (k : nat) (a : ascii) (t : string) :
  PyStr.rfind c s < Z.of_nat k -> PyStr.drop k s = String a t -> a <> c.
Proof.
  intros Hr Hd. apply (rfind_from_last c s 0 (-1) k a t); [lia|exact Hr|exact Hd].
Qed.

(** The loop of [splitext] finds a character other than the dot exactly
    when the slice it walks through has one. *)
Lemma skip_leading_dots_spec (p : string) :
  forall n k,
    (k + n <= String.length p)%nat ->
    OsPath.skip_leading_dots n p (Z.of_nat k) (Z.of_nat (k + n))
    = has_non_dot (PyStr.take n (PyStr.drop k p)).
Proof.
  induction n as [|n IH]; intros k Hlen.
  - simpl. destruct (PyStr.drop k p); reflexivity.
  - cbn [OsPath.skip_leading_dots].
    replace (Z.of_nat k <? Z.of_nat (k + S n)) with true
      by (symmetry; apply Z.ltb_lt; lia).
    destruct (drop_within k p) as [a [t Hd]]; [lia|].
    unfold PyStr.slice.
    replace (Z.to_nat (Z.of_nat k + 1 - Z.of_nat k)) with 1%nat by lia.
    rewrite Nat2Z.id, Hd. cbn [PyStr.take has_non_dot String.eqb].
    destruct (Ascii.eqb a OsPath.extsep) eqn:Ea; cbn [negb orb andb].
    + replace (Z.of_nat k + 1) with (Z.of_nat (S k)) by lia.
      replace (Z.of_nat (k + S n)) with (Z.of_nat (S k + n)) by lia.
      rewrite IH by lia. rewrite (drop_cons k p a t Hd).
      destruct t; reflexivity.
    + destruct t; reflexivity.
Qed.

End StringFacts.

(** ** Path resolution *)

Lemma splitext_ext_closed_form (p : string) :
  PyStr.or_else (snd (OsPath.splitext p)) ".jpg"
  = if (PyStr.rfind OsPath.sep p <? PyStr.rfind OsPath.extsep p)
       && has_non_dot (PyStr.slice p (PyStr.rfind OsPath.sep p + 1) (PyStr.rfind OsPath.extsep p))
    then PyStr.slice_from p (PyStr.rfind OsPath.extsep p)
    else ".jpg".
Proof.
  unfold OsPath.splitext.
  pose proof (rfind_range OsPath.sep p) as Rs.
  pose proof (rfind_range OsPath.extsep p) as Rd.
  remember (PyStr.rfind OsPath.sep p) as s eqn:Es.
  remember (PyStr.rfind OsPath.extsep p) as d eqn:Ed.
  destruct (s <? d) eqn:Esd; cbn [andb]; [|reflexivity].
  apply Z.ltb_lt in Esd.
  assert (Hs : -1 <= s) by (destruct Rs as [E | [R _]]; lia).
  destruct Rd as [E | [R [t Ht]]]; [lia|].
  assert (Hloop :
    OsPath.skip_leading_dots (Z.to_nat (d - (s + 1))) p (s + 1) d
    = has_non_dot (PyStr.slice p (s + 1) d)).
  { unfold PyStr.slice.
    rewrite <- (skip_leading_dots_spec p (Z.to_nat (d - (s + 1))) (Z.to_nat (s + 1))) by lia.
    f_equal; lia. }
  rewrite Hloop.
  destruct (has_non_dot (PyStr.slice p (s + 1) d)); cbn [snd]; [|reflexivity].
  rewrite Ht. reflexivity.
Qed.

Lemma Ok_inj {A} (a b : A) : Ok a = Ok b -> a = b.
Proof. intros H. injection H as H. exact H. Qed.

(** C5 (as amended). The extension of the cache file is the suffix that
    starts at the last '.' of the part of the URL before the first '?',
    provided that dot comes after the last '/' of that part and is preceded,
    after that '/', by some character other than a dot; it is '.jpg'
    otherwise. The file name is the MD5 hex digest of the URL followed by
    that extension, and a path that resolution returns is that name joined
    to the cache directory. *)
Theorem file_extension_is_last_component_extension
  (cfg : Config) (image_url : string) (w : world) :
  ImageCache.file_extension image_url = last_component_extension image_url /\
  ImageCache.cached_filename image_url
  = (MD5.hexdigest image_url ++ last_component_extension image_url)%string /\
  forall p w',
    ImageCache.get_cached_image_path cfg image_url w = (Ok p, w') ->
    p = OsPath.join (IMAGES_CACHE_DIR cfg)
          (MD5.hexdigest image_url ++ last_component_extension image_url).
Proof.
  assert (Hext : ImageCache.file_extension image_url = last_component_extension image_url).
  { unfold ImageCache.file_extension, last_component_extension.
    apply splitext_ext_closed_form. }
  split; [exact Hext|]. split.
  - unfold ImageCache.cached_filename. rewrite Hext. reflexivity.
  - intros p w'. rewrite <- Hext. fold (ImageCache.cached_filename image_url).
    unfold ImageCache.get_cached_image_path.
    fold (ImageCache.cached_filename image_url).
    generalize (OsPath.join (IMAGES_CACHE_DIR cfg) (ImageCache.cached_filename image_url)).
    intros resolved. unfold bind, ret.
    destruct (Os.makedirs (IMAGES_CACHE_DIR cfg) w) as [[u|e] w1]; [|discriminate].
    intros H. apply (f_equal fst) in H. cbn [fst] in H.
    apply Ok_inj in H. symmetry. exact H.
Qed.

Lemma file_extension_is_last_component_extension_witness :
  ImageCache.file_extension "http://x/dir.d/..a.tar.gz?v=1.2"
  = last_component_extension "http://x/dir.d/..a.tar.gz?v=1.2" /\
  "cache/20dd7121ad86c24cb70a6cc92d5446e5.jpg"
  = OsPath.join (IMAGES_CACHE_DIR Fixtures.cfg)
      (MD5.hexdigest "http://example.com/image"
       ++ last_component_extension "http://example.com/image").
Proof.
  split.
  - exact (proj1 (file_extension_is_last_component_extension Fixtures.cfg
                    "http://x/dir.d/..a.tar.gz?v=1.2" Fixtures.w_empty)).
  - pose proof (file_extension_is_last_component_extension Fixtures.cfg
                  "http://example.com/image" Fixtures.w_empty) as (_ & _ & H).
    apply (H "cache/20dd7121ad86c24cb70a6cc92d5446e5.jpg" Fixtures.w_empty).
    vm_compute. reflexivity.
Defined.

(** C5, as worded, fails: in a URL whose last '.' stands in the host name,
    what follows that dot is not the extension the code takes. *)
Lemma file_extension_not_last_dot_suffix :
  ImageCache.file_extension "http://example.com/image" = ".jpg" /\
  spec_file_extension "http://example.com/image" = ".com/image" /\
  ImageCache.file_extension "http://example.com/image"
  <> spec_file_extension "http://example.com/image".
Proof.
  split; [reflexivity|]. split; [reflexivity|].
  vm_compute. discriminate.
Qed.

(** Nor is the extension looked for in the path of the URL alone: with no
    path at all, the end of the host name is taken. *)
Example file_extension_host_only :
  ImageCache.file_extension "http://example.com" = ".com".
Proof. reflexivity. Qed.

(** The leading dots of a component are no extension either. *)
Example file_extension_hidden_file :
  ImageCache.file_extension "http://x/.hidden" = ".jpg" /\
  spec_file_extension "http://x/.hidden" = ".hidden".
Proof. split; reflexivity. Qed.

Example file_extension_query :
  ImageCache.file_extension "http://x/a.png?size=1.5" = ".png".
Proof. reflexivity. Qed.

Example cached_path_without_extension :
  fst (ImageCache.get_cached_image_path Fixtures.cfg "http://example.com/image" Fixtures.w_empty)
  = Ok "cache/20dd7121ad86c24cb70a6cc92d5446e5.jpg".
Proof. vm_compute. reflexivity. Qed.

(** ** Eviction *)

Lemma lookup_unlink (p : string) (f : list (string * node)) :
  Os.lookup p (Os.unlink p f) = None.
Proof.
  induction f as [|[q n] f IH]; simpl; [reflexivity|].
  destruct (String.eqb q p) eqn:E; simpl; [exact IH|].
  rewrite E. exact IH.
Qed.

(** Once a file is removed its size can no longer be asked. *)
Lemma getsize_after_remove (p : string) (w w' : world) :
  Os.remove p w = (Ok tt, w') ->
  Os.getsize p w' = (Raise FileNotFoundError, w').
Proof.
  unfold Os.remove, Os.getsize.
  destruct (Os.lookup p (fs w)) as [[sz mt|]|] eqn:E; intros H;
    try discriminate H.
  injection H as <-. cbn [fs set_fs]. rewrite lookup_unlink. reflexivity.
Qed.

(** The [while] loop never reaches a second iteration: it ends at once
    with the world untouched, or it raises, having removed the first file
    of the list at most. *)
Lemma evict_loop_removes_at_most_one
  (cached_files : list string) (total_size_mb : Q) (max_size : Z) (w : world) :
  ImageCache.evict_loop cached_files total_size_mb max_size w = (Ok tt, w) \/
  exists oldest_file rest e w',
    cached_files = oldest_file :: rest /\
    ImageCache.evict_loop cached_files total_size_mb max_size w = (Raise e, w') /\
    (w' = w \/ w' = set_fs (Os.unlink oldest_file (fs w)) w).
Proof.
  destruct cached_files as [|oldest rest]; [left; reflexivity|].
  cbn [ImageCache.evict_loop].
  destruct (negb (Qle_bool total_size_mb (inject_Z max_size))); [|left; reflexivity].
  right. unfold bind at 1.
  destruct (Os.remove oldest w) as [[[]|e] w1] eqn:Hrm.
  - exists oldest, rest, FileNotFoundError, w1. split; [reflexivity|].
    unfold bind. rewrite (getsize_after_remove oldest w w1 Hrm).
    split; [reflexivity|]. right.
    unfold Os.remove in Hrm.
    destruct (Os.lookup oldest (fs w)) as [[sz mt|]|]; try discriminate Hrm.
    injection Hrm as <-. reflexivity.
  - exists oldest, rest, e, w1. split; [reflexivity|]. split; [reflexivity|]. left.
    unfold Os.remove in Hrm.
    destruct (Os.lookup oldest (fs w)) as [[sz mt|]|]; try discriminate Hrm;
      injection Hrm as _ <-; reflexivity.
Qed.

(** *** The listing is read-only and sorted oldest first *)

Lemma read_only_ret {A} (a : A) : read_only (ret a).
Proof. intros w. reflexivity. Qed.

Lemma read_only_bind {A B} (m : M A) (k : A -> M B) :
  read_only m -> (forall a, read_only (k a)) -> read_only (bind m k).
Proof.
  intros Hm Hk w. unfold bind.
  specialize (Hm w). destruct (m w) as [[a|e] w1]; cbn [snd] in Hm; subst w1.
  - apply Hk.
  - reflexivity.
Qed.

Lemma read_only_getsize (p : string) : read_only (Os.getsize p).
Proof.
  intros w. unfold Os.getsize.
  destruct (Os.lookup p (fs w)) as [[sz mt|]|]; reflexivity.
Qed.

Lemma read_only_getmtime (p : string) : read_only (Os.getmtime p).
Proof.
  intros w. unfold Os.getmtime.
  destruct (Os.lookup p (fs w)) as [[sz mt|]|]; reflexivity.
Qed.

Lemma read_only_listdir (d : string) : read_only (Os.listdir d).
Proof.
  intros w. unfold Os.listdir.
  destruct (Os.lookup d (fs w)) as [[sz mt|]|]; reflexivity.
Qed.

Lemma read_only_mapM {A B} (f : A -> M B) (l : list A) :
  (forall a, read_only (f a)) -> read_only (mapM f l).
Proof.
  intros Hf. induction l as [|x xs IH]; cbn [mapM].
  - apply read_only_ret.
  - apply read_only_bind; [apply Hf|]. intros y.
    apply read_only_bind; [exact IH|]. intros ys. apply read_only_ret.
Qed.

Lemma read_only_regular_files (cache_dir : string) (names : list string) :
  read_only (ImageCache.regular_files cache_dir names).
Proof.
  induction names as [|f names IH]; cbn [ImageCache.regular_files].
  - apply read_only_ret.
  - apply read_only_bind; [intros w; reflexivity|]. intros b.
    apply read_only_bind; [exact IH|]. intros rest. apply read_only_ret.
Qed.

Lemma read_only_sort_by_mtime (cached_files : list string) :
  read_only (ImageCache.sort_by_mtime cached_files).
Proof.
  unfold ImageCache.sort_by_mtime.
  apply read_only_bind; [apply read_only_mapM; apply read_only_getmtime|].
  intros keys. apply read_only_ret.
Qed.

Lemma insert_by_key_perm (x : Z * string) (l : list (Z * string)) :
  Permutation (x :: l) (ImageCache.insert_by_key x l).
Proof.
  induction l as [|y ys IH]; cbn [ImageCache.insert_by_key]; [reflexivity|].
  destruct (fst x <=? fst y); [reflexivity|].
  rewrite perm_swap. apply perm_skip. exact IH.
Qed.

(** Sorting keeps the files it is given, each as often as it occurs. *)
Lemma sort_by_key_perm (l : list (Z * string)) :
  Permutation l (ImageCache.sort_by_key l).
Proof.
  induction l as [|x xs IH]; cbn [ImageCache.sort_by_key fold_right]; [reflexivity|].
  rewrite <- insert_by_key_perm. apply perm_skip. exact IH.
Qed.

Lemma insert_by_key_sorted (x : Z * string) (l : list (Z * string)) :
  StronglySorted key_le l -> StronglySorted key_le (ImageCache.insert_by_key x l).
Proof.
  induction 1 as [|y ys Hs IH Hall]; cbn [ImageCache.insert_by_key].
  - constructor; constructor.
  - destruct (fst x <=? fst y) eqn:E.
    + apply Z.leb_le in E. constructor; [constructor; assumption|].
      constructor; [exact E|].
      rewrite Forall_forall in Hall |- *. intros z Hz.
      specialize (Hall z Hz). unfold key_le in *. lia.
    + apply Z.leb_gt in E. constructor; [exact IH|].
      rewrite Forall_forall in Hall |- *. intros z Hz.
      apply (Permutation_in z (Permutation_sym (insert_by_key_perm x ys))) in Hz.
      destruct Hz as [<- | Hz]; [unfold key_le; lia | apply Hall; exact Hz].
Qed.

(** Sorting puts the files in ascending order of modification time. *)
Lemma sort_by_key_sorted (l : list (Z * string)) :
  StronglySorted key_le (ImageCache.sort_by_key l).
Proof.
  induction l as [|x xs IH]; cbn [ImageCache.sort_by_key fold_right].
  - constructor.
  - apply insert_by_key_sorted. exact IH.
Qed.

(** *** What the pass computes before its loop *)

Lemma regular_files_run (cache_dir : string) (names : list string) (w : world) :
  ImageCache.regular_files cache_dir names w
  = (Ok (filter (fun p => Os.path_isfile p w) (map (OsPath.join cache_dir) names)), w).
Proof.
  induction names as [|f names IH]; cbn [ImageCache.regular_files map filter].
  - reflexivity.
  - unfold bind at 1. unfold Os.isfile at 1.
    unfold bind at 1. rewrite IH. unfold ret.
    destruct (Os.path_isfile (OsPath.join cache_dir f) w); reflexivity.
Qed.

Lemma mapM_getmtime_files (w : world) (l : list string) :
  Forall (fun p => Os.path_isfile p w = true) l ->
  mapM Os.getmtime l w = (Ok (map (file_mtime w) l), w).
Proof.
  induction 1 as [|p l Hp _ IH]; cbn [mapM map]; [reflexivity|].
  unfold bind at 1. unfold Os.getmtime at 1, file_mtime at 1.
  unfold Os.path_isfile in Hp.
  destruct (Os.lookup p (fs w)) as [[sz mt|]|]; try discriminate Hp.
  unfold bind at 1. rewrite IH. reflexivity.
Qed.

Lemma mapM_getsize_files (w : world) (l : list string) :
  Forall (fun p => Os.path_isfile p w = true) l ->
  mapM Os.getsize l w = (Ok (map (file_size w) l), w).
Proof.
  induction 1 as [|p l Hp _ IH]; cbn [mapM map]; [reflexivity|].
  unfold bind at 1. unfold Os.getsize at 1, file_size at 1.
  unfold Os.path_isfile in Hp.
  destruct (Os.lookup p (fs w)) as [[sz mt|]|]; try discriminate Hp.
  unfold bind at 1. rewrite IH. reflexivity.
Qed.

Lemma map_snd_combine {A B} (l : list B) :
  forall (keys : list A), List.length keys = List.length l -> map snd (combine keys l) = l.
Proof.
  induction l as [|x l IH]; intros [|k keys] H; simpl in H; try discriminate H.
  - reflexivity.
  - cbn [combine map snd]. f_equal. apply IH. lia.
Qed.

(** Sorting by modification time succeeds on regular files and gives them
    back rearranged. *)
Lemma sort_by_mtime_run (w : world) (l : list string) :
  Forall (fun p => Os.path_isfile p w = true) l ->
  exists sorted,
    ImageCache.sort_by_mtime l w = (Ok sorted, w) /\ Permutation l sorted.
Proof.
  intros Hl. unfold ImageCache.sort_by_mtime, bind.
  rewrite (mapM_getmtime_files w l Hl). unfold ret.
  eexists. split; [reflexivity|].
  rewrite <- (map_snd_combine l (map (file_mtime w) l)) at 1
    by (rewrite length_map; reflexivity).
  apply Permutation_map. apply sort_by_key_perm.
Qed.

Lemma sum_sizes_perm (w : world) (l l' : list string) :
  Permutation l l' ->
  fold_right Z.add 0 (map (file_size w) l) = fold_right Z.add 0 (map (file_size w) l').
Proof.
  induction 1 as [|x l l' _ IH|x y l|l l' l'' _ IH1 _ IH2]; cbn [map fold_right]; lia.
Qed.

(** The comparison of the loop, in bytes. *)
Lemma over_budget_bytes (total_size max_size : Z) :
  negb (Qle_bool (ImageCache.to_mb total_size) (inject_Z max_size)) = true
  <-> max_size * ImageCache.MiB < total_size.
Proof.
  rewrite negb_true_iff, <- not_true_iff_false, Qle_bool_iff.
  unfold Qle, ImageCache.to_mb, inject_Z, ImageCache.MiB. cbn [Qnum Qden].
  change (Z.pos (Z.to_pos (1024 * 1024))) with (1024 * 1024). lia.
Qed.

(** A cache whose size is within the budget in force is left as it is. *)
Lemma clear_old_cache_within_budget
  (cfg : Config) (max_cache_size_mb : option Z) (w : world) :
  Os.lookup (IMAGES_CACHE_DIR cfg) (fs w) = Some Dir ->
  cache_size cfg w <= ImageCache.effective_max_size cfg max_cache_size_mb * ImageCache.MiB ->
  ImageCache.clear_old_cache cfg max_cache_size_mb w = (Ok tt, w).
Proof.
  intros Hdir Hsize.
  unfold ImageCache.clear_old_cache, try_except.
  unfold bind at 1. unfold Os.listdir at 1. rewrite Hdir.
  unfold bind at 1. rewrite regular_files_run. fold (cache_files cfg w).
  assert (Hfiles : Forall (fun p => Os.path_isfile p w = true) (cache_files cfg w)).
  { apply Forall_forall. intros p Hp. unfold cache_files in Hp.
    apply filter_In in Hp. apply Hp. }
  destruct (sort_by_mtime_run w (cache_files cfg w) Hfiles) as (sorted & Hs & Hperm).
  unfold bind at 1. rewrite Hs.
  assert (Hsorted : Forall (fun p => Os.path_isfile p w = true) sorted).
  { apply Forall_forall. intros p Hp.
    rewrite Forall_forall in Hfiles. apply Hfiles.
    apply (Permutation_in p (Permutation_sym Hperm)). exact Hp. }
  unfold bind at 1. rewrite (mapM_getsize_files w sorted Hsorted).
  rewrite <- (sum_sizes_perm w _ _ Hperm). fold (cache_size cfg w).
  destruct sorted as [|oldest rest]; cbn [ImageCache.evict_loop]; [reflexivity|].
  destruct (negb (Qle_bool (ImageCache.to_mb (cache_size cfg w))
                    (inject_Z (ImageCache.effective_max_size cfg max_cache_size_mb))))
    eqn:E; [|reflexivity].
  apply over_budget_bytes in E. lia.
Qed.

(** [clear_old_cache] never raises, and whatever the cache and the budget
    it removes one file at most. *)
Lemma clear_old_cache_removes_at_most_one
  (cfg : Config) (max_cache_size_mb : option Z) (w : world) :
  exists w',
    ImageCache.clear_old_cache cfg max_cache_size_mb w = (Ok tt, w') /\
    (fs w' = fs w \/ exists p, fs w' = Os.unlink p (fs w)).
Proof.
  unfold ImageCache.clear_old_cache, try_except.
  unfold bind at 1.
  pose proof (read_only_listdir (IMAGES_CACHE_DIR cfg) w) as R1.
  destruct (Os.listdir (IMAGES_CACHE_DIR cfg) w) as [[names|e] w1];
    cbn [snd] in R1; subst w1;
    [|eexists; split; [reflexivity | left; reflexivity]].
  unfold bind at 1.
  pose proof (read_only_regular_files (IMAGES_CACHE_DIR cfg) names w) as R2.
  destruct (ImageCache.regular_files (IMAGES_CACHE_DIR cfg) names w) as [[files|e] w1];
    cbn [snd] in R2; subst w1;
    [|eexists; split; [reflexivity | left; reflexivity]].
  unfold bind at 1.
  pose proof (read_only_sort_by_mtime files w) as R3.
  destruct (ImageCache.sort_by_mtime files w) as [[sorted|e] w1];
    cbn [snd] in R3; subst w1;
    [|eexists; split; [reflexivity | left; reflexivity]].
  unfold bind at 1.
  pose proof (read_only_mapM Os.getsize sorted read_only_getsize w) as R4.
  destruct (mapM Os.getsize sorted w) as [[sizes|e] w1];
    cbn [snd] in R4; subst w1;
    [|eexists; split; [reflexivity | left; reflexivity]].
  destruct (evict_loop_removes_at_most_one sorted
              (ImageCache.to_mb (fold_right Z.add 0 sizes))
              (ImageCache.effective_max_size cfg max_cache_size_mb) w)
    as [E | (oldest & rest & e & w' & _ & E & [-> | ->])]; rewrite E.
  - eexists; split; [reflexivity | left; reflexivity].
  - eexists; split; [reflexivity | left; reflexivity].
  - eexists; split; [reflexivity | right; exists oldest; reflexivity].
Qed.

(** C1, evaluated. Three files of 2 MiB each against a budget of 1 MB:
    the call removes the oldest file only, then fails to read the size of
    the file it has just removed and gives up, with 4 MiB left. *)
Theorem clear_old_cache_stops_after_first_removal :
  ImageCache.clear_old_cache Fixtures.cfg (Some 1) Fixtures.w_three_files
  = (Ok tt,
     mkWorld [("cache", Dir); ("cache/c", File 2097152 3); ("cache/sub", Dir);
              ("cache/sub/x", File 5 0); ("cache/b", File 2097152 2)]
             [] 0 0 [] [(ERROR, MsgClearCacheError FileNotFoundError)]).
Proof. vm_compute. reflexivity. Qed.

(** C9. A budget of 0 is falsy, so [clear_old_cache] takes the configured
    default in its place, as it does when no budget is passed: the two
    calls do the same in every world. In particular a budget of 0 does not
    empty the cache: a cache within the default budget is left as it is. *)
Theorem clear_old_cache_zero_budget_is_default
  (cfg : Config) (w : world) :
  ImageCache.effective_max_size cfg (Some 0) = IMAGE_CACHE_MAX_SIZE_MB cfg /\
  ImageCache.effective_max_size cfg None = IMAGE_CACHE_MAX_SIZE_MB cfg /\
  ImageCache.clear_old_cache cfg (Some 0) w = ImageCache.clear_old_cache cfg None w /\
  (Os.lookup (IMAGES_CACHE_DIR cfg) (fs w) = Some Dir ->
   cache_size cfg w <= IMAGE_CACHE_MAX_SIZE_MB cfg * ImageCache.MiB ->
   ImageCache.clear_old_cache cfg (Some 0) w = (Ok tt, w)).
Proof.
  split; [reflexivity|]. split; [reflexivity|]. split; [reflexivity|].
  intros Hdir Hsize.
  apply clear_old_cache_within_budget; [exact Hdir | exact Hsize].
Qed.

Lemma clear_old_cache_zero_budget_is_default_witness :
  cache_files Fixtures.cfg Fixtures.w_three_files = ["cache/c"; "cache/b"; "cache/a"] /\
  cache_size Fixtures.cfg Fixtures.w_three_files = 6 * ImageCache.MiB /\
  ImageCache.clear_old_cache Fixtures.cfg (Some 0) Fixtures.w_three_files
  = (Ok tt, Fixtures.w_three_files).
Proof.
  split; [reflexivity|]. split; [reflexivity|].
  apply (clear_old_cache_zero_budget_is_default Fixtures.cfg Fixtures.w_three_files).
  - reflexivity.
  - vm_compute. discriminate.
Defined.

(** With a budget the cache meets, nothing is removed. *)
Example clear_old_cache_under_budget :
  ImageCache.clear_old_cache Fixtures.cfg (Some 6) Fixtures.w_three_files
  = (Ok tt, Fixtures.w_three_files).
Proof. vm_compute. reflexivity. Qed.

(** ** One attempt of the retry loop *)

Section Attempt.

Variable network : string -> nat -> net_result.
Variables (image_url path : string).

Lemma status_ok_passes (r : response) :
  status_ok r = true -> Requests.raise_for_status r = ret tt.
Proof.
  unfold status_ok, Requests.raise_for_status.
  destruct ((400 <=? status_code r) && (status_code r <? 600));
    [discriminate | reflexivity].
Qed.

(** A connection error is logged as a warning and handled. *)
Lemma attempt_try_connection_error (attempt : Z) (w : world) :
  network image_url (net_calls w) = NetRaise ConnectionError ->
  ImageCache.attempt_try network attempt image_url path w
  = (Ok CHandled,
     add_log WARNING (MsgConnectionError (attempt + 1) image_url ConnectionError)
             (count_request image_url w)).
Proof.
  intros H.
  unfold ImageCache.attempt_try, try_except, ImageCache.attempt_body, bind, Requests.get.
  rewrite H. reflexivity.
Qed.

(** A response that does not declare an image is logged as a warning and
    the loop continues; nothing is written. *)
Lemma attempt_try_mismatch (attempt : Z) (w : world) (r : response) :
  network image_url (net_calls w) = NetResponse r ->
  mismatch_response r = true ->
  ImageCache.attempt_try network attempt image_url path w
  = (Ok CContinue,
     add_log WARNING
             (MsgInvalidContentType image_url (Requests.headers_get r "content-type" ""))
             (count_request image_url w)).
Proof.
  intros H Hm. unfold mismatch_response in Hm.
  apply andb_true_iff in Hm as [Hs Hc].
  unfold ImageCache.attempt_try, try_except, ImageCache.attempt_body.
  unfold bind at 1. unfold Requests.get. rewrite H.
  rewrite (status_ok_passes r Hs). unfold bind at 1. unfold ret at 1.
  rewrite Hc. reflexivity.
Qed.

(** A permission error at [open] is logged as an error and breaks out of
    the loop; nothing is written. *)
Lemma attempt_try_permission_error (attempt : Z) (w : world) (r : response) :
  network image_url (net_calls w) = NetResponse r ->
  image_response r = true ->
  existsb (String.eqb path) (denied w) = true ->
  ImageCache.attempt_try network attempt image_url path w
  = (Ok CBreak, add_log ERROR (MsgPermissionError PermissionError) (count_request image_url w)).
Proof.
  intros H Hi Hd. unfold image_response in Hi.
  apply andb_true_iff in Hi as [Hs Hc].
  unfold ImageCache.attempt_try, try_except, ImageCache.attempt_body.
  unfold bind at 1. unfold Requests.get. rewrite H.
  rewrite (status_ok_passes r Hs). unfold bind at 1. unfold ret at 1.
  rewrite Hc. cbn [negb].
  unfold ImageCache.save_image, bind, Os.open_wb.
  cbn [denied count_request]. rewrite Hd. reflexivity.
Qed.

End Attempt.

(** C10. A response that passes [raise_for_status] and carries no
    content-type header is a content mismatch: the header reads as the
    empty string, the attempt logs the invalid-content-type warning and
    continues with the next one, having spent one request and written
    nothing. *)
Theorem missing_content_type_is_mismatch
  (network : string -> nat -> net_result) (attempt : Z)
  (image_url path : string) (w : world) (r : response) :
  network image_url (net_calls w) = NetResponse r ->
  status_ok r = true ->
  Requests.headers_lookup "content-type" (headers r) = None ->
  Requests.headers_get r "content-type" "" = "" /\
  mismatch_response r = true /\
  ImageCache.attempt_try network attempt image_url path w
  = (Ok CContinue, add_log WARNING (MsgInvalidContentType image_url "") (count_request image_url w)) /\
  fs (snd (ImageCache.attempt_try network attempt image_url path w)) = fs w.
Proof.
  intros Hn Hs Hh.
  assert (Hg : Requests.headers_get r "content-type" "" = "").
  { unfold Requests.headers_get. rewrite Hh. reflexivity. }
  assert (Hm : mismatch_response r = true).
  { unfold mismatch_response. rewrite Hs, Hg. reflexivity. }
  pose proof (attempt_try_mismatch network image_url path attempt w r Hn Hm) as Ha.
  rewrite Hg in Ha.
  repeat split; try assumption.
  rewrite Ha. reflexivity.
Qed.

Lemma missing_content_type_is_mismatch_witness :
  Requests.headers_get Fixtures.no_content_type "content-type" "" = "" /\
  mismatch_response Fixtures.no_content_type = true /\
  ImageCache.attempt_try (fun _ _ => NetResponse Fixtures.no_content_type) 0
    Fixtures.url Fixtures.url_path Fixtures.w_empty
  = (Ok CContinue,
     add_log WARNING (MsgInvalidContentType Fixtures.url "")
             (count_request Fixtures.url Fixtures.w_empty)) /\
  fs (snd (ImageCache.attempt_try (fun _ _ => NetResponse Fixtures.no_content_type) 0
             Fixtures.url Fixtures.url_path Fixtures.w_empty))
  = fs Fixtures.w_empty.
Proof.
  apply (missing_content_type_is_mismatch
           (fun _ _ => NetResponse Fixtures.no_content_type) 0
           Fixtures.url Fixtures.url_path Fixtures.w_empty Fixtures.no_content_type);
    reflexivity.
Defined.

(** ** The whole call *)

Section Download.

Variable cfg : Config.
Variable network : string -> nat -> net_result.

Lemma truthy_nonempty (s : string) : s <> EmptyString -> PyStr.truthy s = true.
Proof. destruct s; [congruence | reflexivity]. Qed.

(** Ensuring the cache directory touches the file system only. *)
Lemma ensure_cache_dir_frame (w : world) :
  denied (ensure_cache_dir cfg w) = denied w /\
  clock (ensure_cache_dir cfg w) = clock w /\
  net_calls (ensure_cache_dir cfg w) = net_calls w /\
  events (ensure_cache_dir cfg w) = events w /\
  logs (ensure_cache_dir cfg w) = logs w.
Proof.
  unfold ensure_cache_dir, Os.makedirs.
  destruct (Os.lookup (IMAGES_CACHE_DIR cfg) (fs w)) as [[sz mt|]|];
    try (repeat split; reflexivity).
  destruct (negb (PyStr.truthy (IMAGES_CACHE_DIR cfg))); [repeat split; reflexivity|].
  destruct (existsb (String.eqb (IMAGES_CACHE_DIR cfg)) (denied w));
    repeat split; reflexivity.
Qed.

Lemma ensure_cache_dir_existing (w : world) :
  Os.lookup (IMAGES_CACHE_DIR cfg) (fs w) = Some Dir ->
  Os.makedirs (IMAGES_CACHE_DIR cfg) w = (Ok tt, w).
Proof. intros H. unfold Os.makedirs. rewrite H. reflexivity. Qed.

(** [download_image] on a non-empty string, once the cache directory is
    ensured. *)
Lemma download_image_resolved (image_url : string) (force_download : bool) (w : world) :
  image_url <> EmptyString ->
  fst (Os.makedirs (IMAGES_CACHE_DIR cfg) w) = Ok tt ->
  ImageCache.download_image cfg network (PyStr image_url) force_download w
  = if negb force_download
       && Os.path_exists (cached_path cfg image_url) (ensure_cache_dir cfg w)
    then (Ok (Some (cached_path cfg image_url)), ensure_cache_dir cfg w)
    else
      match ImageCache.attempts_loop cfg network image_url (cached_path cfg image_url)
              (ImageCache.range (IMAGE_DOWNLOAD_MAX_RETRIES cfg))
              (ensure_cache_dir cfg w) with
      | (Ok (Some p), w2) => (Ok (Some p), w2)
      | (Ok None, w2) => ImageCache.fallback cfg image_url w2
      | (Raise e, w2) => (Raise e, w2)
      end.
Proof.
  intros Hurl Hdir.
  unfold ImageCache.download_image.
  cbn [py_truthy isinstance_str negb orb].
  rewrite (truthy_nonempty image_url Hurl). cbn [negb orb].
  unfold ImageCache.get_cached_image_path, ensure_cache_dir.
  unfold bind at 1. unfold bind at 1.
  destruct (Os.makedirs (IMAGES_CACHE_DIR cfg) w) as [[[]|e] w1];
    cbn [fst] in Hdir; [|discriminate Hdir].
  cbn [snd]. unfold ret at 1. unfold bind at 1. unfold Os.exists_ at 1.
  fold (ImageCache.cached_filename image_url).
  fold (cached_path cfg image_url).
  destruct (negb force_download && Os.path_exists (cached_path cfg image_url) w1);
    [reflexivity|].
  unfold bind.
  destruct (ImageCache.attempts_loop cfg network image_url (cached_path cfg image_url)
              (ImageCache.range (IMAGE_DOWNLOAD_MAX_RETRIES cfg)) w1)
    as [[[p|]|e] w2]; reflexivity.
Qed.

(** If the cache directory cannot be ensured, the exception of
    [os.makedirs] leaves [download_image]. *)
Lemma download_image_makedirs_raises
  (image_url : string) (force_download : bool) (w : world) (e : exn) :
  image_url <> EmptyString ->
  fst (Os.makedirs (IMAGES_CACHE_DIR cfg) w) = Raise e ->
  fst (ImageCache.download_image cfg network (PyStr image_url) force_download w) = Raise e.
Proof.
  intros Hurl Hdir.
  unfold ImageCache.download_image.
  cbn [py_truthy isinstance_str negb orb].
  rewrite (truthy_nonempty image_url Hurl). cbn [negb orb].
  unfold ImageCache.get_cached_image_path.
  unfold bind at 1. unfold bind at 1.
  destruct (Os.makedirs (IMAGES_CACHE_DIR cfg) w) as [[[]|e'] w1];
    cbn [fst] in Hdir; [discriminate Hdir|].
  injection Hdir as ->. reflexivity.
Qed.

Lemma fallback_run (image_url : string) (w : world) :
  ImageCache.fallback cfg image_url w
  = (Ok (fallback_value cfg w),
     if Os.path_exists (DEFAULT_IMAGE_PATH cfg) w
     then add_log WARNING (MsgUsingDefault image_url) w else w).
Proof.
  unfold ImageCache.fallback, fallback_value, bind, Os.exists_.
  destruct (Os.path_exists (DEFAULT_IMAGE_PATH cfg) w); reflexivity.
Qed.

(** Logging leaves the file system, the request count and the events. *)
Lemma fallback_frame (image_url : string) (w : world) :
  let w' := snd (ImageCache.fallback cfg image_url w) in
  fs w' = fs w /\ net_calls w' = net_calls w /\ events w' = events w.
Proof.
  rewrite fallback_run. cbn [snd].
  destruct (Os.path_exists (DEFAULT_IMAGE_PATH cfg) w); repeat split; reflexivity.
Qed.

Lemma fallback_value_fs (w w' : world) :
  fs w' = fs w -> fallback_value cfg w' = fallback_value cfg w.
Proof.
  intros H. unfold fallback_value, Os.path_exists. rewrite H. reflexivity.
Qed.

End Download.

Section RetryLoop.

Variable cfg : Config.
Variable network : string -> nat -> net_result.
Variables (image_url path : string).

Lemma skipn_nth_error {A} (l : list A) :
  forall a d, nth_error l a = Some d -> skipn a l = d :: skipn (S a) l.
Proof.
  induction l as [|x l IH]; intros [|a] d H; simpl in H; try discriminate H.
  - injection H as ->. reflexivity.
  - change (skipn (S a) (x :: l)) with (skipn a l).
    change (skipn (S (S a)) (x :: l)) with (skipn (S a) l).
    apply IH. exact H.
Qed.

(** The backoff before attempt [a + 1], when it is not the last one:
    one sleep of [IMAGE_DOWNLOAD_RETRY_DELAYS[a]]. *)
Lemma backoff_sleeps (a : nat) (w : world) :
  config_ok cfg ->
  Z.of_nat a < IMAGE_DOWNLOAD_MAX_RETRIES cfg - 1 ->
  exists d,
    nth_error (IMAGE_DOWNLOAD_RETRY_DELAYS cfg) a = Some d /\
    ImageCache.backoff cfg (Z.of_nat a) w = (Ok tt, add_sleep d w).
Proof.
  intros (_ & Hlen & Hpos) Ha.
  destruct (nth_error (IMAGE_DOWNLOAD_RETRY_DELAYS cfg) a) as [d|] eqn:Hd.
  - exists d. split; [reflexivity|].
    unfold ImageCache.backoff.
    replace (Z.of_nat a <? IMAGE_DOWNLOAD_MAX_RETRIES cfg - 1) with true
      by (symmetry; apply Z.ltb_lt; exact Ha).
    rewrite Nat2Z.id, Hd. unfold Time.sleep.
    assert (0 <= d) as Hd0.
    { rewrite Forall_forall in Hpos. apply Hpos. eapply nth_error_In. exact Hd. }
    replace (d <? 0) with false by (symmetry; apply Z.ltb_ge; exact Hd0).
    reflexivity.
  - apply nth_error_None in Hd. lia.
Qed.

Lemma backoff_last (a : Z) (w : world) :
  IMAGE_DOWNLOAD_MAX_RETRIES cfg - 1 <= a ->
  ImageCache.backoff cfg a w = (Ok tt, w).
Proof.
  intros Ha. unfold ImageCache.backoff.
  replace (a <? IMAGE_DOWNLOAD_MAX_RETRIES cfg - 1) with false
    by (symmetry; apply Z.ltb_ge; exact Ha).
  reflexivity.
Qed.

(** The loop from attempt [a] on, [k] attempts before the end, when the
    network raises a connection error each time. *)
Lemma attempts_loop_connection_errors :
  config_ok cfg ->
  (forall n, network image_url n = NetRaise ConnectionError) ->
  forall k a w,
    Z.of_nat (a + k) = IMAGE_DOWNLOAD_MAX_RETRIES cfg ->
    exists w',
      ImageCache.attempts_loop cfg network image_url path (map Z.of_nat (seq a k)) w
      = (Ok None, w') /\
      net_calls w' = (net_calls w + k)%nat /\
      events w'
      = events w ++ failed_attempts_events image_url k
                      (skipn a (IMAGE_DOWNLOAD_RETRY_DELAYS cfg)) /\
      fs w' = fs w.
Proof.
  intros Hcfg Hnet.
  induction k as [|k IH]; intros a w Hak.
  - exists w. cbn. rewrite Nat.add_0_r, app_nil_r. repeat split; reflexivity.
  - cbn [seq map ImageCache.attempts_loop].
    unfold bind at 1.
    rewrite (attempt_try_connection_error network image_url path (Z.of_nat a) w (Hnet _)).
    set (w1 := add_log WARNING _ (count_request image_url w)).
    unfold bind at 1.
    destruct k as [|k'].
    + rewrite backoff_last by lia.
      exists w1. cbn. repeat split; try reflexivity. lia.
    + destruct (backoff_sleeps a w1 Hcfg) as [d [Hd Hb]]; [lia|].
      rewrite Hb.
      destruct (IH (S a) (add_sleep d w1)) as (w' & R1 & R2 & R3 & R4); [lia|].
      exists w'. split; [exact R1|]. split; [rewrite R2; cbn; lia|].
      split; [|rewrite R4; reflexivity].
      rewrite R3. cbn [events add_sleep w1 add_log count_request].
      rewrite (skipn_nth_error _ a d Hd).
      cbn [failed_attempts_events]. rewrite <- !app_assoc. cbn [app].
      destruct k'; reflexivity.
Qed.

(** The same loop when every response passes [raise_for_status] without
    declaring an image: as many requests, but no sleep at all, since
    [continue] skips the backoff. *)
Lemma attempts_loop_mismatches :
  (forall n, exists r, network image_url n = NetResponse r /\ mismatch_response r = true) ->
  forall todo w,
    exists w',
      ImageCache.attempts_loop cfg network image_url path todo w = (Ok None, w') /\
      net_calls w' = (net_calls w + List.length todo)%nat /\
      events w' = events w ++ repeat (Requested image_url) (List.length todo) /\
      fs w' = fs w.
Proof.
  intros Hnet.
  induction todo as [|a todo IH]; intros w.
  - exists w. cbn. rewrite Nat.add_0_r, app_nil_r. repeat split; reflexivity.
  - cbn [ImageCache.attempts_loop List.length].
    unfold bind at 1.
    destruct (Hnet (net_calls w)) as [r [Hr Hm]].
    rewrite (attempt_try_mismatch network image_url path a w r Hr Hm).
    set (w1 := add_log WARNING _ (count_request image_url w)).
    destruct (IH w1) as (w' & R1 & R2 & R3 & R4).
    exists w'. split; [exact R1|]. split; [rewrite R2; cbn; lia|].
    split; [|rewrite R4; reflexivity].
    rewrite R3. cbn [events w1 add_log count_request repeat].
    rewrite <- app_assoc. reflexivity.
Qed.

End RetryLoop.

Lemma failed_attempts_events_flat (url : string) :
  forall k delays,
    (k <= List.length delays)%nat ->
    failed_attempts_events url (S k) delays
    = Requested url :: flat_map (fun d => [Slept d; Requested url]) (firstn k delays).
Proof.
  induction k as [|k IH]; intros delays Hlen; [reflexivity|].
  destruct delays as [|d ds]; [simpl in Hlen; lia|].
  change (failed_attempts_events url (S (S k)) (d :: ds))
    with (Requested url :: Slept d :: failed_attempts_events url (S k) ds).
  rewrite IH by (simpl in Hlen; lia). reflexivity.
Qed.

(** C2. When every request for the URL raises a connection error, a call
    that does not end at the cache-hit test sends exactly
    [IMAGE_DOWNLOAD_MAX_RETRIES] requests, sleeps
    [IMAGE_DOWNLOAD_RETRY_DELAYS[attempt]] between one request and the
    next and not after the last, writes nothing, and returns
    [DEFAULT_IMAGE_PATH] if that path exists and [None] otherwise. *)
Theorem connection_errors_exhaust_retries
  (cfg : Config) (network : string -> nat -> net_result)
  (image_url : string) (force_download : bool) (w : world) :
  image_url <> EmptyString ->
  config_ok cfg ->
  fst (Os.makedirs (IMAGES_CACHE_DIR cfg) w) = Ok tt ->
  force_download = true \/
    Os.path_exists (cached_path cfg image_url) (ensure_cache_dir cfg w) = false ->
  (forall n, network image_url n = NetRaise ConnectionError) ->
  exists w',
    ImageCache.download_image cfg network (PyStr image_url) force_download w
    = (Ok (fallback_value cfg w'), w') /\
    Z.of_nat (net_calls w') = Z.of_nat (net_calls w) + IMAGE_DOWNLOAD_MAX_RETRIES cfg /\
    events w'
    = events w ++
      Requested image_url ::
      flat_map (fun d => [Slept d; Requested image_url])
               (firstn (Z.to_nat (IMAGE_DOWNLOAD_MAX_RETRIES cfg - 1))
                       (IMAGE_DOWNLOAD_RETRY_DELAYS cfg)) /\
    fs w' = fs (ensure_cache_dir cfg w).
Proof.
  intros Hurl Hcfg Hdir Hmiss Hnet.
  rewrite (download_image_resolved cfg network image_url force_download w Hurl Hdir).
  replace (negb force_download
           && Os.path_exists (cached_path cfg image_url) (ensure_cache_dir cfg w))
    with false
    by (destruct Hmiss as [-> | ->]; [reflexivity | rewrite andb_false_r; reflexivity]).
  pose proof Hcfg as (Hn & Hlen & _).
  destruct (attempts_loop_connection_errors cfg network image_url
              (cached_path cfg image_url) Hcfg Hnet
              (Z.to_nat (IMAGE_DOWNLOAD_MAX_RETRIES cfg)) 0%nat (ensure_cache_dir cfg w))
    as (w2 & R1 & R2 & R3 & R4); [lia|].
  unfold ImageCache.range. rewrite R1.
  destruct (ensure_cache_dir_frame cfg w) as (_ & _ & Fn & Fe & _).
  destruct (fallback_frame cfg image_url w2) as (G1 & G2 & G3).
  exists (snd (ImageCache.fallback cfg image_url w2)).
  split.
  - rewrite (fallback_value_fs cfg w2 _ G1).
    rewrite fallback_run. reflexivity.
  - split; [rewrite G2, R2, Fn; lia|].
    split; [|rewrite G1; exact R4].
    rewrite G3, R3, Fe. cbn [skipn]. f_equal.
    replace (Z.to_nat (IMAGE_DOWNLOAD_MAX_RETRIES cfg))
      with (S (Z.to_nat (IMAGE_DOWNLOAD_MAX_RETRIES cfg - 1))) by lia.
    apply failed_attempts_events_flat. lia.
Qed.

Lemma connection_errors_exhaust_retries_witness :
  exists w',
    ImageCache.download_image Fixtures.cfg Fixtures.net_down (PyStr Fixtures.url) false
      Fixtures.w_empty
    = (Ok (fallback_value Fixtures.cfg w'), w') /\
    Z.of_nat (net_calls w') = Z.of_nat (net_calls Fixtures.w_empty) + 3 /\
    events w'
    = events Fixtures.w_empty ++
      Requested Fixtures.url ::
      flat_map (fun d => [Slept d; Requested Fixtures.url]) (firstn 2 [1; 2; 4]) /\
    fs w' = fs (ensure_cache_dir Fixtures.cfg Fixtures.w_empty).
Proof.
  apply (connection_errors_exhaust_retries Fixtures.cfg Fixtures.net_down
           Fixtures.url false Fixtures.w_empty).
  - discriminate.
  - unfold config_ok. cbn. repeat split; try lia.
    repeat constructor; lia.
  - reflexivity.
  - right. vm_compute. reflexivity.
  - intros n. reflexivity.
Defined.

(** The same call, run: three requests with sleeps of 1 and 2
    between them, then the default image. *)
Example connection_errors_run :
  ImageCache.download_image Fixtures.cfg Fixtures.net_down (PyStr Fixtures.url) false
    Fixtures.w_empty
  = (Ok (Some "assets/default.png"),
     mkWorld [("cache", Dir); ("assets/default.png", File 10 0)] [] 3 3
       [Requested Fixtures.url; Slept 1; Requested Fixtures.url; Slept 2;
        Requested Fixtures.url]
       [(WARNING, MsgConnectionError 1 Fixtures.url ConnectionError);
        (WARNING, MsgConnectionError 2 Fixtures.url ConnectionError);
        (WARNING, MsgConnectionError 3 Fixtures.url ConnectionError);
        (WARNING, MsgUsingDefault Fixtures.url)]).
Proof. vm_compute. reflexivity. Qed.

Example connection_errors_run_no_default :
  fst (ImageCache.download_image Fixtures.cfg Fixtures.net_down (PyStr Fixtures.url) true
         Fixtures.w_no_default)
  = Ok None.
Proof. vm_compute. reflexivity. Qed.

(** C7. When the resolved cache path exists (in its cache directory) and
    the download is not forced, the call returns that path at once: no
    request is sent, nothing is logged, and the world, with the file and
    the rest of the cache directory, is as before. *)
Theorem cache_hit_returns_without_network
  (cfg : Config) (network : string -> nat -> net_result)
  (image_url : string) (w : world) :
  image_url <> EmptyString ->
  Os.lookup (IMAGES_CACHE_DIR cfg) (fs w) = Some Dir ->
  Os.path_exists (cached_path cfg image_url) w = true ->
  ImageCache.download_image cfg network (PyStr image_url) false w
  = (Ok (Some (cached_path cfg image_url)), w).
Proof.
  intros Hurl Hdir Hex.
  pose proof (ensure_cache_dir_existing cfg w Hdir) as Hmk.
  rewrite (download_image_resolved cfg network image_url false w Hurl)
    by (rewrite Hmk; reflexivity).
  unfold ensure_cache_dir. rewrite Hmk. cbn [snd negb andb].
  rewrite Hex. reflexivity.
Qed.

Lemma cache_hit_returns_without_network_witness :
  ImageCache.download_image Fixtures.cfg Fixtures.net_png (PyStr Fixtures.url) false
    Fixtures.w_cached
  = (Ok (Some (cached_path Fixtures.cfg Fixtures.url)), Fixtures.w_cached).
Proof.
  apply (cache_hit_returns_without_network Fixtures.cfg Fixtures.net_png
           Fixtures.url Fixtures.w_cached).
  - discriminate.
  - reflexivity.
  - vm_compute. reflexivity.
Defined.

(** C8. When the first attempt gets an image response and opening the
    cache file raises a permission error, that attempt is the only one:
    one request, no sleep, nothing written, and the call goes on to the
    fallback, returning [DEFAULT_IMAGE_PATH] if it exists and [None]
    otherwise. *)
Theorem permission_error_stops_after_one_attempt
  (cfg : Config) (network : string -> nat -> net_result)
  (image_url : string) (force_download : bool) (w : world) (r : response) :
  image_url <> EmptyString ->
  1 <= IMAGE_DOWNLOAD_MAX_RETRIES cfg ->
  fst (Os.makedirs (IMAGES_CACHE_DIR cfg) w) = Ok tt ->
  force_download = true \/
    Os.path_exists (cached_path cfg image_url) (ensure_cache_dir cfg w) = false ->
  network image_url (net_calls w) = NetResponse r ->
  image_response r = true ->
  existsb (String.eqb (cached_path cfg image_url)) (denied w) = true ->
  exists w',
    ImageCache.download_image cfg network (PyStr image_url) force_download w
    = (Ok (fallback_value cfg w'), w') /\
    net_calls w' = S (net_calls w) /\
    events w' = events w ++ [Requested image_url] /\
    fs w' = fs (ensure_cache_dir cfg w).
Proof.
  intros Hurl Hn Hdir Hmiss Hnet Hresp Hden.
  rewrite (download_image_resolved cfg network image_url force_download w Hurl Hdir).
  replace (negb force_download
           && Os.path_exists (cached_path cfg image_url) (ensure_cache_dir cfg w))
    with false
    by (destruct Hmiss as [-> | ->]; [reflexivity | rewrite andb_false_r; reflexivity]).
  destruct (ensure_cache_dir_frame cfg w) as (Fd & _ & Fn & Fe & _).
  unfold ImageCache.range.
  replace (Z.to_nat (IMAGE_DOWNLOAD_MAX_RETRIES cfg))
    with (S (Z.to_nat (IMAGE_DOWNLOAD_MAX_RETRIES cfg - 1))) by lia.
  cbn [seq map ImageCache.attempts_loop]. unfold bind at 1.
  rewrite (attempt_try_permission_error network image_url (cached_path cfg image_url)
             (Z.of_nat 0) (ensure_cache_dir cfg w) r)
    by (rewrite ?Fn, ?Fd; assumption).
  unfold ret at 1.
  set (w2 := add_log ERROR _ (count_request image_url (ensure_cache_dir cfg w))).
  destruct (fallback_frame cfg image_url w2) as (G1 & G2 & G3).
  exists (snd (ImageCache.fallback cfg image_url w2)).
  split.
  - rewrite (fallback_value_fs cfg w2 _ G1).
    rewrite fallback_run. reflexivity.
  - split; [rewrite G2; cbn; rewrite Fn; reflexivity|].
    split; [rewrite G3; cbn; rewrite Fe; reflexivity|].
    rewrite G1. reflexivity.
Qed.

Lemma permission_error_stops_after_one_attempt_witness :
  exists w',
    ImageCache.download_image Fixtures.cfg Fixtures.net_png (PyStr Fixtures.url) false
      Fixtures.w_denied
    = (Ok (fallback_value Fixtures.cfg w'), w') /\
    net_calls w' = S (net_calls Fixtures.w_denied) /\
    events w' = events Fixtures.w_denied ++ [Requested Fixtures.url] /\
    fs w' = fs (ensure_cache_dir Fixtures.cfg Fixtures.w_denied).
Proof.
  apply (permission_error_stops_after_one_attempt Fixtures.cfg Fixtures.net_png
           Fixtures.url false Fixtures.w_denied Fixtures.png).
  - discriminate.
  - cbn. lia.
  - reflexivity.
  - right. vm_compute. reflexivity.
  - reflexivity.
  - reflexivity.
  - vm_compute. reflexivity.
Defined.

Example permission_error_run :
  ImageCache.download_image Fixtures.cfg Fixtures.net_png (PyStr Fixtures.url) false
    Fixtures.w_denied
  = (Ok (Some "assets/default.png"),
     mkWorld [("cache", Dir); ("assets/default.png", File 10 0)] [Fixtures.url_path] 0 1
       [Requested Fixtures.url]
       [(ERROR, MsgPermissionError PermissionError);
        (WARNING, MsgUsingDefault Fixtures.url)]).
Proof. vm_compute. reflexivity. Qed.

(** ** Where the code departs from its specification *)

(** When the loop returns a path it is the cache path, and the file there
    is a regular file that is not empty. *)
Lemma attempt_body_return_nonempty
  (network : string -> nat -> net_result) (image_url path : string)
  (w w' : world) (p : string) :
  ImageCache.attempt_body network image_url path w = (Ok (CReturn p), w') ->
  p = path /\ exists sz mt, Os.lookup path (fs w') = Some (File sz mt) /\ sz <> 0.
Proof.
  unfold ImageCache.attempt_body.
  unfold bind at 1.
  destruct (Requests.get network image_url w) as [[r|e] w1]; [|discriminate].
  unfold bind at 1.
  destruct (Requests.raise_for_status r w1) as [[[]|e] w2]; [|discriminate].
  destruct (negb (PyStr.startswith "image/" (Requests.headers_get r "content-type" ""))).
  - unfold bind, logger, ret. discriminate.
  - unfold bind at 1.
    destruct (ImageCache.save_image path r w2) as [[[]|e] w3]; [|discriminate].
    unfold bind at 1. unfold Os.exists_ at 1. unfold Os.path_exists.
    destruct (Os.lookup path (fs w3)) as [n|] eqn:Hl; cbn [negb].
    + unfold bind at 1. unfold bind at 1. unfold Os.getsize. rewrite Hl.
      destruct n as [sz mt|].
      * unfold ret at 1. destruct (sz =? 0) eqn:Hsz.
        -- unfold bind, logger, ret. discriminate.
        -- unfold bind, logger, ret. intros H. injection H as <- <-.
           split; [reflexivity|]. exists sz, mt.
           split; [exact Hl | apply Z.eqb_neq; exact Hsz].
      * unfold ret at 1. cbn [Z.eqb]. unfold bind, logger, ret. discriminate.
    + unfold bind, logger, ret. discriminate.
Qed.

(** Invalid input is rejected before anything else: an error is logged
    and [None] returned. *)
Lemma download_image_invalid_input
  (cfg : Config) (network : string -> nat -> net_result)
  (image_url : py_value) (force_download : bool) (w : world) :
  py_truthy image_url && isinstance_str image_url = false ->
  ImageCache.download_image cfg network image_url force_download w
  = (Ok None, add_log ERROR (MsgInvalidUrl image_url) w).
Proof.
  intros H. unfold ImageCache.download_image.
  destruct (py_truthy image_url), (isinstance_str image_url);
    try discriminate H; reflexivity.
Qed.

Lemma attempt_try_return_nonempty
  (network : string -> nat -> net_result) (attempt : Z) (image_url path : string)
  (w w' : world) (p : string) :
  ImageCache.attempt_try network attempt image_url path w = (Ok (CReturn p), w') ->
  p = path /\ exists sz mt, Os.lookup path (fs w') = Some (File sz mt) /\ sz <> 0.
Proof.
  unfold ImageCache.attempt_try, try_except.
  destruct (ImageCache.attempt_body network image_url path w) as [[c|e] w1] eqn:Hb.
  - intros H. injection H as -> ->.
    apply (attempt_body_return_nonempty network image_url path w w' p Hb).
  - destruct e; cbn [ImageCache.handlers]; unfold bind, logger, ret; discriminate.
Qed.

Lemma attempts_loop_return_nonempty
  (cfg : Config) (network : string -> nat -> net_result) (image_url path : string) :
  forall todo w w' p,
    ImageCache.attempts_loop cfg network image_url path todo w = (Ok (Some p), w') ->
    p = path /\ exists sz mt, Os.lookup path (fs w') = Some (File sz mt) /\ sz <> 0.
Proof.
  induction todo as [|a todo IH]; intros w w' p; cbn [ImageCache.attempts_loop].
  - unfold ret. discriminate.
  - unfold bind at 1.
    destruct (ImageCache.attempt_try network a image_url path w) as [[c|e] w1] eqn:Ht;
      [|discriminate].
    destruct c as [q| | |].
    + unfold ret. intros H. injection H as -> ->.
      apply (attempt_try_return_nonempty network a image_url path w w' p Ht).
    + apply IH.
    + unfold ret. discriminate.
    + unfold bind at 1.
      destruct (ImageCache.backoff cfg a w1) as [[[]|e] w2]; [apply IH | discriminate].
Qed.

(** A path returned by [download_image] is the default image, or the
    cache path taken as a hit without looking into the file, or the cache
    path of a file just written that is not empty. *)
Lemma download_image_returned_path
  (cfg : Config) (network : string -> nat -> net_result)
  (image_url : string) (force_download : bool) (w w' : world) (p : string) :
  ImageCache.download_image cfg network (PyStr image_url) force_download w
  = (Ok (Some p), w') ->
  p = DEFAULT_IMAGE_PATH cfg \/
  (force_download = false /\ p = cached_path cfg image_url /\
   w' = ensure_cache_dir cfg w /\ Os.path_exists p w' = true) \/
  (p = cached_path cfg image_url /\
   exists sz mt, Os.lookup p (fs w') = Some (File sz mt) /\ sz <> 0).
Proof.
  intros H.
  destruct image_url as [|c url'] eqn:Hu.
  { rewrite (download_image_invalid_input cfg network (PyStr EmptyString) force_download w)
      in H by reflexivity.
    discriminate H. }
  rewrite <- Hu in *.
  assert (Hurl : image_url <> EmptyString) by (rewrite Hu; discriminate).
  destruct (fst (Os.makedirs (IMAGES_CACHE_DIR cfg) w)) as [[]|e] eqn:Hmk.
  - rewrite (download_image_resolved cfg network image_url force_download w Hurl Hmk) in H.
    destruct (negb force_download
              && Os.path_exists (cached_path cfg image_url) (ensure_cache_dir cfg w))
      eqn:Hhit.
    + injection H as <- <-. right. left.
      apply andb_true_iff in Hhit as [Hf Hex].
      apply negb_true_iff in Hf. repeat split; assumption.
    + destruct (ImageCache.attempts_loop cfg network image_url (cached_path cfg image_url)
                  (ImageCache.range (IMAGE_DOWNLOAD_MAX_RETRIES cfg))
                  (ensure_cache_dir cfg w)) as [[[q|]|e] w2] eqn:Hloop.
      * injection H as <- <-. right. right.
        destruct (attempts_loop_return_nonempty cfg network image_url
                    (cached_path cfg image_url) _ _ _ _ Hloop) as [-> Hfile].
        split; [reflexivity | exact Hfile].
      * rewrite fallback_run in H. injection H as Hv _.
        unfold fallback_value in Hv.
        destruct (Os.path_exists (DEFAULT_IMAGE_PATH cfg) w2); [|discriminate Hv].
        injection Hv as <-. left. reflexivity.
      * discriminate H.
  - pose proof (download_image_makedirs_raises cfg network image_url force_download w e
                  Hurl Hmk) as Hr.
    rewrite H in Hr. discriminate Hr.
Qed.

(** C6, evaluated. A first call whose responses declare an image with an
    empty body leaves an empty file at the cache path and returns the
    default image; the next call finds that file, takes it for a cache hit
    and returns its path, although it has size 0. *)
Theorem empty_cache_entry_served_as_hit :
  ImageCache.download_image Fixtures.cfg Fixtures.net_empty_png (PyStr Fixtures.url) false
    Fixtures.w_empty
  = (Ok (Some "assets/default.png"),
     mkWorld [("cache", Dir); ("assets/default.png", File 10 0);
              (Fixtures.url_path, File 0 0)] [] 0 3
       [Requested Fixtures.url; Requested Fixtures.url; Requested Fixtures.url]
       [(WARNING, MsgSaveFailed Fixtures.url); (WARNING, MsgSaveFailed Fixtures.url);
        (WARNING, MsgSaveFailed Fixtures.url); (WARNING, MsgUsingDefault Fixtures.url)])
  /\
  fst (ImageCache.download_image Fixtures.cfg Fixtures.net_empty_png (PyStr Fixtures.url) false
         (snd (ImageCache.download_image Fixtures.cfg Fixtures.net_empty_png
                 (PyStr Fixtures.url) false Fixtures.w_empty)))
  = Ok (Some Fixtures.url_path)
  /\
  Os.getsize Fixtures.url_path
    (snd (ImageCache.download_image Fixtures.cfg Fixtures.net_empty_png (PyStr Fixtures.url) false
            (snd (ImageCache.download_image Fixtures.cfg Fixtures.net_empty_png
                    (PyStr Fixtures.url) false Fixtures.w_empty))))
  = (Ok 0,
     snd (ImageCache.download_image Fixtures.cfg Fixtures.net_empty_png
            (PyStr Fixtures.url) false Fixtures.w_empty)).
Proof. vm_compute. repeat split. Qed.

(** A download cut while streaming leaves its first chunks at the cache
    path; the next call returns the truncated file as a cache hit. *)
Example truncated_cache_entry_served_as_hit :
  let cut := mkResponse 200 [("Content-Type", "image/png")] [100%N] (Some RequestException) in
  let net := fun (_ : string) (_ : nat) => NetResponse cut in
  let w1 := snd (ImageCache.download_image Fixtures.cfg net (PyStr Fixtures.url) false
                   Fixtures.w_empty) in
  Os.lookup Fixtures.url_path (fs w1) = Some (File 100 3) /\
  ImageCache.download_image Fixtures.cfg net (PyStr Fixtures.url) false w1
  = (Ok (Some Fixtures.url_path), w1).
Proof. vm_compute. split; reflexivity. Qed.

(** A file that is already empty at the cache path is a hit as well. *)
Example empty_file_is_a_hit :
  fst (ImageCache.download_image Fixtures.cfg Fixtures.net_png (PyStr Fixtures.url) false
         (mkWorld [("cache", Dir); (Fixtures.url_path, File 0 0)] [] 0 0 [] []))
  = Ok (Some Fixtures.url_path).
Proof. vm_compute. reflexivity. Qed.

(** C4, evaluated. When the cache directory path is taken by a regular
    file, [os.makedirs] raises [FileExistsError] in
    [get_cached_image_path], outside every [try], and the exception
    leaves [download_image]. *)
Theorem download_image_propagates_makedirs_error :
  ImageCache.download_image Fixtures.cfg Fixtures.net_png (PyStr Fixtures.url) false
    Fixtures.w_cache_is_file
  = (Raise FileExistsError, Fixtures.w_cache_is_file).
Proof. vm_compute. reflexivity. Qed.

(** The same with a cache directory the process may not create. *)
Example download_image_propagates_permission_error :
  fst (ImageCache.download_image Fixtures.cfg Fixtures.net_png (PyStr Fixtures.url) false
         (mkWorld [] ["cache"] 0 0 [] []))
  = Raise PermissionError.
Proof. vm_compute. reflexivity. Qed.

(** C3, evaluated. With three attempts allowed and delays 1 and 2, a URL
    answered by [text/html] each time is requested three times in a row
    without any sleep, while connection errors put the two delays between
    the same three requests. Both calls write nothing and return the
    default image. *)
Theorem content_mismatch_retries_without_backoff :
  ImageCache.download_image Fixtures.cfg Fixtures.net_html (PyStr Fixtures.url) false
    Fixtures.w_empty
  = (Ok (Some "assets/default.png"),
     mkWorld [("cache", Dir); ("assets/default.png", File 10 0)] [] 0 3
       [Requested Fixtures.url; Requested Fixtures.url; Requested Fixtures.url]
       [(WARNING, MsgInvalidContentType Fixtures.url "text/html");
        (WARNING, MsgInvalidContentType Fixtures.url "text/html");
        (WARNING, MsgInvalidContentType Fixtures.url "text/html");
        (WARNING, MsgUsingDefault Fixtures.url)])
  /\
  events (snd (ImageCache.download_image Fixtures.cfg Fixtures.net_down (PyStr Fixtures.url)
                 false Fixtures.w_empty))
  = [Requested Fixtures.url; Slept 1; Requested Fixtures.url; Slept 2;
     Requested Fixtures.url].
Proof. vm_compute. split; reflexivity. Qed.

(** ** The general shape of the two departures above *)

(** Whatever the configuration, responses that never declare an image get
    one request per attempt and no sleep; nothing is written and the call
    ends at the fallback. *)
Lemma content_mismatch_exhausts_without_sleep
  (cfg : Config) (network : string -> nat -> net_result)
  (image_url : string) (force_download : bool) (w : world) :
  image_url <> EmptyString ->
  fst (Os.makedirs (IMAGES_CACHE_DIR cfg) w) = Ok tt ->
  force_download = true \/
    Os.path_exists (cached_path cfg image_url) (ensure_cache_dir cfg w) = false ->
  (forall n, exists r, network image_url n = NetResponse r /\ mismatch_response r = true) ->
  exists w',
    ImageCache.download_image cfg network (PyStr image_url) force_download w
    = (Ok (fallback_value cfg w'), w') /\
    net_calls w' = (net_calls w + Z.to_nat (IMAGE_DOWNLOAD_MAX_RETRIES cfg))%nat /\
    events w'
    = events w ++ repeat (Requested image_url) (Z.to_nat (IMAGE_DOWNLOAD_MAX_RETRIES cfg)) /\
    fs w' = fs (ensure_cache_dir cfg w).
Proof.
  intros Hurl Hdir Hmiss Hnet.
  rewrite (download_image_resolved cfg network image_url force_download w Hurl Hdir).
  replace (negb force_download
           && Os.path_exists (cached_path cfg image_url) (ensure_cache_dir cfg w))
    with false
    by (destruct Hmiss as [-> | ->]; [reflexivity | rewrite andb_false_r; reflexivity]).
  destruct (attempts_loop_mismatches cfg network image_url (cached_path cfg image_url) Hnet
              (ImageCache.range (IMAGE_DOWNLOAD_MAX_RETRIES cfg)) (ensure_cache_dir cfg w))
    as (w2 & R1 & R2 & R3 & R4).
  rewrite R1.
  unfold ImageCache.range in R2, R3. rewrite length_map, length_seq in R2, R3.
  destruct (ensure_cache_dir_frame cfg w) as (_ & _ & Fn & Fe & _).
  destruct (fallback_frame cfg image_url w2) as (G1 & G2 & G3).
  exists (snd (ImageCache.fallback cfg image_url w2)).
  split.
  - rewrite (fallback_value_fs cfg w2 _ G1). rewrite fallback_run. reflexivity.
  - split; [rewrite G2, R2, Fn; reflexivity|].
    split; [rewrite G3, R3, Fe; reflexivity|].
    rewrite G1. exact R4.
Qed.

(** * Further properties of the module *)

(** ** The file system: storing and looking up *)

Lemma lookup_store_same (p : string) (n : node) (f : list (string * node)) :
  Os.lookup p (Os.store p n f) = Some n.
Proof.
  induction f as [|[q m] f IH]; cbn [Os.store Os.lookup].
  - rewrite String.eqb_refl. reflexivity.
  - destruct (String.eqb q p) eqn:E; cbn [Os.lookup]; rewrite E; [reflexivity | exact IH].
Qed.

Lemma lookup_store_other (p q : string) (n : node) (f : list (string * node)) :
  q <> p -> Os.lookup q (Os.store p n f) = Os.lookup q f.
Proof.
  intros Hqp. induction f as [|[r m] f IH]; cbn [Os.store Os.lookup].
  - destruct (String.eqb p q) eqn:E; [|reflexivity].
    apply String.eqb_eq in E. congruence.
  - destruct (String.eqb r p) eqn:E; cbn [Os.lookup].
    + apply String.eqb_eq in E. subst r.
      destruct (String.eqb p q) eqn:E2; [|reflexivity].
      apply String.eqb_eq in E2. congruence.
    + rewrite IH. reflexivity.
Qed.

Lemma store_store (p : string) (n m : node) (f : list (string * node)) :
  Os.store p n (Os.store p m f) = Os.store p n f.
Proof.
  induction f as [|[q k] f IH]; cbn [Os.store].
  - rewrite String.eqb_refl. reflexivity.
  - destruct (String.eqb q p) eqn:E; cbn [Os.store]; rewrite E; [reflexivity|].
    rewrite IH. reflexivity.
Qed.

Lemma lookup_app_other (p q : string) (n : node) (f : list (string * node)) :
  q <> p -> Os.lookup q (f ++ [(p, n)]) = Os.lookup q f.
Proof.
  intros Hqp. induction f as [|[r m] f IH]; cbn [app Os.lookup].
  - destruct (String.eqb p q) eqn:E; [|reflexivity].
    apply String.eqb_eq in E. congruence.
  - destruct (String.eqb r q); [reflexivity | exact IH].
Qed.

Lemma lookup_app_present (q : string) (f g : list (string * node)) (n : node) :
  Os.lookup q f = Some n -> Os.lookup q (f ++ g) = Some n.
Proof.
  induction f as [|[r m] f IH]; cbn [app Os.lookup]; [discriminate|].
  destruct (String.eqb r q); [trivial | exact IH].
Qed.

Lemma lookup_unlink_other (p q : string) (f : list (string * node)) :
  q <> p -> Os.lookup q (Os.unlink p f) = Os.lookup q f.
Proof.
  intros Hqp. unfold Os.unlink.
  induction f as [|[r m] f IH]; cbn [filter Os.lookup fst]; [reflexivity|].
  destruct (String.eqb r p) eqn:E; cbn [negb Os.lookup].
  - apply String.eqb_eq in E. subst r.
    destruct (String.eqb p q) eqn:E2; [|exact IH].
    apply String.eqb_eq in E2. congruence.
  - destruct (String.eqb r q); [reflexivity | exact IH].
Qed.

(** ** Computations that stay local to the cache file *)

Section Local.

Variable path : string.

Lemma local_ret {A} (a : A) : local_to path (ret a).
Proof. intros w. cbn. repeat split; reflexivity. Qed.

Lemma local_raise {A} (e : exn) : local_to path (@raise A e).
Proof. intros w. cbn. repeat split; reflexivity. Qed.

Lemma local_bind {A B} (m : M A) (k : A -> M B) :
  local_to path m -> (forall a, local_to path (k a)) -> local_to path (bind m k).
Proof.
  intros Hm Hk w. unfold bind.
  destruct (Hm w) as (M1 & M2 & M3 & M4 & M5).
  destruct (m w) as [[a|e] w1]; cbn [snd] in *.
  - destruct (Hk a w1) as (K1 & K2 & K3 & K4 & K5).
    repeat split; try congruence.
    intros q Hq. rewrite K5, M5 by exact Hq. reflexivity.
  - repeat split; assumption.
Qed.

Lemma local_try_except {A} (m : M A) (h : exn -> M A) :
  local_to path m -> (forall e, local_to path (h e)) -> local_to path (try_except m h).
Proof.
  intros Hm Hh w. unfold try_except.
  destruct (Hm w) as (M1 & M2 & M3 & M4 & M5).
  destruct (m w) as [[a|e] w1]; cbn [snd] in *.
  - repeat split; assumption.
  - destruct (Hh e w1) as (K1 & K2 & K3 & K4 & K5).
    repeat split; try congruence.
    intros q Hq. rewrite K5, M5 by exact Hq. reflexivity.
Qed.

Lemma local_logger (lv : level) (m : log_msg) : local_to path (logger lv m).
Proof. intros w. cbn. repeat split; reflexivity. Qed.

Lemma local_exists (p : string) : local_to path (Os.exists_ p).
Proof. intros w. cbn. repeat split; reflexivity. Qed.

Lemma local_getsize (p : string) : local_to path (Os.getsize p).
Proof.
  intros w. rewrite (read_only_getsize p w). repeat split; reflexivity.
Qed.

Lemma local_raise_for_status (r : response) : local_to path (Requests.raise_for_status r).
Proof.
  unfold Requests.raise_for_status.
  destruct ((400 <=? status_code r) && (status_code r <? 600));
    [apply local_raise | apply local_ret].
Qed.

Lemma local_open_wb : local_to path (Os.open_wb path).
Proof.
  intros w. unfold Os.open_wb.
  destruct (existsb (String.eqb path) (denied w)); [cbn; repeat split; reflexivity|].
  destruct (Os.lookup path (fs w)) as [[sz mt|]|]; cbn;
    repeat split; try reflexivity;
    intros q Hq; apply lookup_store_other; exact Hq.
Qed.

Lemma local_write (n : Z) : local_to path (Os.write path n).
Proof.
  intros w. unfold Os.write.
  destruct (Os.lookup path (fs w)) as [[sz mt|]|]; cbn;
    repeat split; try reflexivity.
  intros q Hq. apply lookup_store_other. exact Hq.
Qed.

Lemma local_write_chunks (chunks : list N) :
  local_to path (ImageCache.write_chunks path chunks).
Proof.
  induction chunks as [|c cs IH]; cbn [ImageCache.write_chunks].
  - apply local_ret.
  - apply local_bind; [apply local_write | intros _; exact IH].
Qed.

Lemma local_save_image (r : response) : local_to path (ImageCache.save_image path r).
Proof.
  unfold ImageCache.save_image.
  apply local_bind; [apply local_open_wb | intros _].
  apply local_bind; [apply local_write_chunks | intros _].
  destruct (body_error r); [apply local_raise | apply local_ret].
Qed.

Lemma local_handlers (attempt : Z) (image_url : string) (e : exn) :
  local_to path (ImageCache.handlers attempt image_url e).
Proof.
  destruct e; cbn [ImageCache.handlers];
    (apply local_bind; [apply local_logger | intros _; apply local_ret]).
Qed.

End Local.

(** ** What a call may touch *)

(** An attempt sends one request and, besides, changes nothing but the
    log and the cache file. *)
Lemma attempt_try_frame
  (network : string -> nat -> net_result) (attempt : Z) (image_url path : string)
  (w : world) :
  forall c w',
    ImageCache.attempt_try network attempt image_url path w = (c, w') ->
    denied w' = denied w /\
    clock w' = clock w /\
    net_calls w' = S (net_calls w) /\
    events w' = events w ++ [Requested image_url] /\
    forall q, q <> path -> Os.lookup q (fs w') = Os.lookup q (fs w).
Proof.
  intros c w'.
  unfold ImageCache.attempt_try, ImageCache.attempt_body.
  unfold try_except. unfold bind at 1. unfold Requests.get.
  destruct (network image_url (net_calls w)) as [e|r].
  - intros H.
    pose proof (local_handlers path attempt image_url e (count_request image_url w)) as L.
    rewrite H in L. exact L.
  - match goal with
    | |- context [ bind (Requests.raise_for_status r) ?k ] =>
        set (rest := bind (Requests.raise_for_status r) k)
    end.
    assert (Hrest : local_to path rest).
    { subst rest. apply local_bind; [apply local_raise_for_status | intros _].
      destruct (negb (PyStr.startswith "image/" (Requests.headers_get r "content-type" ""))).
      - apply local_bind; [apply local_logger | intros _; apply local_ret].
      - apply local_bind; [apply local_save_image | intros _].
        apply local_bind; [apply local_exists | intros ex].
        apply local_bind.
        + destruct (negb ex); [apply local_ret|].
          apply local_bind; [apply local_getsize | intros sz; apply local_ret].
        + intros bad. destruct bad;
            (apply local_bind; [apply local_logger | intros _; apply local_ret]). }
    intros H.
    pose proof (local_try_except path rest (ImageCache.handlers attempt image_url) Hrest
                  (local_handlers path attempt image_url) (count_request image_url w)) as L.
    unfold try_except in L. rewrite H in L. exact L.
Qed.

Lemma backoff_frame (cfg : Config) (attempt : Z) (w : world) :
  denied (snd (ImageCache.backoff cfg attempt w)) = denied w /\
  net_calls (snd (ImageCache.backoff cfg attempt w)) = net_calls w /\
  fs (snd (ImageCache.backoff cfg attempt w)) = fs w.
Proof.
  unfold ImageCache.backoff.
  destruct (attempt <? IMAGE_DOWNLOAD_MAX_RETRIES cfg - 1); [|repeat split; reflexivity].
  destruct (nth_error (IMAGE_DOWNLOAD_RETRY_DELAYS cfg) (Z.to_nat attempt)) as [d|];
    [|repeat split; reflexivity].
  unfold Time.sleep. destruct (d <? 0); repeat split; reflexivity.
Qed.

Lemma attempts_loop_frame
  (cfg : Config) (network : string -> nat -> net_result) (image_url path : string) :
  forall todo w r w',
    ImageCache.attempts_loop cfg network image_url path todo w = (r, w') ->
    denied w' = denied w /\
    (net_calls w <= net_calls w' <= net_calls w + List.length todo)%nat /\
    forall q, q <> path -> Os.lookup q (fs w') = Os.lookup q (fs w).
Proof.
  induction todo as [|a todo IH]; intros w r w'; cbn [ImageCache.attempts_loop List.length].
  - unfold ret. intros H. injection H as _ <-. repeat split; lia.
  - unfold bind at 1.
    destruct (ImageCache.attempt_try network a image_url path w) as [[c|e] w1] eqn:Ht;
      destruct (attempt_try_frame network a image_url path w _ _ Ht)
        as (F1 & _ & F3 & _ & F5).
    + destruct c as [p| | |].
      * unfold ret. intros H. injection H as _ <-.
        split; [exact F1|]. split; [lia | exact F5].
      * intros H. destruct (IH _ _ _ H) as (I1 & I2 & I3).
        split; [congruence|]. split; [lia|].
        intros q Hq. rewrite I3, F5 by exact Hq. reflexivity.
      * unfold ret. intros H. injection H as _ <-.
        split; [exact F1|]. split; [lia | exact F5].
      * unfold bind at 1.
        pose proof (backoff_frame cfg a w1) as (B1 & B2 & B3).
        destruct (ImageCache.backoff cfg a w1) as [[[]|e] w2]; cbn [snd] in B1, B2, B3.
        -- intros H. destruct (IH _ _ _ H) as (I1 & I2 & I3).
           split; [congruence|]. split; [lia|].
           intros q Hq. rewrite I3, B3, F5 by exact Hq. reflexivity.
        -- intros H. injection H as _ <-.
           split; [congruence|]. split; [lia|].
           intros q Hq. rewrite B3. apply F5. exact Hq.
    + intros H. injection H as _ <-.
      split; [exact F1|]. split; [lia | exact F5].
Qed.

Lemma makedirs_frame (d : string) (w : world) :
  denied (snd (Os.makedirs d w)) = denied w /\
  net_calls (snd (Os.makedirs d w)) = net_calls w /\
  forall q, q <> d -> Os.lookup q (fs (snd (Os.makedirs d w))) = Os.lookup q (fs w).
Proof.
  unfold Os.makedirs.
  destruct (Os.lookup d (fs w)) as [[sz mt|]|]; try (repeat split; reflexivity).
  destruct (negb (PyStr.truthy d)); [repeat split; reflexivity|].
  destruct (existsb (String.eqb d) (denied w)); [repeat split; reflexivity|].
  cbn. repeat split. intros q Hq. apply lookup_app_other. exact Hq.
Qed.

(** Both bounds at once, for a call on a string. *)
Lemma download_image_frame
  (cfg : Config) (network : string -> nat -> net_result)
  (image_url : string) (force_download : bool) (w : world) :
  forall r w',
    ImageCache.download_image cfg network (PyStr image_url) force_download w = (r, w') ->
    denied w' = denied w /\
    (net_calls w <= net_calls w'
     <= net_calls w + Z.to_nat (IMAGE_DOWNLOAD_MAX_RETRIES cfg))%nat /\
    forall q, q <> IMAGES_CACHE_DIR cfg -> q <> cached_path cfg image_url ->
      Os.lookup q (fs w') = Os.lookup q (fs w).
Proof.
  intros r w'. unfold ImageCache.download_image.
  destruct (negb (py_truthy (PyStr image_url)) || negb (isinstance_str (PyStr image_url))).
  { unfold bind, logger, ret. intros H. injection H as _ <-.
    cbn. repeat split; try lia. }
  unfold ImageCache.get_cached_image_path.
  unfold bind at 1. unfold bind at 1.
  pose proof (makedirs_frame (IMAGES_CACHE_DIR cfg) w) as (M1 & M2 & M3).
  destruct (Os.makedirs (IMAGES_CACHE_DIR cfg) w) as [[[]|e] w1]; cbn [snd] in M1, M2, M3.
  2:{ intros H. injection H as _ <-. split; [exact M1|]. split; [lia|].
      intros q Hq _. apply M3. exact Hq. }
  unfold ret at 1. unfold bind at 1. unfold Os.exists_ at 1.
  fold (ImageCache.cached_filename image_url). fold (cached_path cfg image_url).
  destruct (negb force_download && Os.path_exists (cached_path cfg image_url) w1).
  { unfold ret. intros H. injection H as _ <-. split; [exact M1|]. split; [lia|].
    intros q Hq _. apply M3. exact Hq. }
  unfold bind at 1.
  destruct (ImageCache.attempts_loop cfg network image_url (cached_path cfg image_url)
              (ImageCache.range (IMAGE_DOWNLOAD_MAX_RETRIES cfg)) w1)
    as [[[p|]|e] w2] eqn:Hloop;
    destruct (attempts_loop_frame cfg network image_url (cached_path cfg image_url)
                _ _ _ _ Hloop) as (L1 & L2 & L3);
    unfold ImageCache.range in L2; rewrite length_map, length_seq in L2.
  - unfold ret. intros H. injection H as _ <-.
    split; [congruence|]. split; [lia|].
    intros q Hq Hp. rewrite L3, M3 by assumption. reflexivity.
  - intros H.
    destruct (fallback_frame cfg image_url w2) as (G1 & G2 & _).
    rewrite H in G1, G2. cbn [snd] in G1, G2.
    assert (Hd : denied w' = denied w2).
    { rewrite fallback_run in H. injection H as _ <-.
      destruct (Os.path_exists (DEFAULT_IMAGE_PATH cfg) w2); reflexivity. }
    split; [congruence|]. split; [lia|].
    intros q Hq Hp. rewrite G1, L3, M3 by assumption. reflexivity.
  - intros H. injection H as _ <-.
    split; [congruence|]. split; [lia|].
    intros q Hq Hp. rewrite L3, M3 by assumption. reflexivity.
Qed.

(** ** Retried failures, fatal ones, and success *)

Section Outcomes.

Variable cfg : Config.
Variable network : string -> nat -> net_result.
Variables (image_url path : string).

(** Every request exception, and every response whose status is an error,
    is logged as a warning and handled. *)
Lemma attempt_try_transient (attempt : Z) (w : world) :
  transient (network image_url (net_calls w)) = true ->
  exists m,
    ImageCache.attempt_try network attempt image_url path w
    = (Ok CHandled, add_log WARNING m (count_request image_url w)).
Proof.
  intros H.
  unfold ImageCache.attempt_try, try_except, ImageCache.attempt_body.
  unfold bind at 1. unfold Requests.get.
  destruct (network image_url (net_calls w)) as [e|r].
  - destruct e; try discriminate H; eexists; reflexivity.
  - cbn [transient] in H. unfold status_ok in H. rewrite negb_involutive in H.
    unfold bind at 1. unfold Requests.raise_for_status. rewrite H.
    eexists. reflexivity.
Qed.

(** Any other exception of [requests.get] is logged as an error and
    breaks out of the loop. *)
Lemma attempt_try_fatal (attempt : Z) (w : world) (e : exn) :
  network image_url (net_calls w) = NetRaise e ->
  fatal e = true ->
  exists m,
    ImageCache.attempt_try network attempt image_url path w
    = (Ok CBreak, add_log ERROR m (count_request image_url w)).
Proof.
  intros Hn Hf.
  unfold ImageCache.attempt_try, try_except, ImageCache.attempt_body.
  unfold bind at 1. unfold Requests.get. rewrite Hn.
  destruct e; try discriminate Hf; eexists; reflexivity.
Qed.

Lemma set_fs_same (w : world) : set_fs (fs w) w = w.
Proof. destruct w. reflexivity. Qed.

Lemma store_present (p : string) (n : node) (f : list (string * node)) :
  Os.lookup p f = Some n -> Os.store p n f = f.
Proof.
  induction f as [|[q m] f IH]; cbn [Os.lookup Os.store]; [discriminate|].
  destruct (String.eqb q p) eqn:E.
  - intros H. injection H as ->. reflexivity.
  - intros H. rewrite (IH H). reflexivity.
Qed.

(** Writing the chunks to a file just opened adds up their lengths. *)
Lemma write_chunks_run (chunks : list N) :
  forall w sz,
    Os.lookup path (fs w) = Some (File sz (clock w)) ->
    ImageCache.write_chunks path chunks w
    = (Ok tt,
       set_fs (Os.store path
                 (File (sz + fold_right Z.add 0 (map Z.of_N chunks)) (clock w)) (fs w)) w).
Proof.
  induction chunks as [|c cs IH]; intros w sz Hl; cbn [ImageCache.write_chunks map fold_right].
  - unfold ret. rewrite Z.add_0_r, (store_present _ _ _ Hl), set_fs_same. reflexivity.
  - unfold bind at 1. unfold Os.write. rewrite Hl.
    rewrite (IH _ (sz + Z.of_N c)) by (cbn [fs set_fs clock]; apply lookup_store_same).
    cbn [fs set_fs clock]. rewrite store_store.
    unfold set_fs. cbn [denied clock net_calls events logs fs].
    rewrite Z.add_assoc. reflexivity.
Qed.

(** A complete image that can be written is saved whole, checked, logged
    and returned. *)
Lemma attempt_try_success (attempt : Z) (w : world) (r : response) :
  network image_url (net_calls w) = NetResponse r ->
  complete_image r = true ->
  writable path w = true ->
  ImageCache.attempt_try network attempt image_url path w
  = (Ok (CReturn path),
     add_log INFO (MsgCached image_url path)
       (set_fs (Os.store path (File (body_size r) (clock w)) (fs w))
               (count_request image_url w))).
Proof.
  intros Hn Hc Hw.
  unfold complete_image in Hc.
  apply andb_true_iff in Hc as [Hc Hpos]. apply andb_true_iff in Hc as [Himg Herr].
  unfold image_response in Himg. apply andb_true_iff in Himg as [Hs Hct].
  unfold writable in Hw. apply andb_true_iff in Hw as [Hden Hdir].
  apply negb_true_iff in Hden. apply Z.ltb_lt in Hpos.
  unfold ImageCache.attempt_try, try_except, ImageCache.attempt_body.
  unfold bind at 1. unfold Requests.get. rewrite Hn.
  rewrite (status_ok_passes r Hs). unfold bind at 1. unfold ret at 1.
  rewrite Hct. cbn [negb].
  unfold bind at 1. unfold ImageCache.save_image.
  unfold bind at 1. unfold Os.open_wb.
  cbn [denied fs clock count_request]. rewrite Hden.
  set (w1 := set_fs (Os.store path (File 0 (clock w)) (fs w)) (count_request image_url w)).
  assert (Hopen :
    match Os.lookup path (fs w) with
    | Some Dir => (@Raise unit IsADirectoryError, count_request image_url w)
    | _ => (Ok tt, w1)
    end = (Ok tt, w1)).
  { destruct (Os.lookup path (fs w)) as [[sz mt|]|]; try reflexivity. discriminate Hdir. }
  rewrite Hopen. clear Hopen.
  unfold bind at 1.
  rewrite (write_chunks_run (body r) w1 0)
    by (subst w1; cbn [fs set_fs clock count_request]; apply lookup_store_same).
  subst w1. cbn [fs set_fs clock count_request]. rewrite store_store.
  fold (body_size r). cbn [Z.add].
  destruct (body_error r); [discriminate Herr|].
  unfold ret at 1. unfold bind at 1. unfold Os.exists_ at 1, Os.path_exists.
  cbn [fs set_fs]. rewrite lookup_store_same. cbn [negb].
  unfold bind at 1. unfold bind at 1. unfold Os.getsize.
  cbn [fs set_fs]. rewrite lookup_store_same. unfold ret at 1.
  replace (body_size r =? 0) with false by (symmetry; apply Z.eqb_neq; lia).
  reflexivity.
Qed.

(** The first [k] attempts of a stretch, when each fails in a way that is
    retried and none is the last attempt allowed: each is followed by its
    delay, and the loop goes on with the rest. *)
Lemma attempts_loop_transient_prefix :
  config_ok cfg ->
  forall k a rest w,
    Z.of_nat (a + k) <= IMAGE_DOWNLOAD_MAX_RETRIES cfg - 1 ->
    (forall i, (i < k)%nat -> transient (network image_url (net_calls w + i)) = true) ->
    exists w',
      ImageCache.attempts_loop cfg network image_url path
        (map Z.of_nat (seq a k) ++ rest) w
      = ImageCache.attempts_loop cfg network image_url path rest w' /\
      net_calls w' = (net_calls w + k)%nat /\
      events w'
      = events w ++ backoff_events image_url
                      (firstn k (skipn a (IMAGE_DOWNLOAD_RETRY_DELAYS cfg))) /\
      fs w' = fs w /\
      denied w' = denied w.
Proof.
  intros Hcfg.
  induction k as [|k IH]; intros a rest w Hak Htr.
  - exists w. cbn. rewrite Nat.add_0_r, app_nil_r. repeat split; reflexivity.
  - cbn [seq map app ImageCache.attempts_loop].
    unfold bind at 1.
    destruct (attempt_try_transient (Z.of_nat a) w) as [m ->].
    { specialize (Htr 0%nat). rewrite Nat.add_0_r in Htr. apply Htr. lia. }
    set (w1 := add_log WARNING m (count_request image_url w)).
    unfold bind at 1.
    destruct (backoff_sleeps cfg a w1 Hcfg) as [d [Hd Hb]]; [lia|].
    rewrite Hb.
    destruct (IH (S a) rest (add_sleep d w1)) as (w' & R1 & R2 & R3 & R4 & R5); [lia| |].
    { intros i Hi. cbn [net_calls add_sleep w1 add_log count_request].
      replace (S (net_calls w) + i)%nat with (net_calls w + S i)%nat by lia.
      apply Htr. lia. }
    exists w'. split; [exact R1|]. split; [rewrite R2; cbn; lia|].
    split; [|split; [rewrite R4; reflexivity | rewrite R5; reflexivity]].
    rewrite R3. cbn [events add_sleep w1 add_log count_request].
    rewrite (skipn_nth_error _ a d Hd).
    cbn [firstn backoff_events flat_map app]. rewrite <- !app_assoc. reflexivity.
Qed.

End Outcomes.

Section Calls.

Variable cfg : Config.
Variable network : string -> nat -> net_result.

(** A call that is not answered from the cache runs the retry loop. *)
Lemma download_image_miss (image_url : string) (force_download : bool) (w : world) :
  image_url <> EmptyString ->
  fst (Os.makedirs (IMAGES_CACHE_DIR cfg) w) = Ok tt ->
  force_download = true \/
    Os.path_exists (cached_path cfg image_url) (ensure_cache_dir cfg w) = false ->
  ImageCache.download_image cfg network (PyStr image_url) force_download w
  = match ImageCache.attempts_loop cfg network image_url (cached_path cfg image_url)
            (ImageCache.range (IMAGE_DOWNLOAD_MAX_RETRIES cfg))
            (ensure_cache_dir cfg w) with
    | (Ok (Some p), w2) => (Ok (Some p), w2)
    | (Ok None, w2) => ImageCache.fallback cfg image_url w2
    | (Raise e, w2) => (Raise e, w2)
    end.
Proof.
  intros Hurl Hdir Hmiss.
  rewrite (download_image_resolved cfg network image_url force_download w Hurl Hdir).
  replace (negb force_download
           && Os.path_exists (cached_path cfg image_url) (ensure_cache_dir cfg w))
    with false
    by (destruct Hmiss as [-> | ->]; [reflexivity | rewrite andb_false_r; reflexivity]).
  reflexivity.
Qed.

(** [range(n)] cut at attempt [k]. *)
Lemma range_split (n : Z) (k : nat) :
  Z.of_nat k < n ->
  ImageCache.range n
  = map Z.of_nat (seq 0 k)
    ++ Z.of_nat k :: map Z.of_nat (seq (S k) (Z.to_nat n - S k)).
Proof.
  intros Hk. unfold ImageCache.range.
  replace (Z.to_nat n) with (k + S (Z.to_nat n - S k))%nat at 1 by lia.
  rewrite seq_app, map_app. reflexivity.
Qed.

(** The loop ends at the fallback: what the call returns then. *)
Lemma fallback_after (image_url : string) (w2 : world) :
  exists w',
    ImageCache.fallback cfg image_url w2 = (Ok (fallback_value cfg w'), w') /\
    net_calls w' = net_calls w2 /\ events w' = events w2 /\ fs w' = fs w2.
Proof.
  destruct (fallback_frame cfg image_url w2) as (G1 & G2 & G3).
  exists (snd (ImageCache.fallback cfg image_url w2)).
  split; [|repeat split; assumption].
  rewrite (fallback_value_fs cfg w2 _ G1). rewrite fallback_run. reflexivity.
Qed.

End Calls.

(** X1. Every failure that the request handlers catch is retried like a
    connection error: when each request ends in a connection error, a
    timeout, another request exception or an error status, a call that is
    not answered from the cache sends [IMAGE_DOWNLOAD_MAX_RETRIES] requests,
    sleeps the scheduled delay after each but the last, writes nothing and
    returns the default image if it exists, [None] otherwise. *)
Theorem retried_failures_exhaust_retries
  (cfg : Config) (network : string -> nat -> net_result)
  (image_url : string) (force_download : bool) (w : world) :
  image_url <> EmptyString ->
  config_ok cfg ->
  fst (Os.makedirs (IMAGES_CACHE_DIR cfg) w) = Ok tt ->
  force_download = true \/
    Os.path_exists (cached_path cfg image_url) (ensure_cache_dir cfg w) = false ->
  (forall n, transient (network image_url n) = true) ->
  exists w',
    ImageCache.download_image cfg network (PyStr image_url) force_download w
    = (Ok (fallback_value cfg w'), w') /\
    net_calls w' = (net_calls w + Z.to_nat (IMAGE_DOWNLOAD_MAX_RETRIES cfg))%nat /\
    events w'
    = events w
      ++ backoff_events image_url
           (firstn (Z.to_nat (IMAGE_DOWNLOAD_MAX_RETRIES cfg) - 1)
                   (IMAGE_DOWNLOAD_RETRY_DELAYS cfg))
      ++ [Requested image_url] /\
    fs w' = fs (ensure_cache_dir cfg w).
Proof.
  intros Hurl Hcfg Hdir Hmiss Hnet.
  rewrite (download_image_miss cfg network image_url force_download w Hurl Hdir Hmiss).
  pose proof Hcfg as (Hn & _ & _).
  destruct (ensure_cache_dir_frame cfg w) as (_ & _ & Fn & Fe & _).
  set (last := (Z.to_nat (IMAGE_DOWNLOAD_MAX_RETRIES cfg) - 1)%nat).
  rewrite (range_split (IMAGE_DOWNLOAD_MAX_RETRIES cfg) last) by lia.
  replace (Z.to_nat (IMAGE_DOWNLOAD_MAX_RETRIES cfg) - S last)%nat with 0%nat by lia.
  cbn [seq map].
  destruct (attempts_loop_transient_prefix cfg network image_url
              (cached_path cfg image_url) Hcfg last 0%nat [Z.of_nat last]
              (ensure_cache_dir cfg w))
    as (w1 & R1 & R2 & R3 & R4 & _); [lia | intros i _; apply Hnet |].
  rewrite R1. cbn [ImageCache.attempts_loop]. unfold bind at 1.
  destruct (attempt_try_transient network image_url (cached_path cfg image_url)
              (Z.of_nat last) w1 (Hnet _)) as [m ->].
  unfold bind at 1. rewrite backoff_last by lia. unfold ret at 1.
  destruct (fallback_after cfg image_url
              (add_log WARNING m (count_request image_url w1)))
    as (w' & E & G2 & G3 & G1).
  exists w'. split; [exact E|].
  split; [rewrite G2; cbn; rewrite R2, Fn; lia|].
  split; [|rewrite G1; cbn; exact R4].
  rewrite G3. cbn [events add_log count_request]. rewrite R3, Fe.
  cbn [skipn]. rewrite <- app_assoc. reflexivity.
Qed.

Lemma retried_failures_exhaust_retries_witness :
  exists w',
    ImageCache.download_image Fixtures.cfg Fixtures.net_mixed_failures
      (PyStr Fixtures.url) true Fixtures.w_cached
    = (Ok (fallback_value Fixtures.cfg w'), w') /\
    net_calls w' = (net_calls Fixtures.w_cached + 3)%nat /\
    events w'
    = events Fixtures.w_cached
      ++ backoff_events Fixtures.url (firstn 2 [1; 2; 4])
      ++ [Requested Fixtures.url] /\
    fs w' = fs (ensure_cache_dir Fixtures.cfg Fixtures.w_cached).
Proof.
  apply (retried_failures_exhaust_retries Fixtures.cfg Fixtures.net_mixed_failures
           Fixtures.url true Fixtures.w_cached).
  - discriminate.
  - unfold config_ok. cbn. repeat split; try lia. repeat constructor; lia.
  - reflexivity.
  - left. reflexivity.
  - intros n. unfold Fixtures.net_mixed_failures.
    destruct (Nat.eqb n 4); [reflexivity|].
    destruct (Nat.eqb n 5); reflexivity.
Defined.

(** X2. A download succeeds as soon as one attempt gets a complete image:
    when the first [k] requests fail in a way that is retried and the next
    one, still within [IMAGE_DOWNLOAD_MAX_RETRIES], brings a complete image
    that can be written, the call returns the cache path after [k + 1]
    requests and [k] sleeps, the cache file holds the whole body, and no
    other file has changed; an entry that was there is overwritten when the
    download is forced. *)
Theorem download_succeeds_after_retries
  (cfg : Config) (network : string -> nat -> net_result)
  (image_url : string) (force_download : bool) (w : world) (k : nat) (r : response) :
  image_url <> EmptyString ->
  config_ok cfg ->
  fst (Os.makedirs (IMAGES_CACHE_DIR cfg) w) = Ok tt ->
  force_download = true \/
    Os.path_exists (cached_path cfg image_url) (ensure_cache_dir cfg w) = false ->
  Z.of_nat k < IMAGE_DOWNLOAD_MAX_RETRIES cfg ->
  (forall i, (i < k)%nat -> transient (network image_url (net_calls w + i)%nat) = true) ->
  network image_url (net_calls w + k)%nat = NetResponse r ->
  complete_image r = true ->
  writable (cached_path cfg image_url) (ensure_cache_dir cfg w) = true ->
  exists w',
    ImageCache.download_image cfg network (PyStr image_url) force_download w
    = (Ok (Some (cached_path cfg image_url)), w') /\
    net_calls w' = (net_calls w + S k)%nat /\
    events w'
    = events w
      ++ backoff_events image_url (firstn k (IMAGE_DOWNLOAD_RETRY_DELAYS cfg))
      ++ [Requested image_url] /\
    (exists mt,
       Os.lookup (cached_path cfg image_url) (fs w') = Some (File (body_size r) mt)) /\
    forall q, q <> cached_path cfg image_url ->
      Os.lookup q (fs w') = Os.lookup q (fs (ensure_cache_dir cfg w)).
Proof.
  intros Hurl Hcfg Hdir Hmiss Hk Hfail Hresp Himg Hwr.
  rewrite (download_image_miss cfg network image_url force_download w Hurl Hdir Hmiss).
  destruct (ensure_cache_dir_frame cfg w) as (_ & _ & Fn & Fe & _).
  rewrite (range_split (IMAGE_DOWNLOAD_MAX_RETRIES cfg) k Hk).
  destruct (attempts_loop_transient_prefix cfg network image_url
              (cached_path cfg image_url) Hcfg k 0%nat
              (Z.of_nat k
               :: map Z.of_nat (seq (S k) (Z.to_nat (IMAGE_DOWNLOAD_MAX_RETRIES cfg) - S k)))
              (ensure_cache_dir cfg w))
    as (w1 & R1 & R2 & R3 & R4 & R5); [lia | intros i Hi; rewrite Fn; apply Hfail; exact Hi |].
  rewrite R1. cbn [ImageCache.attempts_loop]. unfold bind at 1.
  rewrite (attempt_try_success network image_url (cached_path cfg image_url)
             (Z.of_nat k) w1 r).
  - unfold ret at 1. eexists. split; [reflexivity|].
    cbn [net_calls events fs add_log set_fs count_request].
    split; [rewrite R2, Fn; lia|].
    split; [rewrite R3, Fe; cbn [skipn]; rewrite <- app_assoc; reflexivity|].
    split.
    + exists (clock w1). apply lookup_store_same.
    + intros q Hq. rewrite lookup_store_other by exact Hq. rewrite R4. reflexivity.
  - rewrite R2, Fn. exact Hresp.
  - exact Himg.
  - unfold writable in *. rewrite R4, R5. exact Hwr.
Qed.

Lemma download_succeeds_after_retries_witness :
  exists w',
    ImageCache.download_image Fixtures.cfg Fixtures.net_recovers (PyStr Fixtures.url) false
      Fixtures.w_empty
    = (Ok (Some (cached_path Fixtures.cfg Fixtures.url)), w') /\
    net_calls w' = (net_calls Fixtures.w_empty + 3)%nat /\
    events w'
    = events Fixtures.w_empty
      ++ backoff_events Fixtures.url (firstn 2 [1; 2; 4])
      ++ [Requested Fixtures.url] /\
    (exists mt,
       Os.lookup (cached_path Fixtures.cfg Fixtures.url) (fs w')
       = Some (File (body_size Fixtures.png) mt)) /\
    forall q, q <> cached_path Fixtures.cfg Fixtures.url ->
      Os.lookup q (fs w') = Os.lookup q (fs (ensure_cache_dir Fixtures.cfg Fixtures.w_empty)).
Proof.
  apply (download_succeeds_after_retries Fixtures.cfg Fixtures.net_recovers
           Fixtures.url false Fixtures.w_empty 2 Fixtures.png).
  - discriminate.
  - unfold config_ok. cbn. repeat split; try lia. repeat constructor; lia.
  - reflexivity.
  - right. vm_compute. reflexivity.
  - cbn. lia.
  - intros i Hi. cbn [net_calls Fixtures.w_empty Nat.add].
    unfold Fixtures.net_recovers.
    replace (Nat.ltb i 2) with true by (symmetry; apply Nat.ltb_lt; exact Hi).
    reflexivity.
  - reflexivity.
  - reflexivity.
  - vm_compute. reflexivity.
Defined.

(** The same call, run: the image is there after two sleeps. *)
Example download_recovers_run :
  ImageCache.download_image Fixtures.cfg Fixtures.net_recovers (PyStr Fixtures.url) false
    Fixtures.w_empty
  = (Ok (Some Fixtures.url_path),
     mkWorld [("cache", Dir); ("assets/default.png", File 10 0);
              (Fixtures.url_path, File 120 3)] [] 3 3
       [Requested Fixtures.url; Slept 1; Requested Fixtures.url; Slept 2;
        Requested Fixtures.url]
       [(WARNING, MsgConnectionError 1 Fixtures.url ConnectionError);
        (WARNING, MsgConnectionError 2 Fixtures.url ConnectionError);
        (INFO, MsgCached Fixtures.url Fixtures.url_path)]).
Proof. vm_compute. reflexivity. Qed.

(** X3. An exception of [requests.get] that is no request exception ends
    the retries at once, at whatever attempt it comes: after [k] retried
    failures and one such exception the call has sent [k + 1] requests,
    takes no further sleep, has written nothing, and returns the default
    image if it exists, [None] otherwise. *)
Theorem unexpected_exception_ends_retries
  (cfg : Config) (network : string -> nat -> net_result)
  (image_url : string) (force_download : bool) (w : world) (k : nat) (e : exn) :
  image_url <> EmptyString ->
  config_ok cfg ->
  fst (Os.makedirs (IMAGES_CACHE_DIR cfg) w) = Ok tt ->
  force_download = true \/
    Os.path_exists (cached_path cfg image_url) (ensure_cache_dir cfg w) = false ->
  Z.of_nat k < IMAGE_DOWNLOAD_MAX_RETRIES cfg ->
  (forall i, (i < k)%nat -> transient (network image_url (net_calls w + i)%nat) = true) ->
  network image_url (net_calls w + k)%nat = NetRaise e ->
  fatal e = true ->
  exists w',
    ImageCache.download_image cfg network (PyStr image_url) force_download w
    = (Ok (fallback_value cfg w'), w') /\
    net_calls w' = (net_calls w + S k)%nat /\
    events w'
    = events w
      ++ backoff_events image_url (firstn k (IMAGE_DOWNLOAD_RETRY_DELAYS cfg))
      ++ [Requested image_url] /\
    fs w' = fs (ensure_cache_dir cfg w).
Proof.
  intros Hurl Hcfg Hdir Hmiss Hk Hfail Hexn Hfatal.
  rewrite (download_image_miss cfg network image_url force_download w Hurl Hdir Hmiss).
  destruct (ensure_cache_dir_frame cfg w) as (_ & _ & Fn & Fe & _).
  rewrite (range_split (IMAGE_DOWNLOAD_MAX_RETRIES cfg) k Hk).
  destruct (attempts_loop_transient_prefix cfg network image_url
              (cached_path cfg image_url) Hcfg k 0%nat
              (Z.of_nat k
               :: map Z.of_nat (seq (S k) (Z.to_nat (IMAGE_DOWNLOAD_MAX_RETRIES cfg) - S k)))
              (ensure_cache_dir cfg w))
    as (w1 & R1 & R2 & R3 & R4 & R5); [lia | intros i Hi; rewrite Fn; apply Hfail; exact Hi |].
  rewrite R1. cbn [ImageCache.attempts_loop]. unfold bind at 1.
  destruct (attempt_try_fatal network image_url (cached_path cfg image_url)
              (Z.of_nat k) w1 e) as [m ->]; [rewrite R2, Fn; exact Hexn | exact Hfatal |].
  unfold ret at 1.
  destruct (fallback_after cfg image_url (add_log ERROR m (count_request image_url w1)))
    as (w' & E & G2 & G3 & G1).
  exists w'. split; [exact E|].
  split; [rewrite G2; cbn; rewrite R2, Fn; lia|].
  split; [|rewrite G1; cbn; exact R4].
  rewrite G3. cbn [events add_log count_request]. rewrite R3, Fe.
  cbn [skipn]. rewrite <- app_assoc. reflexivity.
Qed.

Lemma unexpected_exception_ends_retries_witness :
  exists w',
    ImageCache.download_image Fixtures.cfg Fixtures.net_breaks (PyStr Fixtures.url) false
      Fixtures.w_empty
    = (Ok (fallback_value Fixtures.cfg w'), w') /\
    net_calls w' = (net_calls Fixtures.w_empty + 2)%nat /\
    events w'
    = events Fixtures.w_empty
      ++ backoff_events Fixtures.url (firstn 1 [1; 2; 4])
      ++ [Requested Fixtures.url] /\
    fs w' = fs (ensure_cache_dir Fixtures.cfg Fixtures.w_empty).
Proof.
  apply (unexpected_exception_ends_retries Fixtures.cfg Fixtures.net_breaks
           Fixtures.url false Fixtures.w_empty 1 (OtherError "MemoryError")).
  - discriminate.
  - unfold config_ok. cbn. repeat split; try lia. repeat constructor; lia.
  - reflexivity.
  - right. vm_compute. reflexivity.
  - cbn. lia.
  - intros i Hi. assert (i = 0)%nat as -> by lia. reflexivity.
  - reflexivity.
  - reflexivity.
Defined.

(** ** The cache file name *)

Section FileName.

Lemma has_char_append (c : ascii) (a b : string) :
  has_char c (a ++ b) = has_char c a || has_char c b.
Proof.
  induction a as [|x a IH]; cbn [String.append has_char]; [reflexivity|].
  rewrite IH, orb_assoc. reflexivity.
Qed.

Lemma has_char_of_list (c : ascii) (l : list ascii) :
  has_char c (string_of_list_ascii l) = existsb (fun a => Ascii.eqb a c) l.
Proof.
  induction l as [|x l IH]; cbn [string_of_list_ascii has_char existsb]; [reflexivity|].
  rewrite IH. reflexivity.
Qed.

Lemma rfind_from_absent (c : ascii) (s : string) :
  forall i last, has_char c s = false -> PyStr.rfind_from c s i last = last.
Proof.
  induction s as [|a s IH]; intros i last H; cbn [PyStr.rfind_from]; [reflexivity|].
  cbn [has_char] in H. apply orb_false_iff in H as [Ha Hs].
  rewrite Ha. apply IH. exact Hs.
Qed.

(** Past the index [rfind] answers, the character does not occur. *)
Lemma rfind_from_none_after (c : ascii) (s : string) :
  forall i last n,
    last < i ->
    PyStr.rfind_from c s i last < i + Z.of_nat n ->
    has_char c (PyStr.drop n s) = false.
Proof.
  induction s as [|b s IH]; intros i last n Hl Hr.
  - destruct n; reflexivity.
  - cbn [PyStr.rfind_from] in Hr. destruct n as [|n].
    + cbn [PyStr.drop has_char].
      destruct (Ascii.eqb b c) eqn:E.
      * destruct (rfind_from_spec c s (i + 1) i) as [R | [R _]]; lia.
      * cbn [orb]. apply (IH (i + 1) last 0%nat); [lia|].
        change (Z.of_nat 0) with 0. lia.
    + change (PyStr.drop (S n) (String b s)) with (PyStr.drop n s).
      apply (IH (i + 1) (if Ascii.eqb b c then i else last) n); [|lia].
      destruct (Ascii.eqb b c); lia.
Qed.

Lemma hex_digit_not_sep (n : Z) : Ascii.eqb (MD5.hex_digit n) OsPath.sep = false.
Proof.
  unfold MD5.hex_digit. generalize (Z.to_nat n). intros k.
  do 16 (destruct k as [|k]; [reflexivity|]).
  destruct k; reflexivity.
Qed.

(** The digest is 32 characters long and holds no separator. *)
Lemma hexdigest_shape (s : string) :
  String.length (MD5.hexdigest s) = 32%nat /\
  has_char OsPath.sep (MD5.hexdigest s) = false.
Proof.
  unfold MD5.hexdigest, MD5.hex_of_bytes, MD5.digest.
  match goal with |- context [ fold_left ?f ?l MD5.init ] => generalize (fold_left f l MD5.init) end.
  intros r. cbn [MD5.le_bytes app flat_map string_of_list_ascii String.length has_char].
  split; [reflexivity|].
  rewrite !hex_digit_not_sep. reflexivity.
Qed.

(** The extension begins with a dot and holds no separator. *)
Lemma file_extension_shape (image_url : string) :
  PyStr.startswith "." (ImageCache.file_extension image_url) = true /\
  has_char OsPath.sep (ImageCache.file_extension image_url) = false.
Proof.
  unfold ImageCache.file_extension.
  set (p := hd EmptyString (PyStr.split "?" image_url)).
  rewrite splitext_ext_closed_form.
  pose proof (rfind_range OsPath.extsep p) as Rd.
  pose proof (rfind_range OsPath.sep p) as Rs.
  destruct ((PyStr.rfind OsPath.sep p <? PyStr.rfind OsPath.extsep p)
            && has_non_dot (PyStr.slice p (PyStr.rfind OsPath.sep p + 1)
                              (PyStr.rfind OsPath.extsep p))) eqn:E;
    [|split; reflexivity].
  apply andb_true_iff in E as [Esd _]. apply Z.ltb_lt in Esd.
  assert (Hs : -1 <= PyStr.rfind OsPath.sep p) by (destruct Rs as [R | [R _]]; lia).
  destruct Rd as [R | [R [t Ht]]]; [lia|].
  split.
  - rewrite Ht. reflexivity.
  - unfold PyStr.slice_from.
    apply (rfind_from_none_after OsPath.sep p 0 (-1)); [lia|].
    fold (PyStr.rfind OsPath.sep p). lia.
Qed.

(** The file name holds no separator and does not begin with one. *)
Lemma cached_filename_shape (image_url : string) :
  has_char OsPath.sep (ImageCache.cached_filename image_url) = false /\
  PyStr.startswith (String OsPath.sep EmptyString) (ImageCache.cached_filename image_url)
  = false /\
  ImageCache.cached_filename image_url <> EmptyString.
Proof.
  destruct (hexdigest_shape image_url) as [Hlen Hsep].
  destruct (file_extension_shape image_url) as [_ Hext].
  unfold ImageCache.cached_filename.
  split; [rewrite has_char_append, Hsep, Hext; reflexivity|].
  destruct (MD5.hexdigest image_url) as [|a h]; [discriminate Hlen|].
  cbn [String.append PyStr.startswith]. cbn [has_char] in Hsep.
  apply orb_false_iff in Hsep as [Ha _].
  split; [|discriminate].
  rewrite Ascii.eqb_sym, Ha. reflexivity.
Qed.

Lemma append_assoc (a b c : string) : ((a ++ b) ++ c)%string = (a ++ (b ++ c))%string.
Proof.
  induction a as [|x a IH]; cbn [String.append]; [reflexivity|].
  rewrite IH. reflexivity.
Qed.

Lemma append_empty_r (a : string) : (a ++ "")%string = a.
Proof.
  induction a as [|x a IH]; cbn [String.append]; [reflexivity|].
  rewrite IH. reflexivity.
Qed.

(** Joining a plain name to a directory puts it behind the prefix of the
    directory. *)
Lemma join_plain_name (d name : string) :
  PyStr.startswith (String OsPath.sep EmptyString) name = false ->
  OsPath.join d name = (Os.dir_prefix d ++ name)%string.
Proof.
  intros Hn. unfold Os.dir_prefix, OsPath.join. rewrite Hn.
  cbn [PyStr.startswith].
  destruct (negb (PyStr.truthy d) || PyStr.endswith_char OsPath.sep d).
  - rewrite append_empty_r. reflexivity.
  - rewrite append_assoc. reflexivity.
Qed.

Lemma child_name_of_append (pre name : string) :
  name <> EmptyString ->
  has_char OsPath.sep name = false ->
  Os.child_name pre (pre ++ name) = Some name.
Proof.
  intros Hne Hsep.
  induction pre as [|a pre IH]; cbn [String.append Os.child_name].
  - destruct name as [|b name]; [congruence|].
    unfold PyStr.rfind. rewrite (rfind_from_absent _ _ 0 (-1) Hsep). reflexivity.
  - rewrite Ascii.eqb_refl. exact IH.
Qed.

Lemma children_of_binding (pre p name : string) (f : list (string * node)) (n : node) :
  Os.child_name pre p = Some name ->
  Os.lookup p f = Some n ->
  In name (Os.children pre f).
Proof.
  intros Hc. induction f as [|[q m] f IH]; cbn [Os.lookup Os.children]; [discriminate|].
  destruct (String.eqb q p) eqn:E.
  - apply String.eqb_eq in E. subst q. rewrite Hc. intros _. left. reflexivity.
  - intros H. specialize (IH H).
    destruct (Os.child_name pre q); [right|]; exact IH.
Qed.

Lemma length_append (a b : string) :
  String.length (a ++ b) = (String.length a + String.length b)%nat.
Proof.
  induction a as [|x a IH]; cbn [String.append String.length]; [reflexivity|].
  rewrite IH. reflexivity.
Qed.

Lemma append_longer (a b : string) :
  b <> EmptyString -> (a ++ b)%string <> a.
Proof.
  intros Hb H.
  assert (L : String.length (a ++ b) = String.length a) by (rewrite H; reflexivity).
  rewrite length_append in L.
  destruct b; [congruence | cbn in L; lia].
Qed.

(** The cache path of a URL is never the cache directory itself. *)
Lemma cached_path_not_cache_dir (cfg : Config) (image_url : string) :
  cached_path cfg image_url <> IMAGES_CACHE_DIR cfg.
Proof.
  destruct (cached_filename_shape image_url) as (_ & Hstart & Hne).
  unfold cached_path, OsPath.join. rewrite Hstart.
  destruct (negb (PyStr.truthy (IMAGES_CACHE_DIR cfg))
            || PyStr.endswith_char OsPath.sep (IMAGES_CACHE_DIR cfg)).
  - apply append_longer. exact Hne.
  - apply append_longer. discriminate.
Qed.

End FileName.

(** X4. The cache file of a URL lies directly in the cache directory,
    whatever the URL holds: its name, the digest followed by the
    extension, has no '/', and once the file exists it is among the files
    that [clear_old_cache] lists and may remove. *)
Theorem cached_file_lies_in_cache_dir (cfg : Config) (image_url : string) (w : world) :
  has_char "/" (ImageCache.cached_filename image_url) = false /\
  cached_path cfg image_url
  = (Os.dir_prefix (IMAGES_CACHE_DIR cfg) ++ ImageCache.cached_filename image_url)%string /\
  (Os.path_isfile (cached_path cfg image_url) w = true ->
   In (cached_path cfg image_url) (cache_files cfg w)).
Proof.
  destruct (cached_filename_shape image_url) as (Hsep & Hstart & Hne).
  assert (Hjoin : cached_path cfg image_url
                  = (Os.dir_prefix (IMAGES_CACHE_DIR cfg)
                     ++ ImageCache.cached_filename image_url)%string).
  { unfold cached_path. apply join_plain_name. exact Hstart. }
  split; [exact Hsep|]. split; [exact Hjoin|].
  intros Hfile. unfold cache_files. apply filter_In. split; [|exact Hfile].
  unfold cached_path at 1. apply in_map.
  unfold Os.path_isfile in Hfile.
  destruct (Os.lookup (cached_path cfg image_url) (fs w)) as [n|] eqn:Hl;
    [|discriminate Hfile].
  apply (children_of_binding _ (cached_path cfg image_url) _ _ n); [|exact Hl].
  rewrite Hjoin. apply child_name_of_append; assumption.
Qed.

Lemma cached_file_lies_in_cache_dir_witness :
  has_char "/" (ImageCache.cached_filename "http://x/../../etc/passwd?a=/b.png") = false /\
  In (cached_path Fixtures.cfg Fixtures.url)
     (cache_files Fixtures.cfg Fixtures.w_cached).
Proof.
  split.
  - apply (cached_file_lies_in_cache_dir Fixtures.cfg
             "http://x/../../etc/passwd?a=/b.png" Fixtures.w_cached).
  - apply (cached_file_lies_in_cache_dir Fixtures.cfg Fixtures.url Fixtures.w_cached).
    vm_compute. reflexivity.
Defined.

(** ** The extension and the query string *)

Lemma split_acc_head (c : ascii) (p : string) :
  has_char c p = false ->
  forall cur tail,
    tail = EmptyString \/ (exists q, tail = String c q) ->
    hd EmptyString (PyStr.split_acc c (p ++ tail) cur)
    = string_of_list_ascii (rev cur ++ list_ascii_of_string p).
Proof.
  induction p as [|a p IH]; intros Hp cur tail Htail.
  - cbn [String.append list_ascii_of_string]. rewrite app_nil_r.
    destruct Htail as [-> | [q ->]]; cbn [PyStr.split_acc hd].
    + reflexivity.
    + rewrite Ascii.eqb_refl. reflexivity.
  - cbn [has_char] in Hp. apply orb_false_iff in Hp as [Ha Hp].
    cbn [String.append PyStr.split_acc list_ascii_of_string]. rewrite Ha.
    rewrite (IH Hp (a :: cur) tail Htail). cbn [rev].
    rewrite <- app_assoc. reflexivity.
Qed.

(** X5. The query string has no part in the extension: what follows the
    first '?' of a URL does not change the extension of its cache file. *)
Theorem file_extension_ignores_query (path query : string) :
  has_char "?" path = false ->
  ImageCache.file_extension (path ++ String "?" query) = ImageCache.file_extension path.
Proof.
  intros Hp. unfold ImageCache.file_extension, PyStr.split.
  rewrite (split_acc_head "?" path Hp [] (String "?" query))
    by (right; exists query; reflexivity).
  rewrite <- (append_empty_r path) at 2.
  rewrite (split_acc_head "?" path Hp [] EmptyString) by (left; reflexivity).
  reflexivity.
Qed.

Lemma file_extension_ignores_query_witness :
  ImageCache.file_extension ("http://x/a.png" ++ String "?" "v=1.5&f=/b.gif")
  = ImageCache.file_extension "http://x/a.png".
Proof.
  apply (file_extension_ignores_query "http://x/a.png" "v=1.5&f=/b.gif").
  reflexivity.
Defined.

(** ** Eviction, case by case *)

Lemma sorted_by_key_snd (f : string -> Z) (l : list (Z * string)) :
  StronglySorted key_le l ->
  (forall x, In x l -> fst x = f (snd x)) ->
  StronglySorted (fun a b => f a <= f b) (map snd l).
Proof.
  induction 1 as [|x l Hs IH Hall]; intros Hkey; cbn [map]; constructor.
  - apply IH. intros y Hy. apply Hkey. right. exact Hy.
  - rewrite Forall_forall in Hall |- *. intros b Hb.
    apply in_map_iff in Hb as (y & <- & Hy).
    specialize (Hall y Hy). unfold key_le in Hall.
    rewrite <- (Hkey x (or_introl eq_refl)), <- (Hkey y (or_intror Hy)). exact Hall.
Qed.

Lemma in_combine_map (f : string -> Z) (l : list string) (x : Z * string) :
  In x (combine (map f l) l) -> fst x = f (snd x).
Proof.
  induction l as [|p l IH]; cbn [map combine]; [intros []|].
  intros [<- | H]; [reflexivity | apply IH; exact H].
Qed.

(** Sorting regular files by modification time gives them back, oldest
    first. *)
Lemma sort_by_mtime_sorted (w : world) (l : list string) :
  Forall (fun p => Os.path_isfile p w = true) l ->
  exists sorted,
    ImageCache.sort_by_mtime l w = (Ok sorted, w) /\
    Permutation l sorted /\
    StronglySorted (fun a b => file_mtime w a <= file_mtime w b) sorted.
Proof.
  intros Hl. unfold ImageCache.sort_by_mtime, bind.
  rewrite (mapM_getmtime_files w l Hl). unfold ret.
  eexists. split; [reflexivity|]. split.
  - rewrite <- (map_snd_combine l (map (file_mtime w) l)) at 1
      by (rewrite length_map; reflexivity).
    apply Permutation_map. apply sort_by_key_perm.
  - apply sorted_by_key_snd; [apply sort_by_key_sorted|].
    intros x Hx. apply (in_combine_map (file_mtime w) l).
    apply (Permutation_in x (Permutation_sym (sort_by_key_perm _))). exact Hx.
Qed.

(** X6. Over budget, a pass removes one file, the oldest: when the
    regular files of the cache directory weigh more than the budget in
    force, [clear_old_cache] removes a file whose modification time is the
    least of all, then fails to read the size of the file it has removed,
    logs the error and ends, leaving every other file in place. *)
Theorem clear_old_cache_removes_the_oldest
  (cfg : Config) (max_cache_size_mb : option Z) (w : world) :
  Os.lookup (IMAGES_CACHE_DIR cfg) (fs w) = Some Dir ->
  cache_files cfg w <> [] ->
  ImageCache.effective_max_size cfg max_cache_size_mb * ImageCache.MiB < cache_size cfg w ->
  exists oldest_file,
    In oldest_file (cache_files cfg w) /\
    (forall p, In p (cache_files cfg w) -> file_mtime w oldest_file <= file_mtime w p) /\
    ImageCache.clear_old_cache cfg max_cache_size_mb w
    = (Ok tt,
       add_log ERROR (MsgClearCacheError FileNotFoundError)
               (set_fs (Os.unlink oldest_file (fs w)) w)).
Proof.
  intros Hdir Hne Hsize.
  unfold ImageCache.clear_old_cache, try_except.
  unfold bind at 1. unfold Os.listdir at 1. rewrite Hdir.
  unfold bind at 1. rewrite regular_files_run. fold (cache_files cfg w).
  assert (Hfiles : Forall (fun p => Os.path_isfile p w = true) (cache_files cfg w)).
  { apply Forall_forall. intros p Hp. unfold cache_files in Hp.
    apply filter_In in Hp. apply Hp. }
  destruct (sort_by_mtime_sorted w (cache_files cfg w) Hfiles)
    as (sorted & Hs & Hperm & Hsorted).
  unfold bind at 1. rewrite Hs.
  assert (Hreg : Forall (fun p => Os.path_isfile p w = true) sorted).
  { apply Forall_forall. intros p Hp.
    rewrite Forall_forall in Hfiles. apply Hfiles.
    apply (Permutation_in p (Permutation_sym Hperm)). exact Hp. }
  unfold bind at 1. rewrite (mapM_getsize_files w sorted Hreg).
  rewrite <- (sum_sizes_perm w _ _ Hperm). fold (cache_size cfg w).
  destruct sorted as [|oldest rest].
  { apply Permutation_sym in Hperm. apply Permutation_nil in Hperm. congruence. }
  exists oldest. split; [apply (Permutation_in oldest (Permutation_sym Hperm)); left; reflexivity|].
  split.
  - intros p Hp. apply (Permutation_in p Hperm) in Hp.
    inversion Hsorted as [|? ? _ Hall]; subst.
    destruct Hp as [<- | Hp]; [lia|].
    rewrite Forall_forall in Hall. apply Hall. exact Hp.
  - cbn [ImageCache.evict_loop].
    replace (negb (Qle_bool (ImageCache.to_mb (cache_size cfg w))
                     (inject_Z (ImageCache.effective_max_size cfg max_cache_size_mb))))
      with true by (symmetry; apply over_budget_bytes; exact Hsize).
    unfold bind at 1.
    inversion Hreg as [|? ? Hold _]; subst.
    unfold Os.path_isfile in Hold.
    assert (Hrm : Os.remove oldest w = (Ok tt, set_fs (Os.unlink oldest (fs w)) w)).
    { unfold Os.remove.
      destruct (Os.lookup oldest (fs w)) as [[sz mt|]|]; try discriminate Hold.
      reflexivity. }
    rewrite Hrm. unfold bind at 1.
    rewrite (getsize_after_remove oldest w _ Hrm). reflexivity.
Qed.

Lemma clear_old_cache_removes_the_oldest_witness :
  exists oldest_file,
    In oldest_file (cache_files Fixtures.cfg Fixtures.w_three_files) /\
    (forall p, In p (cache_files Fixtures.cfg Fixtures.w_three_files) ->
               file_mtime Fixtures.w_three_files oldest_file
               <= file_mtime Fixtures.w_three_files p) /\
    ImageCache.clear_old_cache Fixtures.cfg (Some 1) Fixtures.w_three_files
    = (Ok tt,
       add_log ERROR (MsgClearCacheError FileNotFoundError)
               (set_fs (Os.unlink oldest_file (fs Fixtures.w_three_files))
                       Fixtures.w_three_files)).
Proof.
  apply (clear_old_cache_removes_the_oldest Fixtures.cfg (Some 1) Fixtures.w_three_files).
  - reflexivity.
  - vm_compute. discriminate.
  - vm_compute. reflexivity.
Defined.

(** X7. Within budget a pass does nothing, so that passes can be
    repeated: when the regular files of the cache directory weigh no more
    than the budget in force, [clear_old_cache] returns without a change
    to the world, and so does a second pass after it. *)
Theorem clear_old_cache_within_budget_is_idle
  (cfg : Config) (max_cache_size_mb : option Z) (w : world) :
  Os.lookup (IMAGES_CACHE_DIR cfg) (fs w) = Some Dir ->
  cache_size cfg w <= ImageCache.effective_max_size cfg max_cache_size_mb * ImageCache.MiB ->
  ImageCache.clear_old_cache cfg max_cache_size_mb w = (Ok tt, w) /\
  bind (ImageCache.clear_old_cache cfg max_cache_size_mb)
       (fun _ => ImageCache.clear_old_cache cfg max_cache_size_mb) w
  = (Ok tt, w).
Proof.
  intros Hdir Hsize.
  pose proof (clear_old_cache_within_budget cfg max_cache_size_mb w Hdir Hsize) as H.
  split; [exact H|].
  unfold bind. rewrite H. exact H.
Qed.

Lemma clear_old_cache_within_budget_is_idle_witness :
  ImageCache.clear_old_cache Fixtures.cfg (Some 6) Fixtures.w_three_files
  = (Ok tt, Fixtures.w_three_files) /\
  bind (ImageCache.clear_old_cache Fixtures.cfg (Some 6))
       (fun _ => ImageCache.clear_old_cache Fixtures.cfg (Some 6)) Fixtures.w_three_files
  = (Ok tt, Fixtures.w_three_files).
Proof.
  apply (clear_old_cache_within_budget_is_idle Fixtures.cfg (Some 6) Fixtures.w_three_files).
  - reflexivity.
  - vm_compute. discriminate.
Defined.

(** X8. A pass never raises, whatever it meets: a cache directory that is
    missing or is no directory, or the failure of its own loop, ends in a
    logged error, and the file system is left as it was or with one file
    removed. *)
Theorem clear_old_cache_never_raises
  (cfg : Config) (max_cache_size_mb : option Z) (w : world) :
  exists w',
    ImageCache.clear_old_cache cfg max_cache_size_mb w = (Ok tt, w') /\
    (fs w' = fs w \/ exists p, fs w' = Os.unlink p (fs w)) /\
    (Os.lookup (IMAGES_CACHE_DIR cfg) (fs w) <> Some Dir ->
     exists e, w' = add_log ERROR (MsgClearCacheError e) w).
Proof.
  destruct (clear_old_cache_removes_at_most_one cfg max_cache_size_mb w) as (w' & E & Hfs).
  exists w'. split; [exact E|]. split; [exact Hfs|].
  intros Hdir. revert E.
  unfold ImageCache.clear_old_cache, try_except.
  unfold bind at 1. unfold Os.listdir at 1.
  destruct (Os.lookup (IMAGES_CACHE_DIR cfg) (fs w)) as [[sz mt|]|]; try congruence.
  - unfold logger. intros E. injection E as <-. eexists. reflexivity.
  - unfold logger. intros E. injection E as <-. eexists. reflexivity.
Qed.

Lemma clear_old_cache_never_raises_witness :
  exists e,
    snd (ImageCache.clear_old_cache Fixtures.cfg None Fixtures.w_cache_is_file)
    = add_log ERROR (MsgClearCacheError e) Fixtures.w_cache_is_file.
Proof.
  destruct (clear_old_cache_never_raises Fixtures.cfg None Fixtures.w_cache_is_file)
    as (w' & E & _ & H).
  destruct H as [e He]; [vm_compute; discriminate|].
  exists e. rewrite E. exact He.
Defined.

(** ** The whole call, in every world *)

(** X9. A call sends [IMAGE_DOWNLOAD_MAX_RETRIES] requests at most,
    whatever it is given and whatever the network and the file system do. *)
Theorem download_image_requests_bounded
  (cfg : Config) (network : string -> nat -> net_result)
  (image_url : py_value) (force_download : bool) (w : world) :
  (net_calls w
   <= net_calls (snd (ImageCache.download_image cfg network image_url force_download w))
   <= net_calls w + Z.to_nat (IMAGE_DOWNLOAD_MAX_RETRIES cfg))%nat.
Proof.
  destruct image_url as [|url|z].
  - cbn. lia.
  - destruct (ImageCache.download_image cfg network (PyStr url) force_download w)
      as [r w'] eqn:E.
    destruct (download_image_frame cfg network url force_download w r w' E) as (_ & H & _).
    exact H.
  - unfold ImageCache.download_image. cbn [isinstance_str negb].
    rewrite orb_true_r. cbn. lia.
Qed.

(** X10. Where the cache directory is in place, a call changes no path
    but the cache file of its URL: every other path, the cache directory
    among them, is bound after the call as it was before, and so are the
    permissions, whatever the outcome. *)
Theorem download_image_touches_only_its_cache_file
  (cfg : Config) (network : string -> nat -> net_result)
  (image_url : string) (force_download : bool) (w : world) (q : string) :
  Os.lookup (IMAGES_CACHE_DIR cfg) (fs w) = Some Dir ->
  q <> cached_path cfg image_url ->
  Os.lookup q (fs (snd (ImageCache.download_image cfg network (PyStr image_url)
                          force_download w)))
  = Os.lookup q (fs w) /\
  denied (snd (ImageCache.download_image cfg network (PyStr image_url) force_download w))
  = denied w.
Proof.
  intros Hdir Hq.
  destruct image_url as [|c url'] eqn:Hu.
  { rewrite (download_image_invalid_input cfg network (PyStr EmptyString) force_download w)
      by reflexivity.
    split; reflexivity. }
  rewrite <- Hu in *.
  assert (Hurl : image_url <> EmptyString) by (rewrite Hu; discriminate).
  pose proof (ensure_cache_dir_existing cfg w Hdir) as Hmk.
  rewrite (download_image_resolved cfg network image_url force_download w Hurl)
    by (rewrite Hmk; reflexivity).
  unfold ensure_cache_dir. rewrite Hmk. cbn [snd].
  destruct (negb force_download && Os.path_exists (cached_path cfg image_url) w);
    [split; reflexivity|].
  destruct (ImageCache.attempts_loop cfg network image_url (cached_path cfg image_url)
              (ImageCache.range (IMAGE_DOWNLOAD_MAX_RETRIES cfg)) w)
    as [[[p|]|e] w2] eqn:Hloop;
    destruct (attempts_loop_frame cfg network image_url (cached_path cfg image_url)
                _ _ _ _ Hloop) as (L1 & _ & L3).
  - split; [apply L3; exact Hq | exact L1].
  - rewrite fallback_run. cbn [snd].
    destruct (Os.path_exists (DEFAULT_IMAGE_PATH cfg) w2); cbn [fs denied add_log];
      (split; [apply L3; exact Hq | exact L1]).
  - split; [apply L3; exact Hq | exact L1].
Qed.

Lemma download_image_touches_only_its_cache_file_witness :
  Os.lookup "cache"
    (fs (snd (ImageCache.download_image Fixtures.cfg Fixtures.net_png (PyStr Fixtures.url)
                true Fixtures.w_cached)))
  = Os.lookup "cache" (fs Fixtures.w_cached) /\
  denied (snd (ImageCache.download_image Fixtures.cfg Fixtures.net_png (PyStr Fixtures.url)
                 true Fixtures.w_cached))
  = denied Fixtures.w_cached.
Proof.
  apply (download_image_touches_only_its_cache_file Fixtures.cfg Fixtures.net_png
           Fixtures.url true Fixtures.w_cached "cache").
  - reflexivity.
  - vm_compute. discriminate.
Defined.

(** X11. [None], the empty string and values that are no strings are
    turned down before anything else happens: the call logs one error and
    returns [None] without a request, without a sleep and without touching
    the file system, even where the cache directory could not be made. *)
Theorem invalid_url_is_rejected_first
  (cfg : Config) (network : string -> nat -> net_result)
  (image_url : py_value) (force_download : bool) (w : world) :
  image_url = PyNone \/ image_url = PyStr EmptyString \/ isinstance_str image_url = false ->
  ImageCache.download_image cfg network image_url force_download w
  = (Ok None, add_log ERROR (MsgInvalidUrl image_url) w) /\
  fs (add_log ERROR (MsgInvalidUrl image_url) w) = fs w /\
  net_calls (add_log ERROR (MsgInvalidUrl image_url) w) = net_calls w /\
  events (add_log ERROR (MsgInvalidUrl image_url) w) = events w.
Proof.
  intros H. split; [|repeat split].
  apply download_image_invalid_input.
  destruct H as [-> | [-> | H]]; [reflexivity | reflexivity |].
  rewrite H. apply andb_false_r.
Qed.

Lemma invalid_url_is_rejected_first_witness :
  ImageCache.download_image Fixtures.cfg Fixtures.net_png (PyStr EmptyString) true
    Fixtures.w_cache_is_file
  = (Ok None, add_log ERROR (MsgInvalidUrl (PyStr EmptyString)) Fixtures.w_cache_is_file).
Proof.
  apply (invalid_url_is_rejected_first Fixtures.cfg Fixtures.net_png (PyStr EmptyString)
           true Fixtures.w_cache_is_file).
  right. left. reflexivity.
Defined.

(** X12. A regular file where the cache directory should be stops every
    call on a non-empty string before it starts: [os.makedirs] raises
    [FileExistsError], which leaves [download_image] with no request sent,
    no sleep taken, nothing logged and the file system as it was, whatever
    the network would answer and whether or not the download is forced. *)
Theorem cache_dir_taken_by_file_raises
  (cfg : Config) (network : string -> nat -> net_result)
  (image_url : string) (force_download : bool) (w : world) (sz mt : Z) :
  image_url <> EmptyString ->
  Os.lookup (IMAGES_CACHE_DIR cfg) (fs w) = Some (File sz mt) ->
  ImageCache.download_image cfg network (PyStr image_url) force_download w
  = (Raise FileExistsError, w).
Proof.
  intros Hurl Hfile.
  unfold ImageCache.download_image.
  cbn [py_truthy isinstance_str negb orb].
  rewrite (truthy_nonempty image_url Hurl). cbn [negb orb].
  unfold ImageCache.get_cached_image_path.
  unfold bind at 1. unfold bind at 1.
  unfold Os.makedirs. rewrite Hfile. reflexivity.
Qed.

Lemma cache_dir_taken_by_file_raises_witness :
  ImageCache.download_image Fixtures.cfg Fixtures.net_down (PyStr "http://y/b.gif") true
    Fixtures.w_cache_is_file
  = (Raise FileExistsError, Fixtures.w_cache_is_file).
Proof.
  apply (cache_dir_taken_by_file_raises Fixtures.cfg Fixtures.net_down "http://y/b.gif"
           true Fixtures.w_cache_is_file 1 1).
  - discriminate.
  - reflexivity.
Defined.

Lemma lookup_app_absent (p : string) (n : node) (f : list (string * node)) :
  Os.lookup p f = None -> Os.lookup p (f ++ [(p, n)]) = Some n.
Proof.
  induction f as [|[q m] f IH]; cbn [app Os.lookup].
  - intros _. rewrite String.eqb_refl. reflexivity.
  - destruct (String.eqb q p); [discriminate | exact IH].
Qed.

(** Once [os.makedirs] has returned, the directory is there. *)
Lemma makedirs_ok_is_dir (d : string) (w : world) :
  fst (Os.makedirs d w) = Ok tt ->
  Os.lookup d (fs (snd (Os.makedirs d w))) = Some Dir.
Proof.
  unfold Os.makedirs.
  destruct (Os.lookup d (fs w)) as [[sz mt|]|] eqn:E; cbn [fst snd]; try discriminate.
  - intros _. exact E.
  - destruct (negb (PyStr.truthy d)); [discriminate|].
    destruct (existsb (String.eqb d) (denied w)); [discriminate|].
    intros _. cbn [fs set_fs snd]. apply lookup_app_absent. exact E.
Qed.

(** What holds whenever a call returns a path. *)
Lemma download_image_returned
  (cfg : Config) (network : string -> nat -> net_result)
  (image_url : string) (force_download : bool) (w w' : world) (p : string) :
  ImageCache.download_image cfg network (PyStr image_url) force_download w
  = (Ok (Some p), w') ->
  image_url <> EmptyString /\
  Os.lookup (IMAGES_CACHE_DIR cfg) (fs w') = Some Dir /\
  Os.path_exists p w' = true.
Proof.
  intros H.
  destruct image_url as [|c url'] eqn:Hu.
  { rewrite (download_image_invalid_input cfg network (PyStr EmptyString) force_download w)
      in H by reflexivity.
    discriminate H. }
  rewrite <- Hu in *.
  assert (Hurl : image_url <> EmptyString) by (rewrite Hu; discriminate).
  split; [exact Hurl|].
  destruct (fst (Os.makedirs (IMAGES_CACHE_DIR cfg) w)) as [[]|e] eqn:Hmk.
  2:{ pose proof (download_image_makedirs_raises cfg network image_url force_download w e
                    Hurl Hmk) as Hr.
      rewrite H in Hr. discriminate Hr. }
  pose proof (makedirs_ok_is_dir _ _ Hmk) as Hdir. fold (ensure_cache_dir cfg w) in Hdir.
  rewrite (download_image_resolved cfg network image_url force_download w Hurl Hmk) in H.
  destruct (negb force_download
            && Os.path_exists (cached_path cfg image_url) (ensure_cache_dir cfg w))
    eqn:Hhit.
  - injection H as <- <-. apply andb_true_iff in Hhit as [_ Hex].
    split; [exact Hdir | exact Hex].
  - destruct (ImageCache.attempts_loop cfg network image_url (cached_path cfg image_url)
                (ImageCache.range (IMAGE_DOWNLOAD_MAX_RETRIES cfg))
                (ensure_cache_dir cfg w)) as [[[q|]|e] w2] eqn:Hloop;
      [| |discriminate H];
      destruct (attempts_loop_frame cfg network image_url (cached_path cfg image_url)
                  _ _ _ _ Hloop) as (_ & _ & L3);
      pose proof (L3 (IMAGES_CACHE_DIR cfg)
                    (fun E => cached_path_not_cache_dir cfg image_url (eq_sym E))) as Hd2;
      rewrite Hdir in Hd2.
    + injection H as <- <-. split; [exact Hd2|].
      destruct (attempts_loop_return_nonempty cfg network image_url
                  (cached_path cfg image_url) _ _ _ _ Hloop) as [-> (sz & mt & Hl & _)].
      unfold Os.path_exists. rewrite Hl. reflexivity.
    + rewrite fallback_run in H. injection H as Hv Hw.
      unfold fallback_value in Hv.
      destruct (Os.path_exists (DEFAULT_IMAGE_PATH cfg) w2) eqn:Hex; [|discriminate Hv].
      injection Hv as <-. subst w'.
      split; [exact Hd2 | exact Hex].
Qed.

(** X13. A path that a call returns exists when the call returns, be it
    the cache path or the default image. *)
Theorem download_image_returns_existing_path
  (cfg : Config) (network : string -> nat -> net_result)
  (image_url : py_value) (force_download : bool) (w w' : world) (p : string) :
  ImageCache.download_image cfg network image_url force_download w = (Ok (Some p), w') ->
  Os.path_exists p w' = true.
Proof.
  intros H. destruct image_url as [|url|z].
  - discriminate H.
  - apply (download_image_returned cfg network url force_download w w' p H).
  - unfold ImageCache.download_image in H. cbn [isinstance_str negb] in H.
    rewrite orb_true_r in H. discriminate H.
Qed.

Lemma download_image_returns_existing_path_witness :
  Os.path_exists Fixtures.url_path
    (snd (ImageCache.download_image Fixtures.cfg Fixtures.net_png (PyStr Fixtures.url) false
            Fixtures.w_empty))
  = true.
Proof.
  apply (download_image_returns_existing_path Fixtures.cfg Fixtures.net_png
           (PyStr Fixtures.url) false Fixtures.w_empty).
  vm_compute. reflexivity.
Defined.

(** X14. What a call has put in the cache, the next call finds: after a
    call that returned the cache path of a URL, a call for the same URL
    that is not forced returns that path again without a request and
    without a change to the world, whatever the network would answer. *)
Theorem cached_entry_is_hit_by_next_call
  (cfg : Config) (network network' : string -> nat -> net_result)
  (image_url : string) (force_download : bool) (w w' : world) :
  ImageCache.download_image cfg network (PyStr image_url) force_download w
  = (Ok (Some (cached_path cfg image_url)), w') ->
  ImageCache.download_image cfg network' (PyStr image_url) false w'
  = (Ok (Some (cached_path cfg image_url)), w').
Proof.
  intros H.
  destruct (download_image_returned cfg network image_url force_download w w' _ H)
    as (Hurl & Hdir & Hex).
  pose proof (ensure_cache_dir_existing cfg w' Hdir) as Hmk.
  rewrite (download_image_resolved cfg network' image_url false w' Hurl)
    by (rewrite Hmk; reflexivity).
  unfold ensure_cache_dir. rewrite Hmk. cbn [snd negb andb]. rewrite Hex. reflexivity.
Qed.

Lemma cached_entry_is_hit_by_next_call_witness :
  ImageCache.download_image Fixtures.cfg Fixtures.net_down (PyStr Fixtures.url) false
    (snd (ImageCache.download_image Fixtures.cfg Fixtures.net_png (PyStr Fixtures.url) true
            Fixtures.w_no_default))
  = (Ok (Some (cached_path Fixtures.cfg Fixtures.url)),
     snd (ImageCache.download_image Fixtures.cfg Fixtures.net_png (PyStr Fixtures.url) true
            Fixtures.w_no_default)).
Proof.
  apply (cached_entry_is_hit_by_next_call Fixtures.cfg Fixtures.net_png Fixtures.net_down
           Fixtures.url true Fixtures.w_no_default).
  vm_compute. reflexivity.
Defined.

(** ** A delay schedule that is too short *)

Section ShortSchedule.

Variable cfg : Config.
Variable network : string -> nat -> net_result.
Variables (image_url path : string).

Lemma backoff_with_delay (a : nat) (d : Z) (w : world) :
  nth_error (IMAGE_DOWNLOAD_RETRY_DELAYS cfg) a = Some d ->
  0 <= d ->
  Z.of_nat a < IMAGE_DOWNLOAD_MAX_RETRIES cfg - 1 ->
  ImageCache.backoff cfg (Z.of_nat a) w = (Ok tt, add_sleep d w).
Proof.
  intros Hd Hpos Ha. unfold ImageCache.backoff.
  replace (Z.of_nat a <? IMAGE_DOWNLOAD_MAX_RETRIES cfg - 1) with true
    by (symmetry; apply Z.ltb_lt; exact Ha).
  rewrite Nat2Z.id, Hd. unfold Time.sleep.
  replace (d <? 0) with false by (symmetry; apply Z.ltb_ge; exact Hpos).
  reflexivity.
Qed.

Lemma backoff_without_delay (a : nat) (w : world) :
  nth_error (IMAGE_DOWNLOAD_RETRY_DELAYS cfg) a = None ->
  Z.of_nat a < IMAGE_DOWNLOAD_MAX_RETRIES cfg - 1 ->
  ImageCache.backoff cfg (Z.of_nat a) w = (Raise IndexError, w).
Proof.
  intros Hd Ha. unfold ImageCache.backoff.
  replace (Z.of_nat a <? IMAGE_DOWNLOAD_MAX_RETRIES cfg - 1) with true
    by (symmetry; apply Z.ltb_lt; exact Ha).
  rewrite Nat2Z.id, Hd. reflexivity.
Qed.

(** Retried failures for as long as the schedule has delays. *)
Lemma attempts_loop_scheduled_prefix :
  Forall (fun d => 0 <= d) (IMAGE_DOWNLOAD_RETRY_DELAYS cfg) ->
  forall k a rest w,
    Z.of_nat (a + k) <= IMAGE_DOWNLOAD_MAX_RETRIES cfg - 1 ->
    (a + k <= List.length (IMAGE_DOWNLOAD_RETRY_DELAYS cfg))%nat ->
    (forall i, (i < k)%nat -> transient (network image_url (net_calls w + i)%nat) = true) ->
    exists w',
      ImageCache.attempts_loop cfg network image_url path
        (map Z.of_nat (seq a k) ++ rest) w
      = ImageCache.attempts_loop cfg network image_url path rest w' /\
      net_calls w' = (net_calls w + k)%nat /\
      events w'
      = events w ++ backoff_events image_url
                      (firstn k (skipn a (IMAGE_DOWNLOAD_RETRY_DELAYS cfg))).
Proof.
  intros Hpos.
  induction k as [|k IH]; intros a rest w Hak Hlen Htr.
  - exists w. cbn. rewrite Nat.add_0_r, app_nil_r. repeat split; reflexivity.
  - cbn [seq map app ImageCache.attempts_loop].
    unfold bind at 1.
    destruct (attempt_try_transient network image_url path (Z.of_nat a) w) as [m ->].
    { specialize (Htr 0%nat). rewrite Nat.add_0_r in Htr. apply Htr. lia. }
    set (w1 := add_log WARNING m (count_request image_url w)).
    unfold bind at 1.
    destruct (nth_error (IMAGE_DOWNLOAD_RETRY_DELAYS cfg) a) as [d|] eqn:Hd;
      [|apply nth_error_None in Hd; lia].
    rewrite (backoff_with_delay a d w1 Hd)
      by (try lia; rewrite Forall_forall in Hpos; apply Hpos; eapply nth_error_In; exact Hd).
    destruct (IH (S a) rest (add_sleep d w1)) as (w' & R1 & R2 & R3); [lia | lia | |].
    { intros i Hi. cbn [net_calls add_sleep w1 add_log count_request].
      replace (S (net_calls w) + i)%nat with (net_calls w + S i)%nat by lia.
      apply Htr. lia. }
    exists w'. split; [exact R1|]. split; [rewrite R2; cbn; lia|].
    rewrite R3. cbn [events add_sleep w1 add_log count_request].
    rewrite (skipn_nth_error _ a d Hd).
    cbn [firstn backoff_events flat_map app]. rewrite <- !app_assoc. reflexivity.
Qed.

End ShortSchedule.

(** X15. When the delay schedule is shorter than the retries need, the
    failure to index it is not caught: after as many retried failures as
    the schedule has delays, and one more, the call raises [IndexError]
    instead of going on to the attempts that are left or to the fallback. *)
Theorem short_delay_schedule_raises_index_error
  (cfg : Config) (network : string -> nat -> net_result)
  (image_url : string) (force_download : bool) (w : world) :
  image_url <> EmptyString ->
  fst (Os.makedirs (IMAGES_CACHE_DIR cfg) w) = Ok tt ->
  force_download = true \/
    Os.path_exists (cached_path cfg image_url) (ensure_cache_dir cfg w) = false ->
  Forall (fun d => 0 <= d) (IMAGE_DOWNLOAD_RETRY_DELAYS cfg) ->
  Z.of_nat (List.length (IMAGE_DOWNLOAD_RETRY_DELAYS cfg))
  < IMAGE_DOWNLOAD_MAX_RETRIES cfg - 1 ->
  (forall i, (i <= List.length (IMAGE_DOWNLOAD_RETRY_DELAYS cfg))%nat ->
             transient (network image_url (net_calls w + i)%nat) = true) ->
  exists w',
    ImageCache.download_image cfg network (PyStr image_url) force_download w
    = (Raise IndexError, w') /\
    net_calls w'
    = (net_calls w + S (List.length (IMAGE_DOWNLOAD_RETRY_DELAYS cfg)))%nat /\
    events w'
    = events w
      ++ backoff_events image_url (IMAGE_DOWNLOAD_RETRY_DELAYS cfg)
      ++ [Requested image_url].
Proof.
  intros Hurl Hdir Hmiss Hpos Hshort Hfail.
  rewrite (download_image_miss cfg network image_url force_download w Hurl Hdir Hmiss).
  destruct (ensure_cache_dir_frame cfg w) as (_ & _ & Fn & Fe & _).
  set (k := List.length (IMAGE_DOWNLOAD_RETRY_DELAYS cfg)) in *.
  rewrite (range_split (IMAGE_DOWNLOAD_MAX_RETRIES cfg) k) by lia.
  destruct (attempts_loop_scheduled_prefix cfg network image_url
              (cached_path cfg image_url) Hpos k 0%nat
              (Z.of_nat k
               :: map Z.of_nat (seq (S k) (Z.to_nat (IMAGE_DOWNLOAD_MAX_RETRIES cfg) - S k)))
              (ensure_cache_dir cfg w))
    as (w1 & R1 & R2 & R3);
    [lia | subst k; lia | intros i Hi; rewrite Fn; apply Hfail; lia |].
  rewrite R1. cbn [ImageCache.attempts_loop]. unfold bind at 1.
  destruct (attempt_try_transient network image_url (cached_path cfg image_url)
              (Z.of_nat k) w1) as [m ->].
  { rewrite R2, Fn. apply Hfail. lia. }
  unfold bind at 1.
  rewrite backoff_without_delay by (try lia; apply nth_error_None; subst k; lia).
  eexists. split; [reflexivity|].
  cbn [net_calls events add_log count_request].
  split; [rewrite R2, Fn; lia|].
  rewrite R3, Fe. cbn [skipn]. subst k. rewrite firstn_all, <- app_assoc. reflexivity.
Qed.

Lemma short_delay_schedule_raises_index_error_witness :
  exists w',
    ImageCache.download_image Fixtures.cfg_short Fixtures.net_down (PyStr Fixtures.url) false
      Fixtures.w_empty
    = (Raise IndexError, w') /\
    net_calls w' = (net_calls Fixtures.w_empty + 2)%nat /\
    events w'
    = events Fixtures.w_empty ++ backoff_events Fixtures.url [1] ++ [Requested Fixtures.url].
Proof.
  apply (short_delay_schedule_raises_index_error Fixtures.cfg_short Fixtures.net_down
           Fixtures.url false Fixtures.w_empty).
  - discriminate.
  - reflexivity.
  - right. vm_compute. reflexivity.
  - repeat constructor. lia.
  - cbn. lia.
  - intros i _. reflexivity.
Defined.

(** ** Attempts that end without a retry *)




(** X17. A response that is no image is never saved and never waited
    for: when every response passes [raise_for_status] without declaring
    an image, the call sends its [IMAGE_DOWNLOAD_MAX_RETRIES] requests in a
    row without a sleep, writes nothing, and returns the default image if
    it exists, [None] otherwise. *)
Theorem content_mismatch_is_retried_at_once
  (cfg : Config) (network : string -> nat -> net_result)
  (image_url : string) (force_download : bool) (w : world) :
  image_url <> EmptyString ->
  fst (Os.makedirs (IMAGES_CACHE_DIR cfg) w) = Ok tt ->
  force_download = true \/
    Os.path_exists (cached_path cfg image_url) (ensure_cache_dir cfg w) = false ->
  (forall n, exists r, network image_url n = NetResponse r /\ mismatch_response r = true) ->
  exists w',
    ImageCache.download_image cfg network (PyStr image_url) force_download w
    = (Ok (fallback_value cfg w'), w') /\
    events w'
    = events w ++ repeat (Requested image_url) (Z.to_nat (IMAGE_DOWNLOAD_MAX_RETRIES cfg)) /\
    sleep_count (events w') = sleep_count (events w) /\
    fs w' = fs (ensure_cache_dir cfg w).
Proof.
  intros Hurl Hdir Hmiss Hnet.
  destruct (content_mismatch_exhausts_without_sleep cfg network image_url force_download w
              Hurl Hdir Hmiss Hnet) as (w' & E & _ & Hev & Hfs).
  exists w'. split; [exact E|]. split; [exact Hev|]. split; [|exact Hfs].
  rewrite Hev. unfold sleep_count. rewrite filter_app, length_app.
  clear Hev.
  replace (filter _ (repeat (Requested image_url) _)) with (@nil io_event);
    [cbn; lia|].
  induction (Z.to_nat (IMAGE_DOWNLOAD_MAX_RETRIES cfg)) as [|n IH]; [reflexivity|].
  cbn [repeat filter]. exact IH.
Qed.

Lemma content_mismatch_is_retried_at_once_witness :
  exists w',
    ImageCache.download_image Fixtures.cfg Fixtures.net_html (PyStr Fixtures.url) false
      Fixtures.w_no_default
    = (Ok (fallback_value Fixtures.cfg w'), w') /\
    events w' = events Fixtures.w_no_default ++ repeat (Requested Fixtures.url) 3 /\
    sleep_count (events w') = sleep_count (events Fixtures.w_no_default) /\
    fs w' = fs (ensure_cache_dir Fixtures.cfg Fixtures.w_no_default).
Proof.
  apply (content_mismatch_is_retried_at_once Fixtures.cfg Fixtures.net_html
           Fixtures.url false Fixtures.w_no_default).
  - discriminate.
  - reflexivity.
  - right. vm_compute. reflexivity.
  - intros n. exists Fixtures.html. split; reflexivity.
Defined.

(** ** Sleeps *)

Lemma sleep_count_app (a b : list io_event) :
  sleep_count (a ++ b) = (sleep_count a + sleep_count b)%nat.
Proof. unfold sleep_count. rewrite filter_app, length_app. reflexivity. Qed.

(** The loop over the attempts [a], ..., [a + k - 1], when these reach the
    last attempt allowed: its events end with a request, and it sleeps less
    often than it has attempts. *)
Lemma attempts_loop_sleeps
  (cfg : Config) (network : string -> nat -> net_result) (image_url path : string) :
  forall k a w r w',
    IMAGE_DOWNLOAD_MAX_RETRIES cfg <= Z.of_nat (a + k) ->
    ImageCache.attempts_loop cfg network image_url path (map Z.of_nat (seq a k)) w
    = (r, w') ->
    exists evs,
      events w' = events w ++ evs /\
      (k = 0%nat -> evs = []) /\
      ((1 <= k)%nat -> exists evs0, evs = evs0 ++ [Requested image_url]) /\
      (sleep_count evs <= k - 1)%nat.
Proof.
  induction k as [|k IH]; intros a w r w' Hak.
  - cbn. intros H. injection H as _ <-. exists []. rewrite app_nil_r.
    repeat split; try reflexivity; try lia.
  - cbn [seq map ImageCache.attempts_loop]. unfold bind at 1.
    destruct (ImageCache.attempt_try network (Z.of_nat a) image_url path w)
      as [[c|e] w1] eqn:Ht;
      destruct (attempt_try_frame network (Z.of_nat a) image_url path w _ _ Ht)
        as (_ & _ & _ & Fe & _).
    2:{ intros H. injection H as _ <-. exists [Requested image_url].
        split; [exact Fe|]. split; [lia|]. split; [exists []; reflexivity | cbn; lia]. }
    assert (Hstop : forall r0, (r0, w1) = (r, w') ->
              exists evs, events w' = events w ++ evs /\
                (S k = 0%nat -> evs = []) /\
                ((1 <= S k)%nat -> exists evs0, evs = evs0 ++ [Requested image_url]) /\
                (sleep_count evs <= S k - 1)%nat).
    { intros r0 H. injection H as _ <-. exists [Requested image_url].
      split; [exact Fe|]. split; [lia|]. split; [exists []; reflexivity | cbn; lia]. }
    assert (Hgo : forall w2 pre,
              events w2 = events w ++ Requested image_url :: pre ->
              (sleep_count pre + (k - 1) <= k)%nat ->
              (pre <> [] -> (1 <= k)%nat) ->
              ImageCache.attempts_loop cfg network image_url path
                (map Z.of_nat (seq (S a) k)) w2 = (r, w') ->
              exists evs, events w' = events w ++ evs /\
                (S k = 0%nat -> evs = []) /\
                ((1 <= S k)%nat -> exists evs0, evs = evs0 ++ [Requested image_url]) /\
                (sleep_count evs <= S k - 1)%nat).
    { intros w2 pre He Hcount Hpre H.
      destruct (IH (S a) w2 r w') as (evs' & E1 & E2 & E3 & E4); [lia | exact H |].
      exists (Requested image_url :: pre ++ evs').
      split; [rewrite E1, He, <- app_assoc; reflexivity|].
      split; [lia|]. split.
      - intros _. destruct k as [|k'].
        + rewrite (E2 eq_refl), app_nil_r.
          destruct pre as [|x pre']; [exists []; reflexivity|].
          assert (1 <= 0)%nat by (apply Hpre; discriminate). lia.
        + destruct E3 as [evs0 ->]; [lia|].
          exists (Requested image_url :: pre ++ evs0).
          cbn [app]. rewrite app_assoc. reflexivity.
      - change (Requested image_url :: pre ++ evs')
          with ([Requested image_url] ++ pre ++ evs').
        rewrite !sleep_count_app. cbn [sleep_count filter List.length].
        change (sleep_count [Requested image_url]) with 0%nat. lia. }
    destruct c as [p| | |].
    + unfold ret. apply Hstop.
    + apply (Hgo w1 []); [exact Fe | cbn; lia | congruence].
    + unfold ret. apply Hstop.
    + unfold bind at 1. unfold ImageCache.backoff.
      destruct (Z.of_nat a <? IMAGE_DOWNLOAD_MAX_RETRIES cfg - 1) eqn:Ea.
      * apply Z.ltb_lt in Ea.
        destruct (nth_error (IMAGE_DOWNLOAD_RETRY_DELAYS cfg) (Z.to_nat (Z.of_nat a)))
          as [d|]; [|apply Hstop].
        unfold Time.sleep. destruct (d <? 0); [apply Hstop|].
        apply (Hgo (add_sleep d w1) [Slept d]).
        -- cbn [events add_sleep]. rewrite Fe, <- app_assoc. reflexivity.
        -- cbn. lia.
        -- intros _. lia.
      * unfold ret at 1. apply (Hgo w1 []); [exact Fe | cbn; lia | congruence].
Qed.

(** X18. A call never ends on a sleep and sleeps less often than it may
    try: whatever the network and the file system do, the events of a call
    on a string are none, or end with a request, and hold fewer sleeps than
    [IMAGE_DOWNLOAD_MAX_RETRIES]. *)
Theorem download_image_never_ends_on_a_sleep
  (cfg : Config) (network : string -> nat -> net_result)
  (image_url : string) (force_download : bool) (w w' : world)
  (r : result (option string)) :
  ImageCache.download_image cfg network (PyStr image_url) force_download w = (r, w') ->
  exists evs,
    events w' = events w ++ evs /\
    (evs = [] \/ exists evs0, evs = evs0 ++ [Requested image_url]) /\
    (sleep_count evs <= Z.to_nat (IMAGE_DOWNLOAD_MAX_RETRIES cfg) - 1)%nat.
Proof.
  assert (Hnone : forall v, events v = events w ->
            exists evs, events v = events w ++ evs /\
              (evs = [] \/ exists evs0, evs = evs0 ++ [Requested image_url]) /\
              (sleep_count evs <= Z.to_nat (IMAGE_DOWNLOAD_MAX_RETRIES cfg) - 1)%nat).
  { intros v Hv. exists []. rewrite app_nil_r. split; [exact Hv|].
    split; [left; reflexivity | cbn; lia]. }
  unfold ImageCache.download_image.
  destruct (negb (py_truthy (PyStr image_url)) || negb (isinstance_str (PyStr image_url))).
  { unfold bind, logger, ret. intros H. injection H as _ <-. apply Hnone. reflexivity. }
  unfold ImageCache.get_cached_image_path.
  unfold bind at 1. unfold bind at 1.
  pose proof (ensure_cache_dir_frame cfg w) as (_ & _ & _ & Fe & _).
  unfold ensure_cache_dir in Fe.
  destruct (Os.makedirs (IMAGES_CACHE_DIR cfg) w) as [[[]|e] w1]; cbn [snd] in Fe.
  2:{ intros H. injection H as _ <-. apply Hnone. exact Fe. }
  unfold ret at 1. unfold bind at 1. unfold Os.exists_ at 1.
  fold (ImageCache.cached_filename image_url). fold (cached_path cfg image_url).
  destruct (negb force_download && Os.path_exists (cached_path cfg image_url) w1).
  { unfold ret. intros H. injection H as _ <-. apply Hnone. exact Fe. }
  unfold bind at 1. unfold ImageCache.range.
  destruct (ImageCache.attempts_loop cfg network image_url (cached_path cfg image_url)
              (map Z.of_nat (seq 0 (Z.to_nat (IMAGE_DOWNLOAD_MAX_RETRIES cfg)))) w1)
    as [r1 w2] eqn:Hloop.
  destruct (attempts_loop_sleeps cfg network image_url (cached_path cfg image_url)
              (Z.to_nat (IMAGE_DOWNLOAD_MAX_RETRIES cfg)) 0%nat w1 r1 w2)
    as (evs & E1 & E2 & E3 & E4); [lia | exact Hloop |].
  assert (Hshape : evs = [] \/ exists evs0, evs = evs0 ++ [Requested image_url]).
  { destruct (Z.to_nat (IMAGE_DOWNLOAD_MAX_RETRIES cfg)) as [|n];
      [left; apply E2; reflexivity | right; apply E3; lia]. }
  assert (Hdone : forall v, events v = events w2 ->
            exists evs, events v = events w ++ evs /\
              (evs = [] \/ exists evs0, evs = evs0 ++ [Requested image_url]) /\
              (sleep_count evs <= Z.to_nat (IMAGE_DOWNLOAD_MAX_RETRIES cfg) - 1)%nat).
  { intros v Hv. exists evs. rewrite Hv, E1, Fe. repeat split; assumption. }
  destruct r1 as [[p|]|e].
  - unfold ret. intros H. injection H as _ <-. apply Hdone. reflexivity.
  - intros H. destruct (fallback_frame cfg image_url w2) as (_ & _ & G3).
    rewrite H in G3. cbn [snd] in G3. apply Hdone. exact G3.
  - intros H. injection H as _ <-. apply Hdone. reflexivity.
Qed.

Lemma download_image_never_ends_on_a_sleep_witness :
  exists evs,
    events (snd (ImageCache.download_image Fixtures.cfg Fixtures.net_down
                   (PyStr Fixtures.url) false Fixtures.w_empty))
    = events Fixtures.w_empty ++ evs /\
    (evs = [] \/ exists evs0, evs = evs0 ++ [Requested Fixtures.url]) /\
    (sleep_count evs <= 3 - 1)%nat.
Proof.
  apply (download_image_never_ends_on_a_sleep Fixtures.cfg Fixtures.net_down
           Fixtures.url false Fixtures.w_empty _
           (fst (ImageCache.download_image Fixtures.cfg Fixtures.net_down
                   (PyStr Fixtures.url) false Fixtures.w_empty))).
  vm_compute. reflexivity.
Defined.

(** X19. A forced download that returns the cache path has written it:
    when the call is forced and the path it returns is the cache path (and
    not the default image standing at the same place), the file there is a
    regular file that is not empty. *)
Theorem forced_download_returns_nonempty_file
  (cfg : Config) (network : string -> nat -> net_result)
  (image_url : string) (w w' : world) :
  DEFAULT_IMAGE_PATH cfg <> cached_path cfg image_url ->
  ImageCache.download_image cfg network (PyStr image_url) true w
  = (Ok (Some (cached_path cfg image_url)), w') ->
  exists sz mt,
    Os.lookup (cached_path cfg image_url) (fs w') = Some (File sz mt) /\ sz <> 0.
Proof.
  intros Hdef H.
  destruct (download_image_returned_path cfg network image_url true w w' _ H)
    as [E | [(E & _) | (_ & sz & mt & Hl & Hsz)]].
  - congruence.
  - discriminate E.
  - exists sz, mt. split; [exact Hl | exact Hsz].
Qed.

Lemma forced_download_returns_nonempty_file_witness :
  exists sz mt,
    Os.lookup (cached_path Fixtures.cfg Fixtures.url)
      (fs (snd (ImageCache.download_image Fixtures.cfg Fixtures.net_png (PyStr Fixtures.url)
                  true Fixtures.w_cached)))
    = Some (File sz mt) /\ sz <> 0.
Proof.
  apply (forced_download_returns_nonempty_file Fixtures.cfg Fixtures.net_png Fixtures.url
           Fixtures.w_cached).
  - vm_compute. discriminate.
  - vm_compute. reflexivity.
Defined.
